(** * TaskManager: a shallow embedding of the task bot's decision logic

    The development follows [task_bot/bot.py] and [task_bot/google_sheets.py]:
    the due-date normaliser, the sheet adapter (next id, append, filtered
    read, update, complete), the chat handlers built on them and the grouping
    and sending step of the reminder loop.

    Modelling conventions.
    - Text is [string], one [ascii] per character.  The character classes
      ([str.lower], [str.isdigit], the [\d] and [\s] of [re]) are Python's on
      the code points 0..127; the code points 128..255 are carried along as
      symbols of no class.
    - [datetime.now()] is an argument of every function that reads the clock;
      one run of a function reads one clock value.
    - [date + timedelta(days=n)] is total here; CPython raises
      [OverflowError] past 9999-12-31, so the statements about date
      arithmetic take a clock that reads a year below 9999 ([clock_ok]).
    - The worksheet is a grid of cell texts, row 1 being the header row; the
      gspread calls used by the code are modelled on that grid
      ([col_values], [row_values], [get_all_records], [append_row], [find],
      [update_cell], [update]), every row holding one cell per column and
      every cell read back as the text it holds ([get_all_records] without
      numeric conversion).
    - An exception that leaves a function is the outcome [Raise]. *)

From Stdlib Require Import String Ascii List ZArith Lia Bool Arith.
From stdpp Require Import base option list gmap strings.
Import ListNotations.

Local Open Scope nat_scope.

(** ** Text primitives *)

Module Text.

Definition code (c : ascii) : nat := nat_of_ascii c.

(** [c.isdigit()] for one character. *)
Definition is_digit (c : ascii) : bool := (48 <=? code c) && (code c <=? 57).

(** The characters [\s] matches and [str.strip] removes. *)
Definition is_space (c : ascii) : bool :=
  ((9 <=? code c) && (code c <=? 13)) || ((28 <=? code c) && (code c <=? 32)).

Definition is_upper (c : ascii) : bool := (65 <=? code c) && (code c <=? 90).

Definition lower_char (c : ascii) : ascii :=
  if is_upper c then ascii_of_nat (code c + 32) else c.

(** [s.lower()] *)
Fixpoint lower (s : string) : string :=
  match s with
  | EmptyString => EmptyString
  | String c r => String (lower_char c) (lower r)
  end.

(** [s.startswith(p)] *)
Fixpoint starts_with (p s : string) : bool :=
  match p, s with
  | EmptyString, _ => true
  | String a p', String b s' => Ascii.eqb a b && starts_with p' s'
  | String _ _, EmptyString => false
  end.

(** [p in s] *)
Fixpoint contains (p s : string) : bool :=
  starts_with p s ||
  match s with
  | EmptyString => false
  | String _ r => contains p r
  end.

(** [c in s] for one character. *)
Fixpoint has_char (c : ascii) (s : string) : bool :=
  match s with
  | EmptyString => false
  | String a r => Ascii.eqb c a || has_char c r
  end.

(** [s.split(" ")[0]]: the text before the first space. *)
Fixpoint before_space (s : string) : string :=
  match s with
  | EmptyString => EmptyString
  | String c r => if Ascii.eqb c " " then EmptyString else String c (before_space r)
  end.

Fixpoint all_chars (p : ascii -> bool) (s : string) : bool :=
  match s with
  | EmptyString => true
  | String c r => p c && all_chars p r
  end.

(** [s.isdigit()]: at least one character, all of them digits. *)
Definition isdigit (s : string) : bool :=
  match s with
  | EmptyString => false
  | _ => all_chars is_digit s
  end.

Definition digit_val (c : ascii) : nat := code c - 48.

Definition digit_char (n : nat) : ascii := ascii_of_nat (48 + n).

(** The value of a run of decimal digits, most significant first. *)
Fixpoint digits_val (acc : nat) (s : string) : nat :=
  match s with
  | EmptyString => acc
  | String c r => digits_val (10 * acc + digit_val c) r
  end.

(** Decimal digits of [n], least significant last; [fuel] bounds the number
    of digits. *)
Fixpoint digits_of (fuel n : nat) (acc : string) : string :=
  match fuel with
  | 0 => acc
  | S f =>
      let acc' := String (digit_char (n mod 10)) acc in
      if n / 10 =? 0 then acc' else digits_of f (n / 10) acc'
  end.

(** [str(n)] for a natural number. *)
Definition str_nat (n : nat) : string := digits_of (S n) n EmptyString.

(** [str(z)] for an integer. *)
Definition str_int (z : Z) : string :=
  match z with
  | Zneg p => String "-" (str_nat (Pos.to_nat p))
  | _ => str_nat (Z.to_nat z)
  end.

(** [%02d] and [%04d] as [strftime] writes its fields. *)
Definition pad2 (n : nat) : string :=
  String (digit_char (n / 10 mod 10)) (String (digit_char (n mod 10)) EmptyString).

Definition pad4 (n : nat) : string :=
  String (digit_char (n / 1000 mod 10)) (String (digit_char (n / 100 mod 10)) (pad2 n)).

Fixpoint drop_while (p : ascii -> bool) (s : string) : string :=
  match s with
  | EmptyString => EmptyString
  | String c r => if p c then drop_while p r else s
  end.

(** [s.rstrip()] *)
Fixpoint rstrip (s : string) : string :=
  match s with
  | EmptyString => EmptyString
  | String c r =>
      match rstrip r with
      | EmptyString => if is_space c then EmptyString else String c EmptyString
      | r' => String c r'
      end
  end.

(** [s.strip()] *)
Definition strip (s : string) : string := rstrip (drop_while is_space s).

(** The digit part of an integer literal: digits with single underscores
    between them; [None] when the text is not of that shape. *)
Fixpoint int_digits (prev_digit : bool) (acc : nat) (s : string) : option nat :=
  match s with
  | EmptyString => if prev_digit then Some acc else None
  | String c r =>
      if is_digit c then int_digits true (10 * acc + digit_val c) r
      else if Ascii.eqb c "_" && prev_digit
           then match r with
                | String d _ => if is_digit d then int_digits false acc r else None
                | EmptyString => None
                end
           else None
  end.

(** [int(s)] on text: surrounding white space, an optional sign, decimal
    digits.  [None] stands for [ValueError]. *)
Definition py_int (s : string) : option Z :=
  match strip s with
  | EmptyString => None
  | String c r =>
      if Ascii.eqb c "-" then (fun n => (- Z.of_nat n)%Z) <$> int_digits false 0 r
      else if Ascii.eqb c "+" then Z.of_nat <$> int_digits false 0 r
      else Z.of_nat <$> int_digits false 0 (String c r)
  end.

End Text.

Export Text.

(** ** Calendar dates: [datetime.date], [datetime.datetime], [timedelta] *)

Module Calendar.

Record date := mkDate { year : nat; month : nat; day : nat }.

Record datetime := mkDateTime { dt_date : date; hour : nat; minute : nat; second : nat }.

Definition is_leap (y : nat) : bool :=
  (y mod 4 =? 0) && (negb (y mod 100 =? 0) || (y mod 400 =? 0)).

Definition days_in_month (y m : nat) : nat :=
  match m with
  | 1 | 3 | 5 | 7 | 8 | 10 | 12 => 31
  | 4 | 6 | 9 | 11 => 30
  | 2 => if is_leap y then 29 else 28
  | _ => 0
  end.

(** [datetime.MAXYEAR], 9999. *)
Definition MAXYEAR : nat := 9 * 1000 + 999.

(** The values [datetime.date(y, m, d)] accepts; any other triple raises
    [ValueError]. *)
Definition valid_date (d : date) : bool :=
  (1 <=? year d) && (year d <=? MAXYEAR) &&
  (1 <=? month d) && (month d <=? 12) &&
  (1 <=? day d) && (day d <=? days_in_month (year d) (month d)).

Definition valid_datetime (t : datetime) : bool :=
  valid_date (dt_date t) && (hour t <? 24) && (minute t <? 60) && (second t <? 60).

(** A clock value the date arithmetic below does not overflow on. *)
Definition clock_ok (d : date) : bool := valid_date d && (year d <? MAXYEAR).

(** [a == b], [a < b], [a <= b] on dates: Python compares year, month and
    day in that order. *)
Definition date_eqb (a b : date) : bool :=
  (year a =? year b) && (month a =? month b) && (day a =? day b).

Definition date_ltb (a b : date) : bool :=
  (year a <? year b) ||
  ((year a =? year b) &&
   ((month a <? month b) || ((month a =? month b) && (day a <? day b)))).

Definition date_leb (a b : date) : bool := date_ltb a b || date_eqb a b.

(** [d + timedelta(days=1)] *)
Definition next_day (d : date) : date :=
  if day d <? days_in_month (year d) (month d)
  then mkDate (year d) (month d) (S (day d))
  else if month d <? 12 then mkDate (year d) (S (month d)) 1
  else mkDate (S (year d)) 1 1.

(** [d + timedelta(days=n)] *)
Fixpoint add_days (d : date) (n : nat) : date :=
  match n with
  | 0 => d
  | S k => add_days (next_day d) k
  end.

(** [d.strftime("%Y-%m-%d")], the year written with four digits. *)
Definition fmt_date (d : date) : string :=
  pad4 (year d) +:+ "-" +:+ pad2 (month d) +:+ "-" +:+ pad2 (day d).

Definition fmt_hm (h m : nat) : string := pad2 h +:+ ":" +:+ pad2 m.

(** [t.strftime("%Y-%m-%d %H:%M")] *)
Definition fmt_datetime (t : datetime) : string :=
  fmt_date (dt_date t) +:+ " " +:+ fmt_hm (hour t) (minute t).

(** [t.strftime("%Y-%m-%d %H:%M:%S")] *)
Definition fmt_timestamp (t : datetime) : string :=
  fmt_datetime t +:+ ":" +:+ pad2 (second t).

End Calendar.

Export Calendar.

(** ** [datetime.strptime]

    CPython turns a format into a regular expression, one named group per
    directive, white space in the format becoming [\s+]; it takes the first
    match of that expression at the start of the text ([re.match], with
    backtracking in the order of the alternatives), rejects text left over
    after the match, converts each group with [int] and builds the date,
    which rejects day numbers the month does not have. *)

Module Strptime.

Definition cclass := ascii -> bool.

Definition rng (lo hi : nat) : cclass := fun c => (48 + lo <=? code c) && (code c <=? 48 + hi).
Definition chr (a : ascii) : cclass := fun c => Ascii.eqb a c.

Inductive item :=
  | Group (alts : list (list cclass))
  | Lit (c : ascii)
  | Ws.

(** One alternative, a sequence of character classes, at the start of [s]:
    the matched text and the rest. *)
Fixpoint match_seq (cs : list cclass) (s : string) : option (string * string) :=
  match cs with
  | [] => Some (EmptyString, s)
  | p :: cs' =>
      match s with
      | String c r =>
          if p c
          then match match_seq cs' r with
               | Some (m, rest) => Some (String c m, rest)
               | None => None
               end
          else None
      | EmptyString => None
      end
  end.

(** All the ways a group matches at the start of [s], in the order the
    alternatives are written. *)
Fixpoint match_alt (alts : list (list cclass)) (s : string) : list (string * string) :=
  match alts with
  | [] => []
  | a :: alts' =>
      match match_seq a s with
      | Some r => r :: match_alt alts' s
      | None => match_alt alts' s
      end
  end.

(** The rests after one or more white-space characters, longest run first. *)
Fixpoint ws_rests (s : string) : list string :=
  match s with
  | String c r => if is_space c then ws_rests r ++ [r] else []
  | EmptyString => []
  end.

(** All matches of the expression at the start of [s], in backtracking
    order: the texts of the groups and the rest of [s]. *)
Fixpoint re_match (fmt : list item) (s : string) : list (list string * string) :=
  match fmt with
  | [] => [([], s)]
  | Group alts :: fmt' =>
      flat_map (fun '(txt, rest) =>
                  map (fun '(gs, r) => (txt :: gs, r)) (re_match fmt' rest))
               (match_alt alts s)
  | Lit c :: fmt' =>
      match s with
      | String c' r => if Ascii.eqb c c' then re_match fmt' r else []
      | EmptyString => []
      end
  | Ws :: fmt' => flat_map (re_match fmt') (ws_rests s)
  end.

(** The groups of [%Y], [%m], [%d], [%H] and [%M]. *)
Definition re_Y : item := Group [[rng 0 9; rng 0 9; rng 0 9; rng 0 9]].
Definition re_m : item := Group [[rng 1 1; rng 0 2]; [rng 0 0; rng 1 9]; [rng 1 9]].
Definition re_d : item :=
  Group [[rng 3 3; rng 0 1]; [rng 1 2; rng 0 9]; [rng 0 0; rng 1 9]; [rng 1 9];
         [chr " "; rng 1 9]].
Definition re_H : item := Group [[rng 2 2; rng 0 3]; [rng 0 1; rng 0 9]; [rng 0 9]].
Definition re_M : item := Group [[rng 0 5; rng 0 9]; [rng 0 9]].

(** ["%Y-%m-%d"] and ["%Y-%m-%d %H:%M"] *)
Definition FMT_DATE : list item := [re_Y; Lit "-"; re_m; Lit "-"; re_d].
Definition FMT_DATETIME : list item := FMT_DATE ++ [Ws; re_H; Lit ":"; re_M].

(** [int(found_dict[g])] for a group; the groups hold digits, the day group
    possibly after one space. *)
Definition group_int (txt : string) : nat :=
  match py_int txt with
  | Some z => Z.to_nat z
  | None => 0
  end.

(** The first match, which has to reach the end of the text. *)
Definition found_groups (fmt : list item) (s : string) : option (list string) :=
  match re_match fmt s with
  | (gs, EmptyString) :: _ => Some gs
  | _ => None
  end.

Definition build_date (y m d : nat) : option date :=
  let r := mkDate y m d in if valid_date r then Some r else None.

(** [datetime.strptime(s, "%Y-%m-%d")]; [None] stands for [ValueError]. *)
Definition strptime_date (s : string) : option datetime :=
  match found_groups FMT_DATE s with
  | Some [y; m; d] =>
      match build_date (group_int y) (group_int m) (group_int d) with
      | Some r => Some (mkDateTime r 0 0 0)
      | None => None
      end
  | _ => None
  end.

(** [datetime.strptime(s, "%Y-%m-%d %H:%M")] *)
Definition strptime_datetime (s : string) : option datetime :=
  match found_groups FMT_DATETIME s with
  | Some [y; m; d; h; mi] =>
      match build_date (group_int y) (group_int m) (group_int d) with
      | Some r => Some (mkDateTime r (group_int h) (group_int mi) 0)
      | None => None
      end
  | _ => None
  end.

End Strptime.

Export Strptime.

(** ** The due-date normaliser ([bot.py]) *)

(** [parse_relative_due_date(due_date_str)], the clock read as [now].  The
    argument is [None] for Python's [None]; the result [None] is the
    function's [return None]. *)
Definition parse_relative_due_date (now : datetime) (due_date_str : option string)
  : option string :=
  match due_date_str with
  | None => None
  | Some EmptyString => None
  | Some s =>
      let due_date_str_lower := lower s in
      let time_part := "23:59" in
      if contains "today" due_date_str_lower then
        Some (fmt_date (dt_date now) +:+ " " +:+ time_part)
      else if contains "tomorrow" due_date_str_lower then
        Some (fmt_date (add_days (dt_date now) 1) +:+ " " +:+ time_part)
      else
        match strptime_datetime s with
        | Some dt_obj => Some (fmt_datetime dt_obj)
        | None =>
            match strptime_date s with
            | Some dt_obj => Some (fmt_date (dt_date dt_obj) +:+ " 23:59")
            | None => None
            end
        end
  end.

(** ** The sheet adapter ([google_sheets.py]) *)

(** What a call leaves behind: a value, or an exception on its way to the
    caller. *)
Inductive result (A : Type) : Type :=
  | Ok (a : A)
  | Raise.

Arguments Ok {A} a.
Arguments Raise {A}.

Module Sheets.

Definition COL_TASK_ID : string := "task_id".
Definition COL_TITLE : string := "title".
Definition COL_STATUS : string := "status".
Definition COL_ASSIGNEE_ID : string := "assignee_id".
Definition COL_DUE_DATE : string := "due_date".
Definition COL_CREATED_AT : string := "created_at".

Definition STATUS_PENDING : string := "pending".
Definition STATUS_COMPLETED : string := "completed".

(** The header row [init_sheet] writes. *)
Definition HEADERS : list string :=
  [COL_TASK_ID; COL_TITLE; COL_STATUS; COL_ASSIGNEE_ID; COL_DUE_DATE; COL_CREATED_AT].

(** The grid of cell texts; row [i] of the sheet is element [i - 1]. *)
Abbreviation worksheet := (list (list string)).

(** [worksheet.row_values(i)] *)
Definition row_values (ws : worksheet) (i : nat) : list string :=
  match i with
  | 0 => []
  | S k => default [] (ws !! k)
  end.

(** [worksheet.col_values(1)] *)
Definition col_values_1 (ws : worksheet) : list string :=
  map (fun row => hd EmptyString row) ws.

(** [worksheet.append_row(row)] *)
Definition append_row (ws : worksheet) (row : list string) : worksheet := ws ++ [row].

(** [worksheet.find(query, in_column=1)]: the number of the first row whose
    first cell is [query]. *)
Fixpoint find_in_column_1 (query : string) (ws : worksheet) (row : nat) : option nat :=
  match ws with
  | [] => None
  | r :: rest =>
      if String.eqb (hd EmptyString r) query then Some row
      else find_in_column_1 query rest (S row)
  end.

(** [worksheet.update_cell(row, col, value)], both numbered from 1. *)
Definition update_cell (ws : worksheet) (row col : nat) (value : string) : worksheet :=
  match row, col with
  | S r, S c =>
      match ws !! r with
      | Some cells => <[r := <[c := value]> cells]> ws
      | None => ws
      end
  | _, _ => ws
  end.

(** [worksheet.update(range of row i, [cells])]: the cells of one row
    rewritten. *)
Definition update_row (ws : worksheet) (row : nat) (cells : list string) : worksheet :=
  match row with
  | S r => <[r := cells]> ws
  | 0 => ws
  end.

(** [worksheet.get_all_records()]: one dictionary per row under the header
    row, keyed by the header texts, a row shorter than the header filled
    with empty cells. *)
Definition get_all_records (ws : worksheet) : list (gmap string string) :=
  match ws with
  | [] => []
  | keys :: rows =>
      map (fun row =>
             list_to_map (zip keys (row ++ replicate (length keys - length row) EmptyString)))
          rows
  end.

(** [lst.index(x)]; [None] stands for [ValueError]. *)
Fixpoint index_of (x : string) (l : list string) : option nat :=
  match l with
  | [] => None
  | y :: r => if String.eqb y x then Some 0 else S <$> index_of x r
  end.

(** [lst[i] = v]; [None] stands for [IndexError]. *)
Definition set_item (l : list string) (i : nat) (v : string) : option (list string) :=
  if i <? length l then Some (<[i := v]> l) else None.

(** [max(l)] of a list of integers known not to be empty. *)
Definition max_ids (l : list Z) : Z :=
  match l with
  | [] => 0%Z
  | x :: r => fold_left Z.max r x
  end.

(** [[int(c) for c in cells if c.isdigit()]] *)
Fixpoint numeric_cells (cells : list string) : result (list Z) :=
  match cells with
  | [] => Ok []
  | c :: r =>
      if isdigit c then
        match py_int c with
        | Some z =>
            match numeric_cells r with
            | Ok l => Ok (z :: l)
            | Raise => Raise
            end
        | None => Raise
        end
      else numeric_cells r
  end.

(** [get_next_task_id(worksheet)] *)
Definition get_next_task_id (ws : worksheet) : result Z :=
  let task_ids := col_values_1 ws in
  if length task_ids <=? 1 then Ok 1%Z
  else
    match numeric_cells (tail task_ids) with
    | Raise => Raise
    | Ok [] => Ok 1%Z
    | Ok numeric_ids => Ok (max_ids numeric_ids + 1)%Z
    end.

(** [add_task(worksheet, title, assignee_id, due_date)]: the new id and
    the sheet after the append. *)
Definition add_task (now : datetime) (ws : worksheet) (title : string)
    (assignee_id due_date : option string) : result (Z * worksheet) :=
  match get_next_task_id ws with
  | Raise => Raise
  | Ok task_id =>
      let created_at := fmt_timestamp now in
      let status := STATUS_PENDING in
      let row := [ str_int task_id; title; status;
                   default EmptyString assignee_id;
                   default EmptyString due_date;
                   created_at ] in
      Ok (task_id, append_row ws row)
  end.

(** The dictionary [read_tasks] builds for one record. *)
Record task := mkTask {
  task_id : option string;
  title : option string;
  status : option string;
  assignee_id : string;
  due_date : string;
  created_at : option string
}.

Definition task_of_record (task_record : gmap string string) : task :=
  {| task_id := task_record !! COL_TASK_ID;
     title := task_record !! COL_TITLE;
     status := task_record !! COL_STATUS;
     assignee_id := default EmptyString (task_record !! COL_ASSIGNEE_ID);
     due_date := default EmptyString (task_record !! COL_DUE_DATE);
     created_at := task_record !! COL_CREATED_AT |}.

(** [date.toordinal()] and [date.weekday()] (Monday is 0). *)
Definition days_before_year (y : nat) : nat :=
  let p := y - 1 in p * 365 + p / 4 - p / 100 + p / 400.

Fixpoint days_before_month (y m : nat) : nat :=
  match m with
  | 0 => 0
  | S k => match k with 0 => 0 | _ => days_before_month y k + days_in_month y k end
  end.

Definition toordinal (d : date) : nat :=
  days_before_year (year d) + days_before_month (year d) (month d) + day d.

Definition weekday (d : date) : nat := (toordinal d + 6) mod 7.

(** [d - timedelta(days=1)] and [d - timedelta(days=n)] *)
Definition prev_day (d : date) : date :=
  if 1 <? day d then mkDate (year d) (month d) (day d - 1)
  else if 1 <? month d
       then mkDate (year d) (month d - 1) (days_in_month (year d) (month d - 1))
       else mkDate (year d - 1) 12 31.

Fixpoint sub_days (d : date) (n : nat) : date :=
  match n with
  | 0 => d
  | S k => sub_days (prev_day d) k
  end.

(** The body of the date loop of [read_tasks] for one task: is it kept? *)
Definition due_in_range (today : date) (due_date_range : string) (t : task) : bool :=
  match due_date t with
  | EmptyString => false
  | due =>
      let task_due_date_str := before_space due in
      match strptime_date task_due_date_str with
      | None => false
      | Some parsed =>
          let task_due_date := dt_date parsed in
          if String.eqb due_date_range "today" then date_eqb task_due_date today
          else if String.eqb due_date_range "this_week" then
            let start_of_week := sub_days today (weekday today) in
            let end_of_week := add_days start_of_week 6 in
            date_leb start_of_week task_due_date && date_leb task_due_date end_of_week
          else if String.eqb due_date_range "next_seven_days" then
            let end_date := add_days today 7 in
            date_leb today task_due_date && date_ltb task_due_date end_date
          else String.eqb task_due_date_str due_date_range
      end
  end.

(** Python's truth value of an optional text: [None] and [""] are false. *)
Definition truthy (o : option string) : bool :=
  match o with
  | Some (String _ _) => true
  | _ => false
  end.

(** [read_tasks(worksheet, assignee_id, due_date_range, status)] *)
Definition read_tasks (today : date) (ws : worksheet)
    (assignee_id_arg due_date_range status_arg : option string) : list task :=
  let all_tasks_with_headers := get_all_records ws in
  if bool_decide (all_tasks_with_headers = []) then [] else
  let tasks := map task_of_record all_tasks_with_headers in
  let tasks :=
    if truthy status_arg
    then List.filter (fun t => bool_decide (status t = status_arg)) tasks
    else tasks in
  let tasks :=
    if truthy assignee_id_arg
    then List.filter (fun t => bool_decide (Some (assignee_id t) = assignee_id_arg)) tasks
    else tasks in
  match due_date_range with
  | Some (String c r) => List.filter (due_in_range today (String c r)) tasks
  | _ => tasks
  end.

(** The dictionary comprehension of [update_task]: row number by id, a later
    row replacing an earlier one with the same id. *)
Fixpoint id_rows (idx : nat) (task_ids : list string) (m : gmap Z nat)
  : result (gmap Z nat) :=
  match task_ids with
  | [] => Ok m
  | c :: r =>
      if isdigit c then
        match py_int c with
        | Some z => id_rows (S idx) r (<[z := idx + 1]> m)
        | None => Raise
        end
      else id_rows (S idx) r m
  end.

(** [{header: i for i, header in enumerate(headers)}] *)
Fixpoint header_map_from (i : nat) (headers : list string) (m : gmap string nat)
  : gmap string nat :=
  match headers with
  | [] => m
  | h :: r => header_map_from (S i) r (<[h := i]> m)
  end.

(** [if v is not None: updated_row[header_map[col]] = v]; [None] stands for
    the [KeyError] or [IndexError] of the assignment. *)
Definition assign_field (header_map : gmap string nat) (col : string)
    (v : option string) (updated_row : list string) : option (list string) :=
  match v with
  | None => Some updated_row
  | Some x =>
      match header_map !! col with
      | Some i => set_item updated_row i x
      | None => None
      end
  end.

(** [update_task(worksheet, task_id, new_title, new_assignee_id,
    new_due_date)]: the returned flag and the sheet afterwards. *)
Definition update_task (ws : worksheet) (task_id : Z)
    (new_title new_assignee_id new_due_date : option string)
  : result (bool * worksheet) :=
  let task_ids := col_values_1 ws in
  match id_rows 0 task_ids ∅ with
  | Raise => Raise
  | Ok task_id_to_row =>
      match task_id_to_row !! task_id with
      | None => Ok (false, ws)
      | Some 0 => Ok (false, ws)
      | Some row_index =>
          let current_row_values := row_values ws row_index in
          let headers := row_values ws 1 in
          let header_map := header_map_from 0 headers ∅ in
          let updated_row := current_row_values in
          match assign_field header_map COL_TITLE new_title updated_row with
          | None => Raise
          | Some updated_row =>
          match assign_field header_map COL_ASSIGNEE_ID new_assignee_id updated_row with
          | None => Raise
          | Some updated_row =>
          match assign_field header_map COL_DUE_DATE new_due_date updated_row with
          | None => Raise
          | Some updated_row => Ok (true, update_row ws row_index updated_row)
          end end end
      end
  end.

(** [mark_task_complete(worksheet, task_id)] *)
Definition mark_task_complete (ws : worksheet) (task_id : Z)
  : result (bool * worksheet) :=
  match find_in_column_1 (str_int task_id) ws 1 with
  | None => Ok (false, ws)
  | Some row_index =>
      let headers := row_values ws 1 in
      match index_of COL_STATUS headers with
      | None => Ok (false, ws)
      | Some i =>
          let status_col_index := i + 1 in
          Ok (true, update_cell ws row_index status_col_index STATUS_COMPLETED)
      end
  end.

(** Sheets as [init_sheet] and [add_task] leave them: the header row on
    top, six cells in every row. *)
Definition wf_sheet (ws : worksheet) : bool :=
  match ws with
  | [] => false
  | headers :: rows =>
      bool_decide (headers = HEADERS) && forallb (fun row => length row =? 6) rows
  end.

(** The cell of a row under a header of [HEADERS]. *)
Definition field (col : string) (row : list string) : option string :=
  match index_of col HEADERS with
  | Some i => row !! i
  | None => None
  end.

End Sheets.

Export Sheets.

(** ** The chat handlers and the reminder loop ([bot.py]) *)

Module Bot.

(** A value of the argument mapping the intent oracle returns: [None] or a
    text.  A number (the task ids) is carried as its decimal text, which
    [int] reads back. *)
Inductive val :=
  | VNone
  | VStr (s : string).

(** A chat user as the handlers read it: [id], [name], [mention],
    [display_name]. *)
Record user := mkUser {
  user_id : Z;
  user_name : string;
  user_mention : string;
  user_display_name : string
}.

Record message := mkMessage { author : user; mentions : list user }.

(** The texts sent to the channel, one constructor per message of the
    source, carrying the values the message interpolates. *)
Inductive reply :=
  | AskTitle
  | TaskAdded (title : string) (task_id : Z) (assignee due : option string)
  | AddFailed
  | AskUpdateId
  | BadUpdateId (given : string)
  | AskUpdateFields
  | NoValidFields
  | TaskUpdated (task_id : Z)
  | UpdateNotDone (task_id : Z)
  | UpdateFailed
  | BadCompleteId (given : string)
  | FoundByTitle (title : string) (task_id : Z)
  | AmbiguousTitle (title : string) (ids_found : list string)
  | TitleNotFound (title : string)
  | TitleLookupFailed (title : string)
  | AskCompleteTarget
  | TaskCompleted (task_id : Z)
  | CompleteNotDone (task_id : Z)
  | CompleteFailed.

(** What a handler leaves: the sheet ([gs_worksheet]'s content) and the
    replies in the order sent. *)
Definition outcome : Type := worksheet * list reply.

(** [args.get(k)] and [k in args] *)
Definition get (args : gmap string val) (k : string) : val := default VNone (args !! k).

Definition has_key (args : gmap string val) (k : string) : bool :=
  match args !! k with
  | Some _ => true
  | None => false
  end.

(** Python's truth value of an argument. *)
Definition val_truthy (v : val) : bool :=
  match v with
  | VStr (String _ _) => true
  | _ => false
  end.

(** [v is None] *)
Definition is_none (v : val) : bool :=
  match v with
  | VNone => true
  | VStr _ => false
  end.

Definition val_text (v : val) : option string :=
  match v with
  | VStr s => Some s
  | VNone => None
  end.

(** The test of the mention loop of [handle_add_task]. *)
Definition names_user_add (assignee_str : string) (u : user) : bool :=
  String.eqb assignee_str (user_mention u) ||
  String.eqb assignee_str (user_name u) ||
  String.eqb assignee_str ("<@" +:+ str_int (user_id u) +:+ ">") ||
  String.eqb assignee_str ("<@!" +:+ str_int (user_id u) +:+ ">").

(** The test of the mention loop of [handle_update_task]. *)
Definition names_user_update (new_assignee_str : string) (u : user) : bool :=
  String.eqb new_assignee_str (user_mention u) ||
  String.eqb new_assignee_str (user_name u).

(** [handle_add_task(message, args)] with [gs_worksheet] holding [ws]. *)
Definition handle_add_task (now : datetime) (ws : worksheet) (msg : message)
    (args : gmap string val) : outcome :=
  let title := get args "title" in
  let due_date_str := get args "due_date" in
  let assignee_str := get args "assignee" in
  match title with
  | VStr (String tc tr) =>
      let title := String tc tr in
      let parsed_due_date :=
        match due_date_str with
        | VStr (String c r) =>
            let due := String c r in
            let parsed := parse_relative_due_date now (Some due) in
            if truthy parsed then parsed
            else if negb (has_char ":" due) && (String.length due =? 10)
                 then Some (due +:+ " 23:59")
                 else Some due
        | _ => None
        end in
      let assignee_id :=
        match assignee_str with
        | VStr (String c r) =>
            let a := String c r in
            match List.find (names_user_add a) (mentions msg) with
            | Some user_mention => Some (str_int (user_id user_mention))
            | None => Some a
            end
        | _ => None
        end in
      match add_task now ws title assignee_id parsed_due_date with
      | Ok (task_id, ws') =>
          (ws', [TaskAdded title task_id
                   (if val_truthy assignee_str then val_text assignee_str else None)
                   (if truthy parsed_due_date then parsed_due_date else None)])
      | Raise => (ws, [AddFailed])
      end
  | _ => (ws, [AskTitle])
  end.

(** [handle_update_task(message, args)] *)
Definition handle_update_task (now : datetime) (ws : worksheet) (msg : message)
    (args : gmap string val) : outcome :=
  let task_id_str := get args "target_task_id" in
  match task_id_str with
  | VNone => (ws, [AskUpdateId])
  | VStr id_text =>
      match py_int id_text with
      | None => (ws, [BadUpdateId id_text])
      | Some task_id =>
          let new_title := get args "new_title" in
          let new_due_date_str := get args "new_due_date" in
          let new_assignee_str := get args "new_assignee" in
          if negb (val_truthy new_title || val_truthy new_due_date_str
                   || val_truthy new_assignee_str)
          then (ws, [AskUpdateFields])
          else
            let parsed_new_due_date :=
              match new_due_date_str with
              | VStr (String c r) =>
                  let due := String c r in
                  let parsed := parse_relative_due_date now (Some due) in
                  if truthy parsed then parsed
                  else if negb (has_char ":" due) && (String.length due =? 10)
                       then Some (due +:+ " 23:59")
                       else Some due
              | _ => None
              end in
            let new_assignee_id :=
              if has_key args "new_assignee" then
                match new_assignee_str with
                | VStr (String c r) =>
                    let a := String c r in
                    match List.find (names_user_update a) (mentions msg) with
                    | Some user_mention => Some (str_int (user_id user_mention))
                    | None => Some a
                    end
                | _ => Some EmptyString
                end
              else None in
            let kw_new_title :=
              if has_key args "new_title" then val_text new_title else None in
            let kw_new_due_date :=
              if has_key args "new_due_date" && negb (is_none new_due_date_str)
              then Some parsed_new_due_date else None in
            let kw_new_assignee_id :=
              if has_key args "new_assignee" then Some new_assignee_id else None in
            match kw_new_title, kw_new_due_date, kw_new_assignee_id with
            | None, None, None => (ws, [NoValidFields])
            | _, _, _ =>
                match update_task ws task_id kw_new_title
                        (mjoin kw_new_assignee_id) (mjoin kw_new_due_date) with
                | Ok (true, ws') => (ws', [TaskUpdated task_id])
                | Ok (false, ws') => (ws', [UpdateNotDone task_id])
                | Raise => (ws, [UpdateFailed])
                end
            end
      end
  end.

(** The title scan of [handle_complete_task]: the tasks whose title is the
    wanted one up to case; [None] when a task has no title to lower. *)
Fixpoint match_titles (target_title_str : string) (tasks_found : list task)
  : option (list task) :=
  match tasks_found with
  | [] => Some []
  | t :: rest =>
      match title t with
      | None => None
      | Some ttl =>
          match match_titles target_title_str rest with
          | None => None
          | Some l =>
              if String.eqb (lower ttl) (lower target_title_str)
              then Some (t :: l) else Some l
          end
      end
  end.

(** [str(x)] of a dictionary value. *)
Definition str_cell (o : option string) : string := default "None" o.

(** [handle_complete_task(message, args)] *)
Definition handle_complete_task (today : date) (ws : worksheet) (msg : message)
    (args : gmap string val) : outcome :=
  let task_id_str := get args "target_task_id" in
  let target_title_str := get args "target_task_title" in
  let finish (sent : list reply) (task_id_to_complete : Z) : outcome :=
    match mark_task_complete ws task_id_to_complete with
    | Ok (true, ws') => (ws', sent ++ [TaskCompleted task_id_to_complete])
    | Ok (false, ws') => (ws', sent ++ [CompleteNotDone task_id_to_complete])
    | Raise => (ws, sent ++ [CompleteFailed])
    end in
  match task_id_str with
  | VStr id_text =>
      match py_int id_text with
      | None => (ws, [BadCompleteId id_text])
      | Some task_id_to_complete => finish [] task_id_to_complete
      end
  | VNone =>
      match target_title_str with
      | VStr (String c r) =>
          let wanted := String c r in
          let tasks_found := read_tasks today ws None None (Some STATUS_PENDING) in
          match match_titles wanted tasks_found with
          | None => (ws, [TitleLookupFailed wanted])
          | Some [] => (ws, [TitleNotFound wanted])
          | Some [t] =>
              match task_id t with
              | Some cell =>
                  match py_int cell with
                  | Some task_id_to_complete =>
                      finish [FoundByTitle wanted task_id_to_complete] task_id_to_complete
                  | None => (ws, [TitleLookupFailed wanted])
                  end
              | None => (ws, [TitleLookupFailed wanted])
              end
          | Some matched_tasks =>
              (ws, [AmbiguousTitle wanted (map (fun t => str_cell (task_id t)) matched_tasks)])
          end
      | _ => (ws, [AskCompleteTarget])
      end
  end.

(** *** The reminder loop *)

Record buckets := mkBuckets {
  due_today_tasks : list task;
  due_tomorrow_tasks : list task;
  upcoming_tasks : list task
}.

(** One turn of the grouping loop of [reminder_loop]. *)
Definition group_step (today tomorrow : date) (b : buckets) (t : task) : buckets :=
  match due_date t with
  | EmptyString => b
  | due =>
      match strptime_date (before_space due) with
      | None => b
      | Some parsed =>
          let task_due_date := dt_date parsed in
          if date_eqb task_due_date today then
            mkBuckets (due_today_tasks b ++ [t]) (due_tomorrow_tasks b) (upcoming_tasks b)
          else if date_eqb task_due_date tomorrow then
            mkBuckets (due_today_tasks b) (due_tomorrow_tasks b ++ [t]) (upcoming_tasks b)
          else if date_ltb today task_due_date && date_ltb task_due_date (add_days today 7)
          then
            mkBuckets (due_today_tasks b) (due_tomorrow_tasks b) (upcoming_tasks b ++ [t])
          else b
      end
  end.

(** The grouping loop: the three lists after all the tasks. *)
Definition group_tasks (today : date) (tasks : list task) : buckets :=
  let tomorrow := add_days today 1 in
  fold_left (group_step today tomorrow) tasks (mkBuckets [] [] []).

(** The line feed, and ["\n".join(parts)]. *)
Definition NL : string := String "010"%char EmptyString.

Fixpoint join_lines (parts : list string) : string :=
  match parts with
  | [] => EmptyString
  | [p] => p
  | p :: rest => p +:+ NL +:+ join_lines rest
  end.

(** [s[:n]] *)
Fixpoint take_chars (n : nat) (s : string) : string :=
  match n, s with
  | S k, String c r => String c (take_chars k r)
  | _, _ => EmptyString
  end.

(** The sending step of [reminder_loop] on the joined message: the text
    handed to [channel.send]. *)
Definition digest_to_send (full_message : string) : string :=
  if 2000 <? String.length full_message
  then take_chars 1990 full_message +:+ NL +:+ "...(truncated)"
  else full_message.

Section Digest.

(** The four headings of the digest, which hold characters outside the
    model's alphabet, and [bot.fetch_user] as the mention of the user
    fetched, [None] when there is no such user. *)
Variables (HEAD_DIGEST HEAD_TODAY HEAD_TOMORROW HEAD_UPCOMING : string).
Variable fetch_user : Z -> option string.

(** One line of [format_task_list]. *)
Definition format_task (t : task) : string :=
  let line := "- **ID " +:+ str_cell (task_id t) +:+ ":** " +:+ str_cell (title t) in
  let line :=
    match due_date t with
    | EmptyString => line
    | due => line +:+ " (Due: " +:+ due +:+ ")"
    end in
  match assignee_id t with
  | EmptyString => line
  | a =>
      let fetched :=
        if isdigit a
        then match py_int a with Some z => fetch_user z | None => None end
        else None in
      line +:+ " (Assigned: " +:+ default a fetched +:+ ")"
  end.

Definition section_of (heading : string) (l : list task) : list string :=
  match l with
  | [] => []
  | _ => heading :: map format_task l
  end.

(** The body of [reminder_loop] once the sheet and the channel are there:
    the messages sent. *)
Definition reminder_loop (today : date) (ws : worksheet) : list string :=
  let tasks := read_tasks today ws None (Some "next_seven_days") (Some STATUS_PENDING) in
  match tasks with
  | [] => []
  | _ =>
      let b := group_tasks today tasks in
      let reminder_message_parts :=
        [HEAD_DIGEST] ++ section_of HEAD_TODAY (due_today_tasks b)
                      ++ section_of HEAD_TOMORROW (due_tomorrow_tasks b)
                      ++ section_of HEAD_UPCOMING (upcoming_tasks b) in
      if 1 <? length reminder_message_parts
      then [digest_to_send (join_lines reminder_message_parts)]
      else []
  end.

End Digest.

End Bot.

Export Bot.

(** ** More of the adapter and of the handlers *)

Module More.

(** [init_sheet(worksheet)]: the header row appended when row 1 holds
    nothing. *)
Definition init_sheet (ws : worksheet) : worksheet :=
  match row_values ws 1 with
  | [] => append_row ws HEADERS
  | _ => ws
  end.

(** The assignee filter of [handle_list_tasks]: [target_assignee_id] and
    [response_assignee_name].  The test of its mention loop is the one of
    [handle_add_task]. *)
Definition list_assignee (msg : message) (assignee_filter_str : val)
  : option string * string :=
  match assignee_filter_str with
  | VStr (String c r) =>
      let a := String c r in
      if existsb (String.eqb (lower a)) ["me"; "my"; "my tasks"] then
        (Some (str_int (user_id (author msg))), user_display_name (author msg))
      else
        match List.find (names_user_add a) (mentions msg) with
        | Some mentioned_user =>
            (Some (str_int (user_id mentioned_user)), user_display_name mentioned_user)
        | None => (Some a, a)
        end
  | _ => (None, "everyone")
  end.

(** One line of the list reply; [fetch_user_name] is [bot.fetch_user] as the
    name of the user fetched, [None] when there is no such user. *)
Definition list_line (fetch_user_name : Z -> option string) (t : task) : string :=
  let task_line := "**ID " +:+ str_cell (task_id t) +:+ ":** " +:+ str_cell (title t) in
  let task_line :=
    match due_date t with
    | EmptyString => task_line
    | due => task_line +:+ " (Due: " +:+ due +:+ ")"
    end in
  match assignee_id t with
  | EmptyString => task_line
  | a =>
      let fetched :=
        if isdigit a
        then match py_int a with Some z => fetch_user_name z | None => None end
        else None in
      task_line +:+ " (Assigned: " +:+ default a fetched +:+ ")"
  end.

(** The first line of the list reply, [response_lines[0]]. *)
Definition list_heading (response_assignee_name : string) (due_date_range_filter : val)
  : string :=
  let heading := "**Pending Tasks**" in
  let heading := if String.eqb response_assignee_name "everyone" then heading
                 else heading +:+ " for **" +:+ response_assignee_name +:+ "**" in
  match due_date_range_filter with
  | VStr (String c r) => heading +:+ " (Due: **" +:+ String c r +:+ "**)"
  | _ => heading
  end.

(** The reply of [handle_list_tasks] for the tasks read. *)
Definition list_reply (fetch_user_name : Z -> option string)
    (response_assignee_name : string) (due_date_range_filter : val)
    (tasks : list task) : string :=
  match tasks with
  | [] =>
      let filter_desc := if String.eqb response_assignee_name "everyone" then EmptyString
                         else " for " +:+ response_assignee_name in
      let filter_desc :=
        match due_date_range_filter with
        | VStr (String c r) => filter_desc +:+ " due " +:+ String c r
        | _ => filter_desc
        end in
      "No pending tasks found" +:+ filter_desc +:+ "."
  | _ =>
      let response_lines :=
        list_heading response_assignee_name due_date_range_filter
        :: "---" :: map (list_line fetch_user_name) tasks in
      let full_response := join_lines response_lines in
      if 2000 <? String.length full_response
      then join_lines (firstn 30 response_lines) +:+ NL +:+ "...(list too long, truncated)"
      else full_response
  end.

(** [handle_list_tasks(message, args)]: the text sent.  The handler writes
    nothing to the sheet. *)
Definition handle_list_tasks (fetch_user_name : Z -> option string) (today : date)
    (ws : worksheet) (msg : message) (args : gmap string val) : string :=
  let assignee_filter_str := get args "assignee" in
  let due_date_range_filter := get args "due_date_range" in
  let resolved := list_assignee msg assignee_filter_str in
  let tasks := read_tasks today ws (fst resolved) (val_text due_date_range_filter)
                          (Some STATUS_PENDING) in
  list_reply fetch_user_name (snd resolved) due_date_range_filter tasks.

End More.

Export More.

(** ** Definitions of the statements *)

(** No character of the text lowers to [t]. *)
Definition no_t (s : string) : bool :=
  all_chars (fun c => negb (Ascii.eqb (lower_char c) "t")) s.

(** A month and a day of it, whatever the year. *)
Definition day_ok (d : date) : Prop :=
  1 <= month d <= 12 /\ 1 <= day d <= days_in_month (year d) (month d).

(** *** The normaliser as the specification words it *)

Module Spec.

Definition D : cclass := rng 0 9.

(** "Matches [YYYY-MM-DD] exactly": four digits, a dash, two digits, a
    dash, two digits, and nothing else, naming a day that exists. *)
Definition exact_date (s : string) : bool :=
  match match_seq [D; D; D; D; chr "-"; D; D; chr "-"; D; D] s with
  | Some (_, EmptyString) =>
      valid_date (mkDate (digits_val 0 (substring 0 4 s))
                         (digits_val 0 (substring 5 2 s))
                         (digits_val 0 (substring 8 2 s)))
  | _ => false
  end.

(** "Matches [YYYY-MM-DD HH:MM] exactly": the same, then one space, two
    digits, a colon, two digits, naming a minute of a day that exists. *)
Definition exact_datetime (s : string) : bool :=
  match match_seq [D; D; D; D; chr "-"; D; D; chr "-"; D; D; chr " ";
                   D; D; chr ":"; D; D] s with
  | Some (_, EmptyString) =>
      valid_date (mkDate (digits_val 0 (substring 0 4 s))
                         (digits_val 0 (substring 5 2 s))
                         (digits_val 0 (substring 8 2 s)))
      && (digits_val 0 (substring 11 2 s) <? 24)
      && (digits_val 0 (substring 14 2 s) <? 60)
  | _ => false
  end.

(** Section 4.1, case by case in the order written. *)
Definition normalize (now : datetime) (input : option string) : option string :=
  match input with
  | None => None
  | Some EmptyString => None
  | Some s =>
      if contains "today" (lower s) then Some (fmt_date (dt_date now) +:+ " 23:59")
      else if contains "tomorrow" (lower s)
           then Some (fmt_date (add_days (dt_date now) 1) +:+ " 23:59")
      else if exact_datetime s then Some s
      else if exact_date s then Some (s +:+ " 23:59")
      else None
  end.

End Spec.

(** The records a read with the [next_seven_days] filter is to return:
    pending, passing the assignee filter when one is given, and due on a
    day [d] with [today <= d < today + 7], [d] read from the date portion
    of the due date. *)
Definition due_next_seven_days (today : date) (assignee : option string) (t : task)
  : Prop :=
  status t = Some STATUS_PENDING /\
  (truthy assignee = true -> Some (assignee_id t) = assignee) /\
  exists parsed,
    strptime_date (before_space (due_date t)) = Some parsed /\
    date_leb today (dt_date parsed) = true /\
    date_ltb (dt_date parsed) (add_days today 7) = true.

(** The day a task is due, when the date portion of its due date parses. *)
Definition due_day (t : task) : option date :=
  dt_date <$> strptime_date (before_space (due_date t)).

(** The three lists of the grouping loop by name, and the list a task is
    appended to by one turn of the loop. *)
Inductive bucket := DueToday | DueTomorrow | Upcoming.

Definition bucket_list (k : bucket) (b : buckets) : list task :=
  match k with
  | DueToday => due_today_tasks b
  | DueTomorrow => due_tomorrow_tasks b
  | Upcoming => upcoming_tasks b
  end.

Definition bucket_of (today tomorrow : date) (t : task) : option bucket :=
  match due_day t with
  | None => None
  | Some d =>
      if date_eqb d today then Some DueToday
      else if date_eqb d tomorrow then Some DueTomorrow
      else if date_ltb today d && date_ltb d (add_days today 7) then Some Upcoming
      else None
  end.

(** The ids of the task rows: the decimal values of the first cells, under
    the header row, that are texts of digits. *)
Definition existing_ids (ws : worksheet) : list Z :=
  map (fun c => Z.of_nat (digits_val 0 c)) (List.filter isdigit (tail (col_values_1 ws))).

(** Two sheets with the same rows up to the cells outside [cols]: as many
    rows, and every row with the cells it had under the headers [cols]. *)
Definition same_fields (cols : list string) (ws ws' : worksheet) : Prop :=
  length ws' = length ws /\
  forall i row', ws' !! i = Some row' ->
    exists row, ws !! i = Some row /\ length row' = length row /\
                forall col, In col cols -> field col row' = field col row.

(** The cell after an update: the new text when one is given. *)
Definition updated (new_value : option string) (old : option string) : option string :=
  match new_value with
  | Some x => Some x
  | None => old
  end.

(** The record [read_tasks] builds from a row under the header row
    [HEADERS]. *)
Definition row_task (row : list string) : task :=
  mkTask (row !! 0) (row !! 1) (row !! 2)
         (default EmptyString (row !! 3)) (default EmptyString (row !! 4)) (row !! 5).

(** The title of the task is the wanted one up to case. *)
Definition title_is (wanted : string) (t : task) : bool :=
  match title t with
  | Some x => String.eqb (lower x) (lower wanted)
  | None => false
  end.

(** The pending records whose title is the wanted one up to case, in sheet
    order. *)
Definition pending_title_matches (wanted : string) (ws : worksheet) : list task :=
  List.filter (fun t => bool_decide (status t = Some STATUS_PENDING) && title_is wanted t)
              (map row_task (tail ws)).

(** The fallback for a due date the normaliser does not read: a text of
    ten characters without a colon gets " 23:59" appended, any other text is
    kept as it is. *)
Definition raw_fallback (s : string) : string :=
  if negb (has_char ":" s) && (String.length s =? 10) then s +:+ " 23:59" else s.

(** *** Definitions of the further statements *)

(** The sheets the system builds: the header row written on the empty
    sheet, then adds, updates and completions in any order. *)
Inductive reachable : worksheet -> Prop :=
  | reach_init : reachable (init_sheet [])
  | reach_add now ws new_title a d tid ws' :
      reachable ws -> add_task now ws new_title a d = Ok (tid, ws') -> reachable ws'
  | reach_update ws tid nt na nd done ws' :
      reachable ws -> update_task ws tid nt na nd = Ok (done, ws') -> reachable ws'
  | reach_complete ws tid done ws' :
      reachable ws -> mark_task_complete ws tid = Ok (done, ws') -> reachable ws'.

(** The first column of a sheet of [n] tasks numbered from 1. *)
Definition id_column (n : nat) : list string :=
  COL_TASK_ID :: map (fun i => str_int (Z.of_nat i)) (seq 1 n).

(** The range keywords of [read_tasks]. *)
Definition is_range_keyword (r : string) : bool :=
  String.eqb r "today" || String.eqb r "this_week" || String.eqb r "next_seven_days".

(** The tasks each list of the digest is to hold: due today, due tomorrow,
    due after tomorrow and before the seventh day from today. *)
Definition goes_to (k : bucket) (today : date) (t : task) : bool :=
  match due_day t with
  | None => false
  | Some d =>
      match k with
      | DueToday => date_eqb d today
      | DueTomorrow => date_eqb d (add_days today 1)
      | Upcoming => date_ltb (add_days today 1) d && date_ltb d (add_days today 7)
      end
  end.

(** [o] is the list [k]. *)
Definition bucket_is (k : bucket) (o : option bucket) : bool :=
  match o, k with
  | Some DueToday, DueToday | Some DueTomorrow, DueTomorrow | Some Upcoming, Upcoming => true
  | _, _ => false
  end.

(** A text that [handle_list_tasks] takes for the requester. *)
Definition self_reference (a : string) : bool :=
  existsb (String.eqb (lower a)) ["me"; "my"; "my tasks"].

(** The replies a handler sends when the adapter raises. *)
Definition failure (r : reply) : bool :=
  match r with
  | AddFailed | UpdateFailed | CompleteFailed => true
  | _ => false
  end.

(** The outcomes of the three handlers that write to the sheet, for one
    message and one argument mapping. *)
Definition written_by (now : datetime) (ws : worksheet) (msg : message)
    (args : gmap string val) (out : outcome) : Prop :=
  out = handle_add_task now ws msg args \/
  out = handle_update_task now ws msg args \/
  out = handle_complete_task (dt_date now) ws msg args.

(** ** Sample data and runs *)

Definition sample_now : datetime := mkDateTime (mkDate 2025 7 8) 9 30 15.

Definition sample_sheet : worksheet :=
  [ HEADERS;
    ["1"; "Report"; "pending"; "alice"; "2025-07-08 10:00"; "2025-07-01 08:00:00"];
    ["2"; "Buy milk"; "completed"; ""; "2025-07-09 23:59"; "2025-07-01 08:05:00"];
    ["3"; "report"; "pending"; ""; "2025-07-11 23:59"; "2025-07-02 09:00:00"];
    ["4"; "Plan trip"; "pending"; "alice"; "2025-07-15 23:59"; "2025-07-02 09:30:00"];
    ["5"; "Call Bob"; "pending"; "bob"; ""; "2025-07-03 10:00:00"] ].

(** A sheet of forty pending tasks due on 2025-07-08. *)
Definition busy_sheet : worksheet :=
  HEADERS ::
  map (fun i => [str_nat i; "Prepare the quarterly report for the regional office";
                 "pending"; ""; "2025-07-08 23:59"; "2025-07-01 08:00:00"])
      (seq 1 40).

Definition alice : user := mkUser 42 "alice" "<@42>" "Alice".

Definition sample_msg : message := mkMessage alice [alice].

Example normalise_today :
  parse_relative_due_date sample_now (Some "Today") = Some "2025-07-08 23:59".
Proof. vm_compute. reflexivity. Qed.

Example normalise_tomorrow :
  parse_relative_due_date sample_now (Some "by tomorrow") = Some "2025-07-09 23:59".
Proof. vm_compute. reflexivity. Qed.

Example normalise_ymd :
  parse_relative_due_date sample_now (Some "2025-07-08") = Some "2025-07-08 23:59".
Proof. vm_compute. reflexivity. Qed.

Example normalise_ymdhm :
  parse_relative_due_date sample_now (Some "2025-07-08 10:00") = Some "2025-07-08 10:00".
Proof. vm_compute. reflexivity. Qed.

Example normalise_invalid :
  parse_relative_due_date sample_now (Some "notadate") = None.
Proof. vm_compute. reflexivity. Qed.

Example normalise_lenient :
  parse_relative_due_date sample_now (Some "2025-7-8 9:05") = Some "2025-07-08 09:05".
Proof. vm_compute. reflexivity. Qed.

Example normalise_no_such_day :
  parse_relative_due_date sample_now (Some "2025-02-30") = None.
Proof. vm_compute. reflexivity. Qed.

Example read_next_seven_days :
  map task_id (read_tasks (mkDate 2025 7 8) sample_sheet None
                          (Some "next_seven_days") (Some STATUS_PENDING))
  = [Some "1"; Some "3"].
Proof. vm_compute. reflexivity. Qed.

Example next_id_sample : get_next_task_id sample_sheet = Ok 6%Z.
Proof. vm_compute. reflexivity. Qed.

Example weekday_sample : weekday (mkDate 2025 7 8) = 1.
Proof. vm_compute. reflexivity. Qed.

Example update_sample :
  update_task sample_sheet 5 None (Some "") (Some "2025-07-20 23:59")
  = Ok (true, <[5 := ["5"; "Call Bob"; "pending"; ""; "2025-07-20 23:59";
                      "2025-07-03 10:00:00"]]> sample_sheet).
Proof. vm_compute. reflexivity. Qed.

Example update_missing : update_task sample_sheet 9 (Some "x") None None = Ok (false, sample_sheet).
Proof. vm_compute. reflexivity. Qed.

Example complete_sample :
  mark_task_complete sample_sheet 3
  = Ok (true, <[3 := ["3"; "report"; "completed"; ""; "2025-07-11 23:59";
                      "2025-07-02 09:00:00"]]> sample_sheet).
Proof. vm_compute. reflexivity. Qed.

Example wf_sample : wf_sheet sample_sheet = true.
Proof. vm_compute. reflexivity. Qed.

Example add_sample :
  handle_add_task sample_now sample_sheet sample_msg
    {[ "title" := VStr "Write tests"; "due_date" := VStr "tomorrow"; "assignee" := VStr "alice" ]}
  = (sample_sheet ++ [["6"; "Write tests"; "pending"; "42"; "2025-07-09 23:59";
                       "2025-07-08 09:30:15"]],
     [TaskAdded "Write tests" 6 (Some "alice") (Some "2025-07-09 23:59")]).
Proof. vm_compute. reflexivity. Qed.

Example complete_by_title_ambiguous :
  handle_complete_task (mkDate 2025 7 8) sample_sheet sample_msg
    {[ "target_task_title" := VStr "REPORT" ]}
  = (sample_sheet, [AmbiguousTitle "REPORT" ["1"; "3"]]).
Proof. vm_compute. reflexivity. Qed.

Example complete_by_title_single :
  handle_complete_task (mkDate 2025 7 8) sample_sheet sample_msg
    {[ "target_task_title" := VStr "plan trip" ]}
  = (<[4 := ["4"; "Plan trip"; "completed"; "alice"; "2025-07-15 23:59";
             "2025-07-02 09:30:00"]]> sample_sheet,
     [FoundByTitle "plan trip" 4; TaskCompleted 4]).
Proof. vm_compute. reflexivity. Qed.

Example update_only_empty_assignee :
  handle_update_task sample_now sample_sheet sample_msg
    {[ "target_task_id" := VStr "1"; "new_assignee" := VStr "" ]}
  = (sample_sheet, [AskUpdateFields]).
Proof. vm_compute. reflexivity. Qed.

Example grouping_sample :
  let b := group_tasks (mkDate 2025 7 8)
             (read_tasks (mkDate 2025 7 8) sample_sheet None (Some "next_seven_days")
                         (Some STATUS_PENDING)) in
  (map task_id (due_today_tasks b), map task_id (due_tomorrow_tasks b),
   map task_id (upcoming_tasks b)) = ([Some "1"], [], [Some "3"]).
Proof. vm_compute. reflexivity. Qed.

(** ** Characters and digits *)

Lemma digit_char_is_digit (k : nat) : k < 10 -> is_digit (digit_char k) = true.
Proof. intros H. do 10 (destruct k as [|k]; [reflexivity|]). lia. Qed.

Lemma digit_char_in_0_9 (k : nat) : k < 10 -> rng 0 9 (digit_char k) = true.
Proof. intros H. do 10 (destruct k as [|k]; [reflexivity|]). lia. Qed.

Lemma digit_char_not_space (k : nat) : k < 10 -> is_space (digit_char k) = false.
Proof. intros H. do 10 (destruct k as [|k]; [reflexivity|]). lia. Qed.

Lemma digit_char_not_t (k : nat) :
  k < 10 -> Ascii.eqb (lower_char (digit_char k)) "t" = false.
Proof. intros H. do 10 (destruct k as [|k]; [reflexivity|]). lia. Qed.

Lemma digit_val_digit_char (k : nat) : k < 10 -> digit_val (digit_char k) = k.
Proof. intros H. do 10 (destruct k as [|k]; [reflexivity|]). lia. Qed.

Lemma mod10_lt (n : nat) : n mod 10 < 10.
Proof. apply Nat.mod_upper_bound. discriminate. Qed.

Create HintDb digits.

#[local] Hint Resolve mod10_lt digit_char_is_digit digit_char_in_0_9
  digit_char_not_space digit_char_not_t : digits.

Lemma append_cons (c : ascii) (a b : string) : String c a +:+ b = String c (a +:+ b).
Proof. reflexivity. Qed.

Lemma append_empty (b : string) : EmptyString +:+ b = b.
Proof. reflexivity. Qed.

(** Appends with a literal or padded prefix, flattened. *)
Ltac flatten_text := repeat (rewrite append_cons || rewrite append_empty).

(** A text none of whose characters lowers to [t] holds neither relative
    word. *)
Lemma no_t_not_relative (s : string) :
  no_t s = true ->
  contains "today" (lower s) = false /\ contains "tomorrow" (lower s) = false.
Proof.
  induction s as [|c r IH]; [now split|].
  unfold no_t. simpl all_chars. intros H.
  apply andb_prop in H as [Hc Hr]. apply negb_true_iff in Hc.
  destruct (IH Hr) as [IH1 IH2].
  simpl lower. split.
  - change (contains "today" (String (lower_char c) (lower r)))
      with (starts_with "today" (String (lower_char c) (lower r)) || contains "today" (lower r)).
    rewrite IH1, orb_false_r. cbn [starts_with].
    rewrite (Ascii.eqb_sym "t"), Hc. reflexivity.
  - change (contains "tomorrow" (String (lower_char c) (lower r)))
      with (starts_with "tomorrow" (String (lower_char c) (lower r))
            || contains "tomorrow" (lower r)).
    rewrite IH2, orb_false_r. cbn [starts_with].
    rewrite (Ascii.eqb_sym "t"), Hc. reflexivity.
Qed.

Lemma no_t_fmt_date (d : date) : no_t (fmt_date d) = true.
Proof.
  unfold no_t, fmt_date, pad4, pad2. flatten_text. cbn [all_chars].
  rewrite !digit_char_not_t by auto with digits. reflexivity.
Qed.

Lemma no_t_fmt_datetime (t : datetime) : no_t (fmt_datetime t) = true.
Proof.
  unfold no_t, fmt_datetime, fmt_date, fmt_hm, pad4, pad2. flatten_text. cbn [all_chars].
  rewrite !digit_char_not_t by auto with digits. reflexivity.
Qed.

(** ** Matching the text [strftime] writes *)

Lemma re_match_group_head alts fmt s txt rest gs r tl tl' :
  match_alt alts s = (txt, rest) :: tl ->
  re_match fmt rest = (gs, r) :: tl' ->
  exists tl'', re_match (Group alts :: fmt) s = (txt :: gs, r) :: tl''.
Proof.
  intros Ha Hf. cbn [re_match]. rewrite Ha. cbn [flat_map]. rewrite Hf.
  cbn [map List.app]. eauto.
Qed.

Lemma re_match_lit_head c fmt r x tl :
  re_match fmt r = x :: tl -> re_match (Lit c :: fmt) (String c r) = x :: tl.
Proof. intros H. cbn [re_match]. rewrite Ascii.eqb_refl. exact H. Qed.

Lemma re_match_ws_head fmt c r x tl :
  is_space c = true -> ws_rests r = [] ->
  re_match fmt r = x :: tl -> re_match (Ws :: fmt) (String c r) = x :: tl.
Proof.
  intros Hc Hr H. cbn [re_match ws_rests]. rewrite Hc, Hr. cbn [List.app flat_map].
  rewrite H. rewrite app_nil_r. reflexivity.
Qed.

Tactic Notation "bounded_cases" ident(n) integer(k) tactic3(tac) :=
  do k (destruct n as [|n]; [first [lia | tac] |]); lia.

Lemma match_year y fmt rest gs r tl :
  re_match fmt rest = (gs, r) :: tl ->
  exists tl', re_match (re_Y :: fmt) (pad4 y +:+ rest) = (pad4 y :: gs, r) :: tl'.
Proof.
  intros H. eapply re_match_group_head; [|exact H].
  unfold pad4, pad2. flatten_text. cbn [match_alt match_seq].
  rewrite !digit_char_in_0_9 by auto with digits. reflexivity.
Qed.

Lemma match_month m fmt rest gs r tl :
  1 <= m <= 12 ->
  re_match fmt rest = (gs, r) :: tl ->
  exists tl', re_match (re_m :: fmt) (pad2 m +:+ rest) = (pad2 m :: gs, r) :: tl'.
Proof.
  intros Hm H.
  assert (exists tl0, match_alt [[rng 1 1; rng 0 2]; [rng 0 0; rng 1 9]; [rng 1 9]]
                        (pad2 m +:+ rest) = (pad2 m, rest) :: tl0) as [tl0 E].
  { bounded_cases m 13 (eexists; reflexivity). }
  eapply re_match_group_head; eassumption.
Qed.

Lemma match_day d fmt rest gs r tl :
  1 <= d <= 31 ->
  re_match fmt rest = (gs, r) :: tl ->
  exists tl', re_match (re_d :: fmt) (pad2 d +:+ rest) = (pad2 d :: gs, r) :: tl'.
Proof.
  intros Hd H.
  assert (exists tl0,
            match_alt [[rng 3 3; rng 0 1]; [rng 1 2; rng 0 9]; [rng 0 0; rng 1 9]; [rng 1 9];
                       [chr " "; rng 1 9]]
              (pad2 d +:+ rest) = (pad2 d, rest) :: tl0) as [tl0 E].
  { bounded_cases d 32 (eexists; reflexivity). }
  eapply re_match_group_head; eassumption.
Qed.

Lemma match_hour h fmt rest gs r tl :
  h < 24 ->
  re_match fmt rest = (gs, r) :: tl ->
  exists tl', re_match (re_H :: fmt) (pad2 h +:+ rest) = (pad2 h :: gs, r) :: tl'.
Proof.
  intros Hh H.
  assert (exists tl0, match_alt [[rng 2 2; rng 0 3]; [rng 0 1; rng 0 9]; [rng 0 9]]
                        (pad2 h +:+ rest) = (pad2 h, rest) :: tl0) as [tl0 E].
  { bounded_cases h 24 (eexists; reflexivity). }
  eapply re_match_group_head; eassumption.
Qed.

Lemma match_minute m fmt rest gs r tl :
  m < 60 ->
  re_match fmt rest = (gs, r) :: tl ->
  exists tl', re_match (re_M :: fmt) (pad2 m +:+ rest) = (pad2 m :: gs, r) :: tl'.
Proof.
  intros Hm H.
  assert (exists tl0, match_alt [[rng 0 5; rng 0 9]; [rng 0 9]]
                        (pad2 m +:+ rest) = (pad2 m, rest) :: tl0) as [tl0 E].
  { bounded_cases m 60 (eexists; reflexivity). }
  eapply re_match_group_head; eassumption.
Qed.

Lemma int_digits_all_digits (s : string) (prev : bool) (acc : nat) :
  all_chars is_digit s = true ->
  s <> EmptyString \/ prev = true ->
  int_digits prev acc s = Some (digits_val acc s).
Proof.
  revert prev acc. induction s as [|c r IH]; intros prev acc Hd Hne.
  - destruct Hne as [Hne | ->]; [congruence | reflexivity].
  - cbn [all_chars] in Hd. apply andb_prop in Hd as [Hc Hr].
    cbn [int_digits digits_val]. rewrite Hc. apply IH; auto.
Qed.

Lemma digit_not_space (c : ascii) : is_digit c = true -> is_space c = false.
Proof.
  unfold is_digit, is_space. rewrite andb_true_iff, !Nat.leb_le. intros [H1 H2].
  apply orb_false_iff. split; apply andb_false_iff.
  - right. apply Nat.leb_gt. lia.
  - right. apply Nat.leb_gt. lia.
Qed.

Lemma rstrip_no_space (s : string) :
  all_chars (fun c => negb (is_space c)) s = true -> rstrip s = s.
Proof.
  induction s as [|c r IH]; [reflexivity|].
  cbn [all_chars]. intros H. apply andb_prop in H as [Hc Hr].
  cbn [rstrip]. rewrite (IH Hr). apply negb_true_iff in Hc. rewrite Hc.
  destruct r; reflexivity.
Qed.

Lemma all_chars_impl (p q : ascii -> bool) (s : string) :
  (forall c, p c = true -> q c = true) ->
  all_chars p s = true -> all_chars q s = true.
Proof.
  intros Hpq. induction s as [|c r IH]; [reflexivity|].
  cbn [all_chars]. rewrite !andb_true_iff. intros [Hc Hr]. auto.
Qed.

Lemma isdigit_all (s : string) :
  isdigit s = true -> s <> EmptyString /\ all_chars is_digit s = true.
Proof. destruct s; [discriminate|]. intros H. split; [discriminate | exact H]. Qed.

(** [int] of a text of digits is its decimal value; there is no
    [ValueError] behind [str.isdigit]. *)
Lemma py_int_isdigit (s : string) :
  isdigit s = true -> py_int s = Some (Z.of_nat (digits_val 0 s)).
Proof.
  intros H. apply isdigit_all in H as [Hne Hd].
  assert (strip s = s) as Hs.
  { unfold strip. destruct s as [|c r]; [congruence|].
    pose proof Hd as Hd'. cbn [all_chars] in Hd'. apply andb_prop in Hd' as [Hc _].
    cbn [drop_while]. rewrite (digit_not_space c Hc).
    apply rstrip_no_space. revert Hd. apply all_chars_impl.
    intros x Hx. now rewrite (digit_not_space x Hx). }
  unfold py_int. rewrite Hs. destruct s as [|c r]; [congruence|].
  pose proof Hd as Hd'. cbn [all_chars] in Hd'. apply andb_prop in Hd' as [Hc _].
  destruct (Ascii.eqb c "-") eqn:E1; [apply Ascii.eqb_eq in E1; subst; discriminate|].
  destruct (Ascii.eqb c "+") eqn:E2; [apply Ascii.eqb_eq in E2; subst; discriminate|].
  rewrite (int_digits_all_digits _ false 0 Hd) by (left; discriminate).
  reflexivity.
Qed.

Lemma group_int_isdigit (s : string) :
  isdigit s = true -> group_int s = digits_val 0 s.
Proof. intros H. unfold group_int. rewrite (py_int_isdigit s H). apply Nat2Z.id. Qed.

Lemma group_int_pad2 (n : nat) : n < 100 -> group_int (pad2 n) = n.
Proof.
  intros H. rewrite group_int_isdigit.
  - unfold pad2. cbn [digits_val]. rewrite !digit_val_digit_char by auto with digits.
    assert (n / 10 < 10) by (apply Nat.Div0.div_lt_upper_bound; lia).
    rewrite (Nat.mod_small (n / 10)) by assumption.
    pose proof (Nat.div_mod_eq n 10). lia.
  - unfold pad2, isdigit. cbn [all_chars].
    rewrite !digit_char_is_digit by auto with digits. reflexivity.
Qed.

Lemma group_int_pad4 (n : nat) : n <= MAXYEAR -> group_int (pad4 n) = n.
Proof.
  unfold MAXYEAR. intros H. rewrite group_int_isdigit.
  - unfold pad4, pad2. cbn [digits_val]. rewrite !digit_val_digit_char by auto with digits.
    assert (n / 100 = n / 10 / 10) as E2 by (rewrite Nat.Div0.div_div; reflexivity).
    assert (n / 1000 = n / 10 / 10 / 10) as E3 by (rewrite !Nat.Div0.div_div; reflexivity).
    rewrite E2, E3.
    pose proof (Nat.div_mod_eq n 10).
    pose proof (Nat.div_mod_eq (n / 10) 10).
    pose proof (Nat.div_mod_eq (n / 10 / 10) 10).
    pose proof (Nat.div_mod_eq (n / 10 / 10 / 10) 10).
    pose proof (mod10_lt n). pose proof (mod10_lt (n / 10)).
    pose proof (mod10_lt (n / 10 / 10)). pose proof (mod10_lt (n / 10 / 10 / 10)).
    assert (n / 10 / 10 / 10 < 10) as Hq by lia.
    rewrite (Nat.mod_small _ _ Hq) in *. lia.
  - unfold pad4, pad2, isdigit. cbn [all_chars].
    rewrite !digit_char_is_digit by auto with digits. reflexivity.
Qed.

Lemma valid_date_bounds (d : date) :
  valid_date d = true ->
  1 <= year d <= MAXYEAR /\ 1 <= month d <= 12 /\
  1 <= day d <= days_in_month (year d) (month d).
Proof.
  unfold valid_date. rewrite !andb_true_iff, !Nat.leb_le. lia.
Qed.

Lemma days_in_month_le_31 (y m : nat) : days_in_month y m <= 31.
Proof.
  unfold days_in_month.
  do 13 (destruct m as [|m]; [try destruct (is_leap y); lia|]). lia.
Qed.

Lemma fmt_date_shape (d : date) (rest : string) :
  fmt_date d +:+ rest
  = pad4 (year d) +:+ String "-" (pad2 (month d) +:+ String "-" (pad2 (day d) +:+ rest)).
Proof. unfold fmt_date, pad4, pad2. flatten_text. reflexivity. Qed.

Lemma fmt_datetime_shape (t : datetime) :
  fmt_datetime t
  = fmt_date (dt_date t) +:+
      String " " (pad2 (hour t) +:+ String ":" (pad2 (minute t) +:+ EmptyString)).
Proof. unfold fmt_datetime, fmt_hm, pad2. flatten_text. reflexivity. Qed.

Lemma append_empty_r (s : string) : s +:+ EmptyString = s.
Proof. induction s as [|c r IH]; [reflexivity|]. rewrite append_cons, IH. reflexivity. Qed.

(** The expression of ["%Y-%m-%d"], possibly followed by more, matches the
    rendering of a real date first, group by group. *)
Lemma re_match_date_head (d : date) fmt rest gs r tl :
  valid_date d = true ->
  re_match fmt rest = (gs, r) :: tl ->
  exists tl',
    re_match (FMT_DATE ++ fmt) (fmt_date d +:+ rest)
    = (pad4 (year d) :: pad2 (month d) :: pad2 (day d) :: gs, r) :: tl'.
Proof.
  intros Hv H. apply valid_date_bounds in Hv as (Hy & Hm & Hd).
  pose proof (days_in_month_le_31 (year d) (month d)) as H31.
  rewrite fmt_date_shape.
  destruct (match_day (day d) fmt rest gs r tl ltac:(lia) H) as [t1 E1].
  pose proof (re_match_lit_head "-" _ _ _ _ E1) as E2.
  destruct (match_month (month d) _ _ _ _ _ Hm E2) as [t3 E3].
  pose proof (re_match_lit_head "-" _ _ _ _ E3) as E4.
  exact (match_year (year d) _ _ _ _ _ E4).
Qed.

Lemma build_date_valid (d : date) :
  valid_date d = true ->
  build_date (group_int (pad4 (year d))) (group_int (pad2 (month d)))
             (group_int (pad2 (day d))) = Some d.
Proof.
  intros Hv. pose proof (valid_date_bounds d Hv) as (Hy & Hm & Hd).
  pose proof (days_in_month_le_31 (year d) (month d)) as H31.
  rewrite group_int_pad4 by lia. rewrite !group_int_pad2 by lia.
  unfold build_date. destruct d as [y m dd]. cbn [year month day] in *.
  rewrite Hv. reflexivity.
Qed.

(** [strptime] reads back what [strftime] wrote. *)
Lemma strptime_date_fmt (d : date) :
  valid_date d = true -> strptime_date (fmt_date d) = Some (mkDateTime d 0 0 0).
Proof.
  intros Hv.
  destruct (re_match_date_head d [] EmptyString [] EmptyString [] Hv eq_refl) as [tl E].
  rewrite app_nil_r, append_empty_r in E.
  unfold strptime_date, found_groups. rewrite E.
  rewrite build_date_valid by assumption. reflexivity.
Qed.

Lemma strptime_datetime_fmt (t : datetime) :
  valid_datetime t = true ->
  strptime_datetime (fmt_datetime t)
  = Some (mkDateTime (dt_date t) (hour t) (minute t) 0).
Proof.
  unfold valid_datetime. rewrite !andb_true_iff, !Nat.ltb_lt.
  intros [[[Hv Hh] Hm] _].
  destruct (match_minute (minute t) [] EmptyString [] EmptyString [] Hm eq_refl) as [t1 E1].
  pose proof (re_match_lit_head ":" _ _ _ _ E1) as E2.
  destruct (match_hour (hour t) _ _ _ _ _ Hh E2) as [t3 E3].
  assert (ws_rests (pad2 (hour t) +:+ String ":" (pad2 (minute t) +:+ EmptyString)) = [])
    as Hws.
  { unfold pad2 at 1. flatten_text. cbn [ws_rests].
    rewrite digit_char_not_space by auto with digits. reflexivity. }
  pose proof (re_match_ws_head _ " "%char _ _ _ eq_refl Hws E3) as E4.
  destruct (re_match_date_head (dt_date t) _ _ _ _ _ Hv E4) as [t5 E5].
  unfold strptime_datetime, found_groups, FMT_DATETIME.
  rewrite fmt_datetime_shape, E5.
  rewrite build_date_valid by assumption.
  rewrite !group_int_pad2 by lia. reflexivity.
Qed.

Lemma parse_some (now : datetime) (s : string) :
  s <> EmptyString ->
  parse_relative_due_date now (Some s)
  = if contains "today" (lower s) then
      Some (fmt_date (dt_date now) +:+ " " +:+ "23:59")
    else if contains "tomorrow" (lower s) then
      Some (fmt_date (add_days (dt_date now) 1) +:+ " " +:+ "23:59")
    else
      match strptime_datetime s with
      | Some dt_obj => Some (fmt_datetime dt_obj)
      | None =>
          match strptime_date s with
          | Some dt_obj => Some (fmt_date (dt_date dt_obj) +:+ " 23:59")
          | None => None
          end
      end.
Proof. destruct s; [congruence | reflexivity]. Qed.

Lemma fmt_date_nonempty (d : date) (rest : string) : fmt_date d +:+ rest <> EmptyString.
Proof. rewrite fmt_date_shape. unfold pad4. flatten_text. discriminate. Qed.

(** A canonical date and time comes back as it went in. *)
Lemma parse_canonical_datetime (now t : datetime) :
  valid_datetime t = true ->
  parse_relative_due_date now (Some (fmt_datetime t)) = Some (fmt_datetime t).
Proof.
  intros Hv.
  rewrite parse_some by (rewrite fmt_datetime_shape; apply fmt_date_nonempty).
  destruct (no_t_not_relative _ (no_t_fmt_datetime t)) as [-> ->].
  rewrite strptime_datetime_fmt by assumption. reflexivity.
Qed.

(** *** What a match says about the text *)

Lemma has_char_append (c : ascii) (a b : string) :
  has_char c (a +:+ b) = has_char c a || has_char c b.
Proof.
  induction a as [|x a IH]; [reflexivity|].
  rewrite append_cons. cbn [has_char]. rewrite IH. apply orb_assoc.
Qed.

Lemma match_seq_split (cs : list cclass) (s txt rest : string) :
  match_seq cs s = Some (txt, rest) -> s = txt +:+ rest.
Proof.
  revert s txt rest. induction cs as [|p cs IH]; intros s txt rest H.
  - cbn in H. injection H as <- <-. reflexivity.
  - cbn [match_seq] in H. destruct s as [|c r]; [discriminate|].
    destruct (p c); [|discriminate].
    destruct (match_seq cs r) as [[m rest']|] eqn:E; [|discriminate].
    injection H as <- <-. rewrite append_cons. f_equal. exact (IH _ _ _ E).
Qed.

Lemma match_alt_inv (alts : list (list cclass)) (s txt rest : string) :
  In (txt, rest) (match_alt alts s) ->
  exists a, In a alts /\ match_seq a s = Some (txt, rest).
Proof.
  induction alts as [|a alts IH]; [intros []|].
  cbn [match_alt]. destruct (match_seq a s) as [x|] eqn:E.
  - intros [<- | H]; [exists a; split; [now left | exact E]|].
    destruct (IH H) as (a' & Ha & Hm). exists a'. split; [now right | exact Hm].
  - intros H. destruct (IH H) as (a' & Ha & Hm). exists a'. split; [now right | exact Hm].
Qed.

Lemma ws_rests_inv (s rest : string) :
  In rest (ws_rests s) -> exists pre, s = pre +:+ rest.
Proof.
  revert rest. induction s as [|c r IH]; intros rest; [intros []|].
  cbn [ws_rests]. destruct (is_space c); [|intros []].
  intros H. apply in_app_or in H as [H | [<- | []]].
  - destruct (IH _ H) as [pre ->]. exists (String c pre). reflexivity.
  - exists (String c EmptyString). reflexivity.
Qed.

Lemma re_match_group_inv alts fmt s gs r :
  In (gs, r) (re_match (Group alts :: fmt) s) ->
  exists txt rest gs', gs = txt :: gs' /\ In (txt, rest) (match_alt alts s)
                      /\ In (gs', r) (re_match fmt rest).
Proof.
  cbn [re_match]. intros H. apply in_flat_map in H as ([txt rest] & Hin & H).
  apply in_map_iff in H as ([gs' r'] & E & H). injection E as <- <-.
  exists txt, rest, gs'. auto.
Qed.

Lemma re_match_lit_inv c fmt s gs r :
  In (gs, r) (re_match (Lit c :: fmt) s) ->
  exists s', s = String c s' /\ In (gs, r) (re_match fmt s').
Proof.
  cbn [re_match]. destruct s as [|c' s']; [intros []|].
  destruct (Ascii.eqb c c') eqn:E; [|intros []].
  apply Ascii.eqb_eq in E as <-. eauto.
Qed.

Lemma re_match_ws_inv fmt s gs r :
  In (gs, r) (re_match (Ws :: fmt) s) ->
  exists rest, In rest (ws_rests s) /\ In (gs, r) (re_match fmt rest).
Proof.
  cbn [re_match]. intros H. apply in_flat_map in H as (rest & Hin & H). eauto.
Qed.

(** A literal character of the format is a character of every text the
    expression matches. *)
Lemma re_match_has_lit (c : ascii) fmt s x :
  In (Lit c) fmt -> In x (re_match fmt s) -> has_char c s = true.
Proof.
  revert s x. induction fmt as [|i fmt IH]; intros s [gs r] Hin Hm; [destruct Hin|].
  destruct i as [alts | c' |].
  - destruct Hin as [E | Hin]; [discriminate|].
    apply re_match_group_inv in Hm as (txt & rest & gs' & _ & Ha & Hr).
    apply match_alt_inv in Ha as (a & _ & Hs). apply match_seq_split in Hs as ->.
    rewrite has_char_append, (IH _ _ Hin Hr). apply orb_true_r.
  - apply re_match_lit_inv in Hm as (s' & -> & Hr). cbn [has_char].
    destruct Hin as [E | Hin].
    + injection E as ->. now rewrite Ascii.eqb_refl.
    + rewrite (IH _ _ Hin Hr). apply orb_true_r.
  - destruct Hin as [E | Hin]; [discriminate|].
    apply re_match_ws_inv in Hm as (rest & Hw & Hr).
    apply ws_rests_inv in Hw as [pre ->].
    rewrite has_char_append, (IH _ _ Hin Hr). apply orb_true_r.
Qed.

Lemma found_groups_in fmt s gs :
  found_groups fmt s = Some gs -> In (gs, EmptyString) (re_match fmt s).
Proof.
  unfold found_groups. destruct (re_match fmt s) as [|[gs' r] tl]; [discriminate|].
  destruct r; [|discriminate]. intros E. injection E as <-. now left.
Qed.

Lemma strptime_datetime_has_colon (s : string) (t : datetime) :
  strptime_datetime s = Some t -> has_char ":" s = true.
Proof.
  unfold strptime_datetime. destruct (found_groups FMT_DATETIME s) as [gs|] eqn:E;
    [|discriminate].
  intros _. apply found_groups_in in E.
  apply (re_match_has_lit ":" FMT_DATETIME s (gs, EmptyString)); [|exact E].
  unfold FMT_DATETIME, FMT_DATE. cbn. tauto.
Qed.

Lemma digit_char_not_colon (k : nat) : k < 10 -> Ascii.eqb ":" (digit_char k) = false.
Proof. intros H. do 10 (destruct k as [|k]; [reflexivity|]). lia. Qed.

Lemma strptime_datetime_of_date (d : date) : strptime_datetime (fmt_date d) = None.
Proof.
  destruct (strptime_datetime (fmt_date d)) as [t|] eqn:E; [|reflexivity].
  apply strptime_datetime_has_colon in E.
  unfold fmt_date, pad4, pad2 in E. revert E. flatten_text. cbn [has_char].
  rewrite !digit_char_not_colon by auto with digits. discriminate.
Qed.

(** A canonical date gets the end of the day. *)
Lemma parse_canonical_date (now : datetime) (d : date) :
  valid_date d = true ->
  parse_relative_due_date now (Some (fmt_date d)) = Some (fmt_date d +:+ " 23:59").
Proof.
  intros Hv.
  assert (fmt_date d <> EmptyString) as Hne
    by (rewrite <- (append_empty_r (fmt_date d)); apply fmt_date_nonempty).
  rewrite parse_some by assumption.
  destruct (no_t_not_relative _ (no_t_fmt_date d)) as [-> ->].
  rewrite strptime_datetime_of_date.
  rewrite strptime_date_fmt by assumption. reflexivity.
Qed.

(** *** What [strptime] returns is a real date and time *)

Lemma rng_digit (lo hi : nat) (c : ascii) :
  hi <= 9 -> rng lo hi c = true -> is_digit c = true /\ lo <= digit_val c <= hi.
Proof.
  unfold rng, is_digit, digit_val. rewrite !andb_true_iff, !Nat.leb_le. lia.
Qed.

Lemma match_seq_one p s txt rest :
  match_seq [p] s = Some (txt, rest) ->
  exists c, txt = String c EmptyString /\ p c = true.
Proof.
  cbn [match_seq]. destruct s as [|c r]; [discriminate|].
  destruct (p c) eqn:E; [|discriminate]. intros H. injection H as <- <-. eauto.
Qed.

Lemma match_seq_two p1 p2 s txt rest :
  match_seq [p1; p2] s = Some (txt, rest) ->
  exists c1 c2, txt = String c1 (String c2 EmptyString) /\ p1 c1 = true /\ p2 c2 = true.
Proof.
  cbn [match_seq]. destruct s as [|c1 [|c2 r]]; try discriminate.
  - destruct (p1 c1); discriminate.
  - destruct (p1 c1) eqn:E1; [|discriminate]. destruct (p2 c2) eqn:E2; [|discriminate].
    intros H. injection H as <- <-. eauto 6.
Qed.

Lemma group_int_two (c1 c2 : ascii) :
  is_digit c1 = true -> is_digit c2 = true ->
  group_int (String c1 (String c2 EmptyString)) = 10 * digit_val c1 + digit_val c2.
Proof.
  intros H1 H2. rewrite group_int_isdigit.
  - cbn [digits_val]. lia.
  - cbn [isdigit all_chars]. now rewrite H1, H2.
Qed.

Lemma group_int_one (c : ascii) :
  is_digit c = true -> group_int (String c EmptyString) = digit_val c.
Proof.
  intros H. rewrite group_int_isdigit.
  - cbn [digits_val]. lia.
  - cbn [isdigit all_chars]. now rewrite H.
Qed.

(** Bounds a group of one or two digit classes puts on its value. *)
Ltac group_bound Hs :=
  first
    [ apply match_seq_two in Hs as (c1 & c2 & -> & Hc1 & Hc2);
      apply rng_digit in Hc1 as [Hd1 Hb1]; [|lia];
      apply rng_digit in Hc2 as [Hd2 Hb2]; [|lia];
      rewrite (group_int_two _ _ Hd1 Hd2); lia
    | apply match_seq_one in Hs as (c1 & -> & Hc1);
      apply rng_digit in Hc1 as [Hd1 Hb1]; [|lia];
      rewrite (group_int_one _ Hd1); lia ].

Lemma hour_group_bound s txt rest :
  In (txt, rest) (match_alt [[rng 2 2; rng 0 3]; [rng 0 1; rng 0 9]; [rng 0 9]] s) ->
  group_int txt < 24.
Proof.
  intros H. apply match_alt_inv in H as (a & Ha & Hs).
  cbn [In] in Ha. destruct Ha as [<- | [<- | [<- | []]]]; group_bound Hs.
Qed.

Lemma minute_group_bound s txt rest :
  In (txt, rest) (match_alt [[rng 0 5; rng 0 9]; [rng 0 9]] s) ->
  group_int txt < 60.
Proof.
  intros H. apply match_alt_inv in H as (a & Ha & Hs).
  cbn [In] in Ha. destruct Ha as [<- | [<- | []]]; group_bound Hs.
Qed.

Lemma build_date_some y m d r : build_date y m d = Some r -> valid_date r = true.
Proof.
  unfold build_date. destruct (valid_date (mkDate y m d)) eqn:E; [|discriminate].
  intros H. injection H as <-. exact E.
Qed.

Lemma strptime_date_valid (s : string) (t : datetime) :
  strptime_date s = Some t ->
  valid_date (dt_date t) = true /\ t = mkDateTime (dt_date t) 0 0 0.
Proof.
  unfold strptime_date. destruct (found_groups FMT_DATE s) as [gs|]; [|discriminate].
  destruct gs as [|y [|m [|d [|? ?]]]]; try discriminate.
  destruct (build_date _ _ _) as [r|] eqn:E; [|discriminate].
  intros H. injection H as <-. cbn [dt_date]. split; [exact (build_date_some _ _ _ _ E)|].
  reflexivity.
Qed.

Lemma strptime_datetime_valid (s : string) (t : datetime) :
  strptime_datetime s = Some t -> valid_datetime t = true.
Proof.
  unfold strptime_datetime.
  destruct (found_groups FMT_DATETIME s) as [gs|] eqn:F; [|discriminate].
  destruct gs as [|y [|m [|d [|h [|mi [|? ?]]]]]]; try discriminate.
  destruct (build_date _ _ _) as [r|] eqn:E; [|discriminate].
  intros H. injection H as <-.
  apply found_groups_in in F. unfold FMT_DATETIME, FMT_DATE in F. cbn [List.app] in F.
  unfold re_Y, re_m, re_d, re_H, re_M in F.
  apply re_match_group_inv in F as (? & ? & ? & Eg & _ & F). injection Eg as <- <-.
  apply re_match_lit_inv in F as (? & _ & F).
  apply re_match_group_inv in F as (? & ? & ? & Eg & _ & F). injection Eg as <- <-.
  apply re_match_lit_inv in F as (? & _ & F).
  apply re_match_group_inv in F as (? & ? & ? & Eg & _ & F). injection Eg as <- <-.
  apply re_match_ws_inv in F as (? & _ & F).
  apply re_match_group_inv in F as (? & ? & ? & Eg & Hh & F). injection Eg as <- <-.
  apply re_match_lit_inv in F as (? & _ & F).
  apply re_match_group_inv in F as (? & ? & ? & Eg & Hm & F). injection Eg as <- <-.
  apply hour_group_bound in Hh. apply minute_group_bound in Hm.
  unfold valid_datetime. cbn [dt_date hour minute second].
  rewrite (build_date_some _ _ _ _ E).
  apply Nat.ltb_lt in Hh, Hm. rewrite Hh, Hm. reflexivity.
Qed.

(** ** The order of dates and the day after *)

Lemma date_eqb_eq (a b : date) : date_eqb a b = true <-> a = b.
Proof.
  unfold date_eqb. rewrite !andb_true_iff, !Nat.eqb_eq.
  destruct a, b; cbn. split; [intros [[-> ->] ->]; reflexivity | intros H; injection H; auto].
Qed.

Lemma date_ltb_lt (a b : date) :
  date_ltb a b = true <->
  year a < year b \/
  (year a = year b /\ (month a < month b \/ (month a = month b /\ day a < day b))).
Proof.
  unfold date_ltb.
  rewrite !orb_true_iff, !andb_true_iff, !orb_true_iff, !andb_true_iff,
          !Nat.ltb_lt, !Nat.eqb_eq. tauto.
Qed.

Lemma date_leb_le (a b : date) :
  date_leb a b = true <-> date_ltb a b = true \/ a = b.
Proof. unfold date_leb. rewrite orb_true_iff, date_eqb_eq. tauto. Qed.

Lemma date_ltb_irrefl (a : date) : date_ltb a a = false.
Proof.
  destruct (date_ltb a a) eqn:E; [|reflexivity]. apply date_ltb_lt in E. lia.
Qed.

Lemma date_ltb_trans (a b c : date) :
  date_ltb a b = true -> date_ltb b c = true -> date_ltb a c = true.
Proof. rewrite !date_ltb_lt. lia. Qed.

Lemma date_ltb_neq (a b : date) : date_ltb a b = true -> a <> b.
Proof. intros H ->. rewrite date_ltb_irrefl in H. discriminate. Qed.

Lemma days_in_month_ge_28 (y m : nat) : 1 <= m <= 12 -> 28 <= days_in_month y m.
Proof.
  intros H. unfold days_in_month.
  do 13 (destruct m as [|m]; [try destruct (is_leap y); lia|]). lia.
Qed.

Lemma valid_date_ok (d : date) : valid_date d = true -> day_ok d.
Proof. intros H. apply valid_date_bounds in H. unfold day_ok. tauto. Qed.

Lemma next_day_ok (d : date) : day_ok d -> day_ok (next_day d).
Proof.
  unfold day_ok, next_day. intros [Hm Hd].
  destruct (Nat.ltb_spec (day d) (days_in_month (year d) (month d))).
  - cbn [year month day]. lia.
  - destruct (Nat.ltb_spec (month d) 12); cbn [year month day].
    + pose proof (days_in_month_ge_28 (year d) (S (month d))). lia.
    + pose proof (days_in_month_ge_28 (S (year d)) 1). lia.
Qed.

Lemma next_day_gt (d : date) : day_ok d -> date_ltb d (next_day d) = true.
Proof.
  unfold day_ok, next_day. intros [Hm Hd]. apply date_ltb_lt.
  destruct (Nat.ltb_spec (day d) (days_in_month (year d) (month d))).
  - cbn [year month day]. lia.
  - destruct (Nat.ltb_spec (month d) 12); cbn [year month day]; lia.
Qed.

(** No date lies strictly between a day and the next. *)
Lemma next_day_least (a d : date) :
  day_ok a -> day_ok d -> date_ltb a d = true ->
  date_ltb (next_day a) d = true \/ d = next_day a.
Proof.
  unfold day_ok. intros [Hma Hda] [Hmd Hdd] Hlt. apply date_ltb_lt in Hlt.
  rewrite date_ltb_lt. unfold next_day.
  destruct a as [ya ma da], d as [yd md dd]. cbn [year month day] in *.
  destruct (Nat.ltb_spec da (days_in_month ya ma)); cbn [year month day].
  - destruct (Nat.eq_dec yd ya) as [->|]; [|left; lia].
    destruct (Nat.eq_dec md ma) as [->|]; [|left; lia].
    destruct (Nat.eq_dec dd (S da)) as [->|]; [now right | left; lia].
  - destruct (Nat.ltb_spec ma 12); cbn [year month day].
    + destruct (Nat.eq_dec yd ya) as [->|]; [|left; lia].
      destruct (Nat.eq_dec md ma) as [->|]; [lia|].
      destruct (Nat.eq_dec md (S ma)) as [->|]; [|left; lia].
      destruct (Nat.eq_dec dd 1) as [->|]; [now right | left; lia].
    + destruct (Nat.eq_dec yd ya) as [->|].
      * destruct (Nat.eq_dec md ma) as [->|]; lia.
      * destruct (Nat.eq_dec yd (S ya)) as [->|]; [|left; lia].
        destruct (Nat.eq_dec md 1) as [->|]; [|left; lia].
        destruct (Nat.eq_dec dd 1) as [->|]; [now right | left; lia].
Qed.

Lemma add_days_ok (d : date) (n : nat) : day_ok d -> day_ok (add_days d n).
Proof.
  revert d. induction n as [|n IH]; intros d H; [exact H|].
  cbn [add_days]. apply IH, next_day_ok, H.
Qed.

Lemma add_days_gt (d : date) (n : nat) :
  day_ok d -> 0 < n -> date_ltb d (add_days d n) = true.
Proof.
  revert d. induction n as [|n IH]; intros d H Hn; [lia|].
  cbn [add_days]. destruct n as [|n].
  - cbn [add_days]. apply next_day_gt, H.
  - apply (date_ltb_trans _ (next_day d)); [apply next_day_gt, H|].
    apply IH; [apply next_day_ok, H | lia].
Qed.

Lemma add_days_add (d : date) (n m : nat) :
  add_days d (n + m) = add_days (add_days d n) m.
Proof.
  revert d. induction n as [|n IH]; intros d; [reflexivity|].
  cbn [Nat.add add_days]. apply IH.
Qed.

Lemma add_days_lt (d : date) (n m : nat) :
  day_ok d -> n < m -> date_ltb (add_days d n) (add_days d m) = true.
Proof.
  intros H Hnm. replace m with (n + (m - n)) by lia. rewrite add_days_add.
  apply add_days_gt; [apply add_days_ok, H | lia].
Qed.

Lemma next_day_valid (d : date) : clock_ok d = true -> valid_date (next_day d) = true.
Proof.
  unfold clock_ok. rewrite andb_true_iff, Nat.ltb_lt. intros [Hv Hy].
  pose proof (next_day_ok d (valid_date_ok d Hv)) as [Hm Hd].
  apply valid_date_bounds in Hv as (Hyd & _ & _).
  assert (year d <= year (next_day d) <= S (year d)) as Hyn.
  { unfold next_day. destruct (_ <? _); [cbn; lia|]. destruct (_ <? _); cbn; lia. }
  unfold valid_date. rewrite !andb_true_iff, !Nat.leb_le. lia.
Qed.

(** ** Texts of the exact canonical shapes *)

Lemma digit_char_digit_val (c : ascii) : is_digit c = true -> digit_char (digit_val c) = c.
Proof.
  unfold is_digit, digit_char, digit_val, code. rewrite andb_true_iff, !Nat.leb_le.
  intros [H1 H2]. replace (48 + (nat_of_ascii c - 48)) with (nat_of_ascii c) by lia.
  apply ascii_nat_embedding.
Qed.

Lemma match_seq_cons_inv p cs s txt rest :
  match_seq (p :: cs) s = Some (txt, rest) ->
  exists c r txt', s = String c r /\ p c = true /\ txt = String c txt'
                   /\ match_seq cs r = Some (txt', rest).
Proof.
  cbn [match_seq]. destruct s as [|c r]; [discriminate|].
  destruct (p c) eqn:E; [|discriminate].
  destruct (match_seq cs r) as [[m rest']|] eqn:E'; [|discriminate].
  intros H. injection H as <- <-. eauto 8.
Qed.

Lemma pad2_digits (a b : nat) :
  a < 10 -> b < 10 ->
  pad2 (10 * a + b) = String (digit_char a) (String (digit_char b) EmptyString).
Proof.
  intros Ha Hb. unfold pad2.
  assert ((10 * a + b) / 10 = a) as -> by (symmetry; apply (Nat.div_unique _ 10 a b); lia).
  assert ((10 * a + b) mod 10 = b) as -> by (symmetry; apply (Nat.mod_unique _ 10 a b); lia).
  rewrite (Nat.mod_small a) by lia. reflexivity.
Qed.

Lemma pad4_digits (a b c d : nat) :
  a < 10 -> b < 10 -> c < 10 -> d < 10 ->
  pad4 (10 * (10 * (10 * a + b) + c) + d)
  = String (digit_char a) (String (digit_char b)
      (String (digit_char c) (String (digit_char d) EmptyString))).
Proof.
  intros Ha Hb Hc Hd. unfold pad4, pad2.
  set (n := 10 * (10 * (10 * a + b) + c) + d).
  assert (n / 1000 = a) as -> by (symmetry; apply (Nat.div_unique _ 1000 a (100 * b + 10 * c + d)); lia).
  assert (n / 100 = 10 * a + b) as -> by (symmetry; apply (Nat.div_unique _ 100 _ (10 * c + d)); lia).
  assert (n / 10 = 10 * (10 * a + b) + c) as -> by (symmetry; apply (Nat.div_unique _ 10 _ d); lia).
  assert (n mod 10 = d) as -> by (symmetry; apply (Nat.mod_unique _ 10 (10 * (10 * a + b) + c) d); lia).
  assert ((10 * a + b) mod 10 = b) as -> by (symmetry; apply (Nat.mod_unique _ 10 a b); lia).
  assert ((10 * (10 * a + b) + c) mod 10 = c) as ->
    by (symmetry; apply (Nat.mod_unique _ 10 (10 * a + b) c); lia).
  rewrite (Nat.mod_small a) by lia. reflexivity.
Qed.

Lemma D_digit (c : ascii) :
  Spec.D c = true -> digit_val c < 10 /\ digit_char (digit_val c) = c.
Proof.
  intros H. apply rng_digit in H as [Hd Hb]; [|lia].
  split; [lia | exact (digit_char_digit_val c Hd)].
Qed.

Lemma chr_eq (a c : ascii) : chr a c = true -> c = a.
Proof. unfold chr. intros H. apply Ascii.eqb_eq in H. congruence. Qed.

Ltac peel_seq H :=
  repeat (apply match_seq_cons_inv in H as (? & ? & ? & -> & ? & -> & H));
  cbn [match_seq] in H; injection H as _ ->.

Ltac digits_back :=
  repeat match goal with
         | H : Spec.D ?c = true |- _ => apply D_digit in H as [? ?]
         | H : chr _ ?c = true |- _ => apply chr_eq in H; subst c
         end.

(** A text of the exact date shape is the rendering of a real date. *)
Lemma exact_date_fmt (s : string) :
  Spec.exact_date s = true -> exists d, valid_date d = true /\ s = fmt_date d.
Proof.
  unfold Spec.exact_date.
  destruct (match_seq _ s) as [[txt rest]|] eqn:E; [|discriminate].
  destruct rest; [|discriminate].
  peel_seq E. cbn [substring digits_val]. intros Hv.
  eexists. split; [exact Hv|]. digits_back.
  unfold fmt_date. cbn [year month day].
  rewrite !Nat.mul_0_r, ?Nat.add_0_l.
  rewrite pad4_digits, !pad2_digits by (rewrite ?Nat.add_0_l; assumption).
  flatten_text. rewrite ?Nat.add_0_l. congruence.
Qed.

Lemma exact_datetime_fmt (s : string) :
  Spec.exact_datetime s = true ->
  exists t, valid_datetime t = true /\ s = fmt_datetime t.
Proof.
  unfold Spec.exact_datetime.
  destruct (match_seq _ s) as [[txt rest]|] eqn:E; [|discriminate].
  destruct rest; [|discriminate].
  peel_seq E. cbn [substring digits_val]. intros Hv.
  apply andb_prop in Hv as [Hv Hmi]. apply andb_prop in Hv as [Hv Hh].
  eexists (mkDateTime _ _ _ 0). split.
  - unfold valid_datetime. cbn [dt_date hour minute second]. rewrite Hv, Hh, Hmi. reflexivity.
  - digits_back. unfold fmt_datetime, fmt_date, fmt_hm. cbn [year month day dt_date hour minute].
    rewrite !Nat.mul_0_r, ?Nat.add_0_l.
    rewrite pad4_digits, !pad2_digits by (rewrite ?Nat.add_0_l; assumption).
  flatten_text. rewrite ?Nat.add_0_l. congruence.
Qed.

(** ** The due-date normaliser, case by case *)

Lemma end_of_day_canonical (d : date) :
  valid_date d = true ->
  exists t, valid_datetime t = true /\ fmt_date d +:+ " 23:59" = fmt_datetime t.
Proof.
  intros Hv. exists (mkDateTime d 23 59 0). split.
  - unfold valid_datetime. cbn [dt_date hour minute second]. rewrite Hv. reflexivity.
  - reflexivity.
Qed.

(** Whatever text the normaliser returns is canonical: the rendering of a
    real date and time. *)
Lemma parse_result_canonical (now : datetime) (input : option string) (r : string) :
  clock_ok (dt_date now) = true ->
  parse_relative_due_date now input = Some r ->
  exists t, valid_datetime t = true /\ r = fmt_datetime t.
Proof.
  intros Hc. pose proof Hc as Hc'. unfold clock_ok in Hc'.
  apply andb_prop in Hc' as [Hv _].
  destruct input as [s|]; [|discriminate].
  destruct s as [|c s]; [discriminate|].
  rewrite parse_some by discriminate.
  destruct (contains "today" _).
  { intros H. injection H as <-. apply end_of_day_canonical, Hv. }
  destruct (contains "tomorrow" _).
  { intros H. injection H as <-. apply end_of_day_canonical.
    exact (next_day_valid _ Hc). }
  destruct (strptime_datetime _) as [t|] eqn:E.
  { intros H. injection H as <-. exists t. split; [|reflexivity].
    exact (strptime_datetime_valid _ _ E). }
  destruct (strptime_date _) as [t|] eqn:E'; [|discriminate].
  intros H. injection H as <-. apply end_of_day_canonical.
  exact (proj1 (strptime_date_valid _ _ E')).
Qed.




(** ** Reading the tasks of the next seven days *)

Lemma filter_filter {A} (f g : A -> bool) (l : list A) :
  List.filter f (List.filter g l) = List.filter (fun x => g x && f x) l.
Proof.
  induction l as [|x l IH]; [reflexivity|].
  cbn [List.filter]. destruct (g x); cbn [List.filter andb]; [|exact IH].
  destruct (f x); now rewrite IH.
Qed.

Lemma read_tasks_next_seven_days_eq (today : date) (ws : worksheet) (a : option string) :
  read_tasks today ws a (Some "next_seven_days") (Some STATUS_PENDING)
  = List.filter
      (fun t => bool_decide (status t = Some STATUS_PENDING)
                && (if truthy a then bool_decide (Some (assignee_id t) = a) else true)
                && due_in_range today "next_seven_days" t)
      (map task_of_record (get_all_records ws)).
Proof.
  unfold read_tasks. case_bool_decide as E.
  - rewrite E. reflexivity.
  - change (truthy (Some STATUS_PENDING)) with true. cbv iota.
    destruct (truthy a).
    + rewrite !filter_filter. apply List.filter_ext. intros t.
      now rewrite andb_assoc.
    + rewrite filter_filter. apply List.filter_ext. intros t.
      now rewrite andb_true_r.
Qed.

Lemma due_in_range_next_seven_days (today : date) (t : task) :
  due_in_range today "next_seven_days" t = true <->
  exists parsed,
    strptime_date (before_space (due_date t)) = Some parsed /\
    date_leb today (dt_date parsed) = true /\
    date_ltb (dt_date parsed) (add_days today 7) = true.
Proof.
  unfold due_in_range. destruct (due_date t) as [|c r].
  - split; [discriminate|]. intros (p & H & _). discriminate.
  - destruct (strptime_date (before_space (String c r))) as [p|].
    + change (String.eqb "next_seven_days" "today") with false.
      change (String.eqb "next_seven_days" "this_week") with false.
      change (String.eqb "next_seven_days" "next_seven_days") with true.
      cbv iota. rewrite andb_true_iff. split.
      * intros [H1 H2]. exists p. auto.
      * intros (p' & E & H1 & H2). injection E as <-. auto.
    + split; [discriminate|]. intros (p & H & _). discriminate.
Qed.



(** ** The buckets of the reminder loop *)

Lemma strptime_date_empty : strptime_date EmptyString = None.
Proof. reflexivity. Qed.

Lemma group_step_bucket (today tomorrow : date) (b : buckets) (t : task) :
  group_step today tomorrow b t
  = match bucket_of today tomorrow t with
    | Some DueToday =>
        mkBuckets (due_today_tasks b ++ [t]) (due_tomorrow_tasks b) (upcoming_tasks b)
    | Some DueTomorrow =>
        mkBuckets (due_today_tasks b) (due_tomorrow_tasks b ++ [t]) (upcoming_tasks b)
    | Some Upcoming =>
        mkBuckets (due_today_tasks b) (due_tomorrow_tasks b) (upcoming_tasks b ++ [t])
    | None => b
    end.
Proof.
  unfold group_step, bucket_of, due_day. destruct (due_date t) as [|c r].
  - cbn [before_space]. rewrite strptime_date_empty. reflexivity.
  - destruct (strptime_date (before_space (String c r))) as [p|]; [|reflexivity].
    cbn [fmap option_fmap option_map].
    destruct (date_eqb (dt_date p) today); [reflexivity|].
    destruct (date_eqb (dt_date p) tomorrow); [reflexivity|].
    destruct (date_ltb today (dt_date p) && date_ltb (dt_date p) (add_days today 7));
      reflexivity.
Qed.

Lemma group_fold_in (today tomorrow : date) (k : bucket) (tasks : list task)
    (b : buckets) (t : task) :
  In t (bucket_list k (fold_left (group_step today tomorrow) tasks b)) <->
  In t (bucket_list k b) \/ (In t tasks /\ bucket_of today tomorrow t = Some k).
Proof.
  revert b. induction tasks as [|x tasks IH]; intros b.
  - cbn [fold_left In]. tauto.
  - cbn [fold_left]. rewrite IH, group_step_bucket.
    destruct (bucket_of today tomorrow x) as [kx|] eqn:Ex.
    + assert (In t (bucket_list k
                (match kx with
                 | DueToday => mkBuckets (due_today_tasks b ++ [x]) (due_tomorrow_tasks b)
                                 (upcoming_tasks b)
                 | DueTomorrow => mkBuckets (due_today_tasks b) (due_tomorrow_tasks b ++ [x])
                                    (upcoming_tasks b)
                 | Upcoming => mkBuckets (due_today_tasks b) (due_tomorrow_tasks b)
                                 (upcoming_tasks b ++ [x])
                 end))
              <-> In t (bucket_list k b) \/ (t = x /\ kx = k)) as A.
      { destruct kx, k; cbn [bucket_list due_today_tasks due_tomorrow_tasks upcoming_tasks];
          rewrite ?in_app_iff; cbn [In]; intuition (try discriminate; auto). }
      rewrite A. cbn [In]. split.
      * intros [[H | [-> <-]] | [H1 H2]]; auto.
      * intros [H | [[<- | H1] H2]]; auto.
        left. right. split; [reflexivity|]. congruence.
    + cbn [In]. split; [tauto|].
      intros [H | [[<- | H1] H2]]; auto. congruence.
Qed.

Lemma due_day_ok (t : task) (d : date) : due_day t = Some d -> day_ok d.
Proof.
  unfold due_day. destruct (strptime_date _) as [p|] eqn:E; [|discriminate].
  cbn. intros H. injection H as <-.
  apply valid_date_ok. exact (proj1 (strptime_date_valid _ _ E)).
Qed.

(** The bucket of a due day, as the claim words it. *)
Lemma bucket_of_cases (today : date) (t : task) (d : date) :
  day_ok today -> due_day t = Some d ->
  let tomorrow := add_days today 1 in
  (bucket_of today tomorrow t = Some DueToday <-> d = today) /\
  (bucket_of today tomorrow t = Some DueTomorrow <-> d = tomorrow) /\
  (bucket_of today tomorrow t = Some Upcoming <->
     date_ltb tomorrow d = true /\ date_ltb d (add_days today 7) = true).
Proof.
  intros Hok Hd tomorrow. pose proof (due_day_ok t d Hd) as Hdok.
  unfold bucket_of. rewrite Hd.
  assert (date_ltb today tomorrow = true) as Hlt by (apply next_day_gt, Hok).
  destruct (date_eqb d today) eqn:E1.
  { apply date_eqb_eq in E1 as ->. repeat split; try discriminate; auto.
    - intros E. rewrite E, date_ltb_irrefl in Hlt. discriminate.
    - intros [H _]. pose proof (date_ltb_trans _ _ _ Hlt H) as X.
      rewrite date_ltb_irrefl in X. discriminate. }
  assert (d <> today) as N1 by (intros ->; rewrite (proj2 (date_eqb_eq _ _) eq_refl) in E1;
                                discriminate).
  destruct (date_eqb d tomorrow) eqn:E2.
  { apply date_eqb_eq in E2 as ->. repeat split; try discriminate; auto; try congruence.
    intros [H _]. rewrite date_ltb_irrefl in H. discriminate. }
  assert (d <> tomorrow) as N2 by (intros ->; rewrite (proj2 (date_eqb_eq _ _) eq_refl) in E2;
                                   discriminate).
  destruct (date_ltb today d) eqn:E3.
  - destruct (next_day_least today d Hok Hdok E3) as [H | H]; [|contradiction].
    change (next_day today) with tomorrow in H. rewrite H. cbn [andb].
    destruct (date_ltb d (add_days today 7)).
    + repeat split; try discriminate; auto; congruence.
    + repeat split; try discriminate; try congruence. intros [_ ?]. discriminate.
  - cbn [andb]. repeat split; try discriminate; try congruence. intros [H _].
    rewrite (date_ltb_trans _ _ _ Hlt H) in E3. discriminate.
Qed.

Lemma group_tasks_in (today : date) (k : bucket) (tasks : list task) (t : task) :
  In t tasks ->
  In t (bucket_list k (group_tasks today tasks))
  <-> bucket_of today (add_days today 1) t = Some k.
Proof.
  intros Ht. unfold group_tasks. rewrite group_fold_in.
  destruct k; cbn [bucket_list due_today_tasks due_tomorrow_tasks upcoming_tasks In]; tauto.
Qed.

Lemma clock_day_ok (today : date) : clock_ok today = true -> day_ok today.
Proof.
  unfold clock_ok. intros H. apply andb_prop in H as [H _]. exact (valid_date_ok _ H).
Qed.

(** C3.  The grouping loop of the reminder puts a task whose due date
    parses to the day [d] in the due-today list iff [d] is today, in the
    due-tomorrow list iff [d] is today + 1 and in the upcoming list iff
    [today + 1 < d < today + 7]; no task is in two lists, a task due today
    is not in the upcoming list, a task due on today + 7 is in none, and
    every task the loop gets from the sheet (the pending tasks of the next
    seven days) is in exactly one list. *)
Theorem reminder_buckets (today : date) (tasks : list task) (t : task) (d : date) :
  clock_ok today = true ->
  In t tasks ->
  due_day t = Some d ->
  let b := group_tasks today tasks in
  let in_today := In t (due_today_tasks b) in
  let in_tomorrow := In t (due_tomorrow_tasks b) in
  let in_upcoming := In t (upcoming_tasks b) in
  (in_today <-> d = today) /\
  (in_tomorrow <-> d = add_days today 1) /\
  (in_upcoming <->
     date_ltb (add_days today 1) d = true /\ date_ltb d (add_days today 7) = true) /\
  ~ (in_today /\ in_tomorrow) /\ ~ (in_today /\ in_upcoming) /\
  ~ (in_tomorrow /\ in_upcoming) /\
  (d = today -> ~ in_upcoming) /\
  (d = add_days today 7 -> ~ in_today /\ ~ in_tomorrow /\ ~ in_upcoming) /\
  (forall ws,
      tasks = read_tasks today ws None (Some "next_seven_days") (Some STATUS_PENDING) ->
      in_today \/ in_tomorrow \/ in_upcoming).
Proof.
  intros Hc Ht Hd b in_today in_tomorrow in_upcoming.
  pose proof (clock_day_ok today Hc) as Hok.
  pose proof (due_day_ok t d Hd) as Hdok.
  destruct (bucket_of_cases today t d Hok Hd) as (B1 & B2 & B3).
  assert (in_today <-> bucket_of today (add_days today 1) t = Some DueToday) as A1
    by exact (group_tasks_in today DueToday tasks t Ht).
  assert (in_tomorrow <-> bucket_of today (add_days today 1) t = Some DueTomorrow) as A2
    by exact (group_tasks_in today DueTomorrow tasks t Ht).
  assert (in_upcoming <-> bucket_of today (add_days today 1) t = Some Upcoming) as A3
    by exact (group_tasks_in today Upcoming tasks t Ht).
  assert (date_ltb today (add_days today 1) = true) as L1 by (apply add_days_gt; [exact Hok | lia]).
  assert (date_ltb today (add_days today 7) = true) as L7 by (apply add_days_gt; [exact Hok | lia]).
  assert (date_ltb (add_days today 1) (add_days today 7) = true) as L17
    by (apply add_days_lt; [exact Hok | lia]).
  split; [rewrite A1; exact B1|]. split; [rewrite A2; exact B2|].
  split; [rewrite A3; exact B3|].
  split; [rewrite A1, A2; intros [E1 E2]; congruence|].
  split; [rewrite A1, A3; intros [E1 E2]; congruence|].
  split; [rewrite A2, A3; intros [E1 E2]; congruence|].
  split.
  { intros E. rewrite A3. apply B1 in E. congruence. }
  split.
  { intros ->. rewrite A1, A2, A3, B1, B2, B3. repeat split.
    - intros E. rewrite E, date_ltb_irrefl in L7. discriminate.
    - intros E. rewrite E, date_ltb_irrefl in L17. discriminate.
    - intros [_ E]. rewrite date_ltb_irrefl in E. discriminate. }
  intros ws ->. rewrite A1, A2, A3, B1, B2, B3.
  rewrite read_tasks_next_seven_days_eq in Ht. apply filter_In in Ht as [_ Hk].
  apply andb_prop in Hk as [_ Hr]. apply due_in_range_next_seven_days in Hr as (p & Hp & H1 & H2).
  unfold due_day in Hd. rewrite Hp in Hd. cbn in Hd. injection Hd as <-.
  apply date_leb_le in H1 as [H1 | H1]; [|now left].
  destruct (next_day_least today (dt_date p) Hok Hdok H1) as [H | H]; auto.
Qed.

Lemma reminder_buckets_witness :
  let today := mkDate 2025 7 8 in
  let tasks := read_tasks today sample_sheet None (Some "next_seven_days")
                 (Some STATUS_PENDING) in
  let t := mkTask (Some "3") (Some "report") (Some "pending") "" "2025-07-11 23:59"
                  (Some "2025-07-02 09:00:00") in
  In t (upcoming_tasks (group_tasks today tasks))
  <-> date_ltb (add_days today 1) (mkDate 2025 7 11) = true
      /\ date_ltb (mkDate 2025 7 11) (add_days today 7) = true.
Proof.
  intros today tasks t.
  assert (In t tasks) as Ht by (vm_compute; auto).
  exact (proj1 (proj2 (proj2 (reminder_buckets today tasks t (mkDate 2025 7 11)
                                eq_refl Ht eq_refl)))).
Defined.

(** ** The size of the reminder sent *)

Lemma length_append (a b : string) :
  String.length (a +:+ b) = String.length a + String.length b.
Proof.
  induction a as [|c a IH]; [reflexivity|].
  rewrite append_cons. cbn [String.length]. now rewrite IH.
Qed.

Lemma length_take_chars (n : nat) (s : string) :
  String.length (take_chars n s) = Nat.min n (String.length s).
Proof.
  revert s. induction n as [|n IH]; intros s; [reflexivity|].
  destruct s as [|c r]; [reflexivity|].
  cbn [take_chars String.length]. rewrite IH. reflexivity.
Qed.

Lemma take_chars_prefix (n : nat) (s : string) :
  exists rest, s = take_chars n s +:+ rest.
Proof.
  revert s. induction n as [|n IH]; intros s; [exists s; reflexivity|].
  destruct s as [|c r]; [exists EmptyString; reflexivity|].
  destruct (IH r) as [rest E]. exists rest.
  cbn [take_chars]. rewrite append_cons. now rewrite <- E.
Qed.

(** C9 (the code departs from it).  A digest of more than 2000 characters
    is sent as its first 1990 characters followed by the truncation marker,
    and the marker has 15 characters: the text sent has 2005 characters,
    above the ceiling of 2000. *)
Theorem digest_to_send_over_limit (full_message : string) :
  2000 < String.length full_message ->
  let sent := digest_to_send full_message in
  sent = take_chars 1990 full_message +:+ NL +:+ "...(truncated)" /\
  (exists rest, full_message = take_chars 1990 full_message +:+ rest) /\
  String.length sent = 2005 /\
  2000 < String.length sent.
Proof.
  intros H sent.
  assert (sent = take_chars 1990 full_message +:+ NL +:+ "...(truncated)") as E.
  { subst sent. unfold digest_to_send.
    destruct (Nat.ltb_spec 2000 (String.length full_message)); [reflexivity | lia]. }
  assert (String.length sent = 2005) as L.
  { rewrite E, length_append, length_take_chars.
    change (String.length (NL +:+ "...(truncated)")) with 15. lia. }
  split; [exact E|]. split; [apply take_chars_prefix|]. split; [exact L | lia].
Qed.

Lemma digest_to_send_over_limit_witness :
  let full_message :=
    join_lines (map (fun i => "- **ID " +:+ str_nat i +:+ ":** Prepare the quarterly report")
                    (seq 1 60)) in
  String.length (digest_to_send full_message) = 2005.
Proof.
  intros full_message.
  assert (2000 < String.length full_message) as H
    by (apply Nat.ltb_lt; vm_compute; reflexivity).
  exact (proj1 (proj2 (proj2 (digest_to_send_over_limit full_message H)))).
Defined.

(** The whole loop on a sheet of forty tasks due today, whatever the four
    headings: one message, of 2005 characters. *)
Example reminder_loop_over_limit :
  map String.length
      (reminder_loop "Weekly Task Reminders!" "Due Today:" "Due Tomorrow:" "Upcoming:"
                     (fun _ => None) (mkDate 2025 7 8) busy_sheet)
  = [2005].
Proof. vm_compute. reflexivity. Qed.

(** ** Updating with an empty assignee only *)

(** C6 (the code departs from it).  An update whose argument mapping holds
    [new_assignee] with the empty text and neither [new_title] nor
    [new_due_date] never reaches the sheet: the handler stops at the test
    that at least one of the three values is true, asks what to update, and
    leaves every record as it was. *)
Theorem handle_update_task_empty_assignee_only (now : datetime) (ws : worksheet)
    (msg : message) (args : gmap string val) :
  args !! "new_assignee" = Some (VStr "") ->
  args !! "new_title" = None ->
  args !! "new_due_date" = None ->
  exists replies,
    handle_update_task now ws msg args = (ws, replies) /\
    (forall task_id, ~ In (TaskUpdated task_id) replies) /\
    (forall id_text task_id,
        args !! "target_task_id" = Some (VStr id_text) ->
        py_int id_text = Some task_id ->
        replies = [AskUpdateFields]).
Proof.
  intros Ha Ht Hd. unfold handle_update_task, get. rewrite Ha, Ht, Hd.
  destruct (args !! "target_task_id") as [[|id_text]|]; cbn [default].
  - exists [AskUpdateId]. split; [reflexivity|]. split; [|discriminate].
    intros ? [E | []]. discriminate.
  - destruct (py_int id_text) as [task_id|] eqn:E.
    + exists [AskUpdateFields]. cbn. rewrite ?E. split; [reflexivity|].
      split; [|reflexivity].
      intros ? [E' | []]. discriminate.
    + exists [BadUpdateId id_text]. cbn. rewrite ?E. split; [reflexivity|]. split.
      * intros ? [E' | []]. discriminate.
      * intros ? ? E1 E2. injection E1 as <-. congruence.
  - exists [AskUpdateId]. split; [reflexivity|]. split; [|discriminate].
    intros ? [E | []]. discriminate.
Qed.

Lemma handle_update_task_empty_assignee_only_witness :
  handle_update_task sample_now sample_sheet sample_msg
    {[ "target_task_id" := VStr "1"; "new_assignee" := VStr "" ]}
  = (sample_sheet, [AskUpdateFields]).
Proof.
  set (args := {[ "target_task_id" := VStr "1"; "new_assignee" := VStr "" ]}
               : gmap string val).
  assert (args !! "new_assignee" = Some (VStr "")) as Ha by (vm_compute; reflexivity).
  assert (args !! "new_title" = None) as Ht by (vm_compute; reflexivity).
  assert (args !! "new_due_date" = None) as Hd by (vm_compute; reflexivity).
  assert (args !! "target_task_id" = Some (VStr "1")) as Hi by (vm_compute; reflexivity).
  destruct (handle_update_task_empty_assignee_only sample_now sample_sheet sample_msg
              args Ha Ht Hd) as (replies & E & _ & H).
  rewrite E. f_equal. exact (H "1" 1%Z Hi eq_refl).
Defined.

(** The sheet adapter itself clears the assignee when it is handed the
    empty text. *)
Example update_task_clears_assignee :
  update_task sample_sheet 1 None (Some "") None
  = Ok (true, <[1 := ["1"; "Report"; "pending"; ""; "2025-07-08 10:00";
                      "2025-07-01 08:00:00"]]> sample_sheet).
Proof. vm_compute. reflexivity. Qed.

(** ** The next task id *)

Lemma numeric_cells_ok (cells : list string) :
  numeric_cells cells
  = Ok (map (fun c => Z.of_nat (digits_val 0 c)) (List.filter isdigit cells)).
Proof.
  induction cells as [|c r IH]; [reflexivity|].
  cbn [numeric_cells List.filter]. destruct (isdigit c) eqn:E; [|exact IH].
  rewrite (py_int_isdigit c E), IH. reflexivity.
Qed.

Lemma fold_max_ge (l : list Z) (x : Z) : (x <= fold_left Z.max l x)%Z.
Proof.
  revert x. induction l as [|y l IH]; intros x; cbn [fold_left]; [lia|].
  specialize (IH (Z.max x y)). lia.
Qed.

Lemma fold_max_bound (l : list Z) (x y : Z) :
  In y l -> (y <= fold_left Z.max l x)%Z.
Proof.
  revert x. induction l as [|z l IH]; intros x; [intros []|].
  cbn [fold_left]. intros [<- | H]; [|apply IH, H].
  pose proof (fold_max_ge l (Z.max x z)). lia.
Qed.

Lemma fold_max_in (l : list Z) (x : Z) :
  fold_left Z.max l x = x \/ In (fold_left Z.max l x) l.
Proof.
  revert x. induction l as [|z l IH]; intros x; [now left|].
  cbn [fold_left]. destruct (IH (Z.max x z)) as [E | H].
  - destruct (Z.max_spec x z) as [[_ Hm] | [_ Hm]]; rewrite E, Hm.
    + right. now left.
    + now left.
  - right. now right.
Qed.

Lemma max_ids_spec (l : list Z) :
  l <> [] -> In (max_ids l) l /\ forall y, In y l -> (y <= max_ids l)%Z.
Proof.
  destruct l as [|x l]; [congruence|]. intros _. cbn [max_ids]. split.
  - destruct (fold_max_in l x) as [E | H]; [rewrite E; now left | now right].
  - intros y [<- | H]; [apply fold_max_ge | apply fold_max_bound, H].
Qed.

Lemma get_next_task_id_spec (ws : worksheet) :
  exists id,
    get_next_task_id ws = Ok id /\
    (forall x, In x (existing_ids ws) -> (x < id)%Z) /\
    (existing_ids ws = [] -> id = 1%Z) /\
    (existing_ids ws <> [] -> In (id - 1)%Z (existing_ids ws)) /\
    (length ws <= 1 -> id = 1%Z).
Proof.
  unfold get_next_task_id, existing_ids.
  assert (length (col_values_1 ws) = length ws) as Hl by apply length_map.
  destruct (Nat.leb_spec (length (col_values_1 ws)) 1) as [Hs | Hs].
  - exists 1%Z. split; [reflexivity|].
    assert (tail (col_values_1 ws) = []) as ->.
    { destruct (col_values_1 ws) as [|a [|b l]]; cbn in *; [reflexivity .. | lia]. }
    cbn. repeat split; auto; tauto.
  - rewrite numeric_cells_ok.
    set (ids := map _ (List.filter isdigit (tail (col_values_1 ws)))).
    destruct ids as [|x l] eqn:E.
    + exists 1%Z. repeat split; auto; try tauto; try congruence. intros ? [].
    + exists (max_ids (x :: l) + 1)%Z.
      destruct (max_ids_spec (x :: l)) as [Hin Hle]; [discriminate|].
      split; [reflexivity|]. split; [intros y Hy; specialize (Hle y Hy); lia|].
      split; [discriminate|]. split; [|lia].
      intros _. replace (max_ids (x :: l) + 1 - 1)%Z with (max_ids (x :: l)) by lia.
      exact Hin.
Qed.


Example add_task_to_empty_sheet :
  add_task sample_now [] "Buy milk" None (Some "2025-07-08 23:59")
  = Ok (1%Z, [["1"; "Buy milk"; "pending"; ""; "2025-07-08 23:59"; "2025-07-08 09:30:15"]]).
Proof. vm_compute. reflexivity. Qed.

(** ** Update and complete on a well-formed sheet *)

Lemma wf_sheet_inv (ws : worksheet) :
  wf_sheet ws = true ->
  exists rows, ws = HEADERS :: rows /\ forall row, In row rows -> length row = 6.
Proof.
  destruct ws as [|h rows]; [discriminate|]. cbn [wf_sheet].
  rewrite andb_true_iff, bool_decide_eq_true, forallb_forall.
  intros [E Hall]. subst h. exists rows. split; [reflexivity|].
  intros row Hr. apply Nat.eqb_eq. exact (Hall row Hr).
Qed.

Lemma wf_sheet_row (ws : worksheet) (i : nat) (row : list string) :
  wf_sheet ws = true -> ws !! i = Some row -> length row = 6.
Proof.
  intros Hwf Hi. apply wf_sheet_inv in Hwf as (rows & -> & H).
  destruct i as [|i]; cbn in Hi.
  - injection Hi as <-. reflexivity.
  - apply H. apply list_elem_of_In. eapply list_elem_of_lookup_2. exact Hi.
Qed.

Lemma wf_sheet_headers (ws : worksheet) : wf_sheet ws = true -> row_values ws 1 = HEADERS.
Proof. intros Hwf. apply wf_sheet_inv in Hwf as (rows & -> & _). reflexivity. Qed.

Lemma header_map_HEADERS :
  header_map_from 0 HEADERS ∅ !! COL_TITLE = Some 1 /\
  header_map_from 0 HEADERS ∅ !! COL_ASSIGNEE_ID = Some 3 /\
  header_map_from 0 HEADERS ∅ !! COL_DUE_DATE = Some 4.
Proof. vm_compute. auto. Qed.

Lemma assign_field_spec hm col i v row row' :
  hm !! col = Some i ->
  assign_field hm col v row = Some row' ->
  length row' = length row /\
  (forall j, j <> i -> row' !! j = row !! j) /\
  row' !! i = updated v (row !! i).
Proof.
  intros Hc. unfold assign_field, set_item. destruct v as [x|].
  - rewrite Hc. destruct (Nat.ltb_spec i (length row)) as [Hlt | Hge]; [|discriminate].
    intros H. injection H as <-. rewrite length_insert.
    split; [reflexivity|]. split.
    + intros j Hj. apply list_lookup_insert_ne. congruence.
    + cbn [updated]. apply list_lookup_insert_eq. assumption.
  - intros H. injection H as <-. cbn [updated]. auto.
Qed.

(** The row the dictionary of [update_task] gives for an id is a row of the
    sheet whose first cell is a text of digits of that value. *)
Lemma id_rows_spec (cells : list string) (idx : nat) (m m' : gmap Z nat) (z : Z) (r : nat) :
  id_rows idx cells m = Ok m' ->
  m' !! z = Some r ->
  m !! z = Some r \/
  exists k c, r = S (idx + k) /\ cells !! k = Some c /\ isdigit c = true /\ py_int c = Some z.
Proof.
  revert idx m. induction cells as [|c cells IH]; intros idx m H Hz.
  - cbn in H. injection H as <-. now left.
  - cbn [id_rows] in H. destruct (isdigit c) eqn:Ed.
    + destruct (py_int c) as [zc|] eqn:Ei; [|discriminate].
      destruct (IH _ _ H Hz) as [Hm | (k & c' & -> & Hk & Hd & Hp)].
      * destruct (decide (zc = z)) as [->|Hne].
        -- rewrite lookup_insert_eq in Hm. injection Hm as <-.
           right. exists 0, c. repeat split; auto; lia.
        -- rewrite lookup_insert_ne in Hm by assumption. now left.
      * right. exists (S k), c'. repeat split; auto; lia.
    + destruct (IH _ _ H Hz) as [Hm | (k & c' & -> & Hk & Hd & Hp)]; [now left|].
      right. exists (S k), c'. repeat split; auto; lia.
Qed.

Lemma col_values_1_lookup (ws : worksheet) (k : nat) (c : string) :
  col_values_1 ws !! k = Some c ->
  exists row, ws !! k = Some row /\ hd EmptyString row = c.
Proof.
  unfold col_values_1. rewrite list_lookup_fmap.
  destruct (ws !! k) as [row|]; [|discriminate].
  cbn. intros H. injection H as <-. eauto.
Qed.

(** What a successful [update_task] does to a well-formed sheet. *)
Lemma update_task_done (ws ws' : worksheet) (tid : Z) (nt na nd : option string) :
  wf_sheet ws = true ->
  update_task ws tid nt na nd = Ok (true, ws') ->
  exists k row row',
    ws !! k = Some row /\
    isdigit (hd EmptyString row) = true /\ py_int (hd EmptyString row) = Some tid /\
    ws' = <[k := row']> ws /\
    length row' = length row /\
    (forall j, j <> 1 -> j <> 3 -> j <> 4 -> row' !! j = row !! j) /\
    row' !! 1 = updated nt (row !! 1) /\
    row' !! 3 = updated na (row !! 3) /\
    row' !! 4 = updated nd (row !! 4).
Proof.
  intros Hwf. unfold update_task.
  destruct (id_rows 0 (col_values_1 ws) ∅) as [m|] eqn:Em; [|discriminate].
  destruct (m !! tid) as [[|k]|] eqn:Ei; try discriminate.
  destruct (id_rows_spec _ _ _ _ _ _ Em Ei) as [Hm | (k' & c & Hk & Hc & Hd & Hp)];
    [rewrite lookup_empty in Hm; discriminate|].
  cbn in Hk. injection Hk as <-.
  apply col_values_1_lookup in Hc as (row & Hrow & <-).
  rewrite (wf_sheet_headers ws Hwf).
  destruct header_map_HEADERS as (H1 & H3 & H4).
  change (row_values ws (S k)) with (default [] (ws !! k)).
  rewrite Hrow. cbv zeta. change (default [] (Some row)) with row.
  destruct (assign_field _ COL_TITLE nt row) as [r1|] eqn:E1; [|discriminate].
  destruct (assign_field _ COL_ASSIGNEE_ID na r1) as [r2|] eqn:E2; [|discriminate].
  destruct (assign_field _ COL_DUE_DATE nd r2) as [r3|] eqn:E3; [|discriminate].
  intros H. injection H as <-.
  destruct (assign_field_spec _ _ _ _ _ _ H1 E1) as (L1 & F1 & U1).
  destruct (assign_field_spec _ _ _ _ _ _ H3 E2) as (L2 & F2 & U2).
  destruct (assign_field_spec _ _ _ _ _ _ H4 E3) as (L3 & F3 & U3).
  exists k, row, r3. repeat split; auto.
  - congruence.
  - intros j J1 J3 J4. rewrite F3, F2, F1 by assumption. reflexivity.
  - rewrite F3, F2 by discriminate. exact U1.
  - rewrite F3 by discriminate. rewrite U2, F1 by discriminate. reflexivity.
  - rewrite U3, F2, F1 by discriminate. reflexivity.
Qed.

Lemma find_in_column_1_spec (q : string) (ws : worksheet) (n r : nat) :
  find_in_column_1 q ws n = Some r ->
  exists k row, r = n + k /\ ws !! k = Some row /\ hd EmptyString row = q /\
    forall j row_j, j < k -> ws !! j = Some row_j -> hd EmptyString row_j <> q.
Proof.
  revert n. induction ws as [|x ws IH]; intros n; [discriminate|].
  cbn [find_in_column_1]. destruct (String.eqb (hd EmptyString x) q) eqn:E.
  - intros H. injection H as <-. apply String.eqb_eq in E.
    exists 0, x. split; [lia|]. split; [reflexivity|]. split; [exact E|].
    intros j row_j Hj. lia.
  - intros H. destruct (IH _ H) as (k & row & -> & Hk & Hq & Hfirst).
    apply String.eqb_neq in E.
    exists (S k), row. split; [lia|]. split; [exact Hk|]. split; [exact Hq|].
    intros [|j] row_j Hj Hl; cbn in Hl.
    + injection Hl as <-. exact E.
    + apply (Hfirst j); [lia | exact Hl].
Qed.

Lemma find_in_column_1_complete (q : string) (ws : worksheet) (n k : nat)
    (row : list string) :
  ws !! k = Some row -> hd EmptyString row = q ->
  exists r, find_in_column_1 q ws n = Some r.
Proof.
  revert n k. induction ws as [|x ws IH]; intros n k Hk Hq; [discriminate|].
  cbn [find_in_column_1]. destruct (String.eqb (hd EmptyString x) q) eqn:E; [eauto|].
  destruct k as [|k]; cbn in Hk.
  - injection Hk as ->. apply String.eqb_neq in E. contradiction.
  - exact (IH (S n) k Hk Hq).
Qed.

(** What a successful [mark_task_complete] does to a well-formed sheet: the
    status cell of the first row whose first cell is the id's text is
    rewritten. *)
Lemma mark_task_complete_done (ws ws' : worksheet) (tid : Z) :
  wf_sheet ws = true ->
  mark_task_complete ws tid = Ok (true, ws') ->
  exists k row,
    ws !! k = Some row /\ hd EmptyString row = str_int tid /\
    (forall j row_j, j < k -> ws !! j = Some row_j -> hd EmptyString row_j <> str_int tid) /\
    ws' = <[k := <[2 := STATUS_COMPLETED]> row]> ws.
Proof.
  intros Hwf. unfold mark_task_complete.
  destruct (find_in_column_1 (str_int tid) ws 1) as [r|] eqn:Ef; [|discriminate].
  apply find_in_column_1_spec in Ef as (k & row & -> & Hk & Hq & Hfirst).
  rewrite (wf_sheet_headers ws Hwf).
  change (index_of COL_STATUS HEADERS) with (Some 2). cbv zeta iota beta.
  change (1 + k) with (S k). change (2 + 1) with 3.
  unfold update_cell. rewrite Hk. intros H. injection H as <-.
  exists k, row. auto.
Qed.

Lemma same_fields_insert (cols : list string) (ws : worksheet) (k : nat)
    (row row' : list string) :
  ws !! k = Some row ->
  length row' = length row ->
  (forall col, In col cols -> field col row' = field col row) ->
  same_fields cols ws (<[k := row']> ws).
Proof.
  intros Hk Hl Hf. split; [apply length_insert|].
  intros i r Hi. destruct (decide (i = k)) as [->|Hne].
  - rewrite list_lookup_insert_eq in Hi by (eapply lookup_lt_Some; exact Hk).
    injection Hi as <-. exists row. auto.
  - rewrite list_lookup_insert_ne in Hi by congruence.
    exists r. auto.
Qed.

(** C8.  On a well-formed sheet a successful update replaces one row by a
    row that differs from it at most in the title, assignee and due-date
    cells, each rewritten only when a new value is given, and a successful
    complete replaces one row by the same row with status completed: the
    task id, status and creation time of every record survive an update,
    and every field but the status survives a complete. *)
Theorem update_and_complete_frame (ws ws' : worksheet) (tid : Z) :
  wf_sheet ws = true ->
  (forall nt na nd,
      update_task ws tid nt na nd = Ok (true, ws') ->
      same_fields [COL_TASK_ID; COL_STATUS; COL_CREATED_AT] ws ws' /\
      exists k row row',
        ws !! k = Some row /\ ws' = <[k := row']> ws /\
        field COL_TITLE row' = updated nt (field COL_TITLE row) /\
        field COL_ASSIGNEE_ID row' = updated na (field COL_ASSIGNEE_ID row) /\
        field COL_DUE_DATE row' = updated nd (field COL_DUE_DATE row)) /\
  (mark_task_complete ws tid = Ok (true, ws') ->
      same_fields [COL_TASK_ID; COL_TITLE; COL_ASSIGNEE_ID; COL_DUE_DATE; COL_CREATED_AT]
                  ws ws' /\
      exists k row row',
        ws !! k = Some row /\ ws' = <[k := row']> ws /\
        field COL_TASK_ID row = Some (str_int tid) /\
        field COL_STATUS row' = Some STATUS_COMPLETED).
Proof.
  intros Hwf. split.
  - intros nt na nd H.
    apply (update_task_done ws ws' tid nt na nd Hwf) in H
      as (k & row & row' & Hk & _ & _ & -> & Hl & Hf & H1 & H3 & H4).
    split; [|exists k, row, row'; auto].
    apply (same_fields_insert _ ws k row row' Hk Hl).
    intros col [<- | [<- | [<- | []]]]; apply Hf; discriminate.
  - intros H.
    apply (mark_task_complete_done ws ws' tid Hwf) in H as (k & row & Hk & Hq & _ & ->).
    pose proof (wf_sheet_row ws k row Hwf Hk) as Hl.
    split.
    + apply (same_fields_insert _ ws k row _ Hk); [apply length_insert|].
      intros col [<- | [<- | [<- | [<- | [<- | []]]]]];
        apply list_lookup_insert_ne; discriminate.
    + exists k, row, (<[2 := STATUS_COMPLETED]> row). repeat split; auto.
      * destruct row as [|c row]; [discriminate|]. cbn in Hq. now rewrite <- Hq.
      * apply list_lookup_insert_eq. change (length row) with (length row). lia.
Qed.

Lemma update_and_complete_frame_witness :
  same_fields [COL_TASK_ID; COL_STATUS; COL_CREATED_AT] sample_sheet
    (<[5 := ["5"; "Call Bob"; "pending"; ""; "2025-07-20 23:59"; "2025-07-03 10:00:00"]]>
       sample_sheet).
Proof.
  exact (proj1 (proj1 (update_and_complete_frame sample_sheet _ 5 eq_refl)
                  None (Some EmptyString) (Some "2025-07-20 23:59") update_sample)).
Defined.

(** ** [int(str(z))] is [z] *)

Lemma append_assoc (a b c : string) : (a +:+ b) +:+ c = a +:+ (b +:+ c).
Proof.
  induction a as [|x a IH]; [reflexivity|]. rewrite !append_cons, IH. reflexivity.
Qed.

Lemma digits_of_acc (fuel n : nat) (acc : string) :
  digits_of fuel n acc = digits_of fuel n EmptyString +:+ acc.
Proof.
  revert n acc. induction fuel as [|f IH]; intros n acc; [reflexivity|].
  cbn [digits_of]. destruct (n / 10 =? 0); [reflexivity|].
  rewrite (IH _ (String _ acc)), (IH _ (String _ EmptyString)), append_assoc.
  reflexivity.
Qed.

Lemma digits_val_app (a : nat) (s1 s2 : string) :
  digits_val a (s1 +:+ s2) = digits_val (digits_val a s1) s2.
Proof.
  revert a. induction s1 as [|c s1 IH]; intros a; [reflexivity|].
  rewrite append_cons. cbn [digits_val]. apply IH.
Qed.

Lemma all_chars_app (p : ascii -> bool) (s1 s2 : string) :
  all_chars p (s1 +:+ s2) = all_chars p s1 && all_chars p s2.
Proof.
  induction s1 as [|c s1 IH]; [reflexivity|].
  rewrite append_cons. cbn [all_chars]. rewrite IH. apply andb_assoc.
Qed.

Lemma digits_of_spec (fuel n : nat) :
  n < fuel ->
  digits_of fuel n EmptyString <> EmptyString /\
  all_chars is_digit (digits_of fuel n EmptyString) = true /\
  digits_val 0 (digits_of fuel n EmptyString) = n.
Proof.
  revert n. induction fuel as [|f IH]; intros n Hn; [lia|].
  cbn [digits_of]. pose proof (Nat.div_mod_eq n 10) as Hdm.
  pose proof (mod10_lt n) as Hm.
  destruct (Nat.eqb_spec (n / 10) 0) as [E | E].
  - split; [discriminate|]. split.
    + cbn [all_chars]. now rewrite digit_char_is_digit.
    + cbn [digits_val]. rewrite digit_val_digit_char by assumption. lia.
  - assert (n / 10 < f) as Hq by lia.
    destruct (IH _ Hq) as (Hne & Hd & Hv).
    rewrite digits_of_acc. split; [|split].
    + destruct (digits_of f (n / 10) EmptyString); [congruence | discriminate].
    + rewrite all_chars_app, Hd. cbn [all_chars]. now rewrite digit_char_is_digit.
    + rewrite digits_val_app, Hv. cbn [digits_val].
      rewrite digit_val_digit_char by assumption. lia.
Qed.

Lemma str_nat_isdigit (n : nat) : isdigit (str_nat n) = true.
Proof.
  destruct (digits_of_spec (S n) n) as (Hne & Hd & _); [lia|].
  unfold str_nat, isdigit. destruct (digits_of (S n) n EmptyString); [congruence | exact Hd].
Qed.

Lemma str_nat_val (n : nat) : digits_val 0 (str_nat n) = n.
Proof. destruct (digits_of_spec (S n) n) as (_ & _ & Hv); [lia | exact Hv]. Qed.

Lemma py_int_str_int (z : Z) : py_int (str_int z) = Some z.
Proof.
  destruct z as [|p|p]; unfold str_int.
  - reflexivity.
  - rewrite (py_int_isdigit _ (str_nat_isdigit _)), str_nat_val. f_equal. lia.
  - pose proof (str_nat_isdigit (Pos.to_nat p)) as Hd.
    apply isdigit_all in Hd as [Hne Hall].
    unfold py_int, strip. cbn [drop_while]. change (is_space "-") with false. cbv iota.
    rewrite rstrip_no_space.
    + rewrite Ascii.eqb_refl.
      rewrite (int_digits_all_digits _ false 0 Hall) by (now left).
      rewrite str_nat_val. cbn. f_equal. lia.
    + cbn [all_chars]. change (negb (is_space "-")) with true. cbn [andb].
      revert Hall. apply all_chars_impl. intros c Hc. now rewrite (digit_not_space c Hc).
Qed.

(** The text of an integer starts with a sign or a digit. *)
Lemma str_int_head (z : Z) :
  exists c r, str_int z = String c r /\ (c = "-"%char \/ is_digit c = true).
Proof.
  assert (forall n, exists c r, str_nat n = String c r /\ is_digit c = true) as A.
  { intros n. pose proof (str_nat_isdigit n) as H.
    destruct (str_nat n) as [|c r]; [discriminate|].
    cbn in H. apply andb_prop in H as [Hc _]. eauto. }
  destruct z as [|p|p]; unfold str_int.
  - destruct (A (Z.to_nat 0)) as (c & r & E & Hc). eauto.
  - destruct (A (Z.to_nat (Z.pos p))) as (c & r & E & Hc). eauto.
  - eauto.
Qed.

Lemma str_int_not_header (z : Z) : str_int z <> COL_TASK_ID.
Proof.
  destruct (str_int_head z) as (c & r & E & [-> | Hc]); rewrite E; [discriminate|].
  intros H. injection H as -> _. discriminate.
Qed.

(** ** Completing an existing task, once or again *)

Lemma wf_sheet_iff (ws : worksheet) :
  wf_sheet ws = true <->
  ws !! 0 = Some HEADERS /\ forall i row, ws !! i = Some row -> length row = 6.
Proof.
  split.
  - intros Hwf. split; [|intros i row; apply wf_sheet_row, Hwf].
    apply wf_sheet_inv in Hwf as (rows & -> & _). reflexivity.
  - intros [H0 Hall]. destruct ws as [|h rows]; [discriminate|].
    cbn in H0. injection H0 as ->. cbn [wf_sheet].
    rewrite andb_true_iff, bool_decide_eq_true, forallb_forall. split; [reflexivity|].
    intros row Hr. apply Nat.eqb_eq.
    apply list_elem_of_In, list_elem_of_lookup_1 in Hr as [i Hi].
    exact (Hall (S i) row Hi).
Qed.

Lemma mark_task_complete_eq (ws : worksheet) (tid : Z) :
  wf_sheet ws = true ->
  mark_task_complete ws tid
  = match find_in_column_1 (str_int tid) ws 1 with
    | None => Ok (false, ws)
    | Some r => Ok (true, update_cell ws r 3 STATUS_COMPLETED)
    end.
Proof.
  intros Hwf. unfold mark_task_complete. rewrite (wf_sheet_headers ws Hwf). reflexivity.
Qed.

Lemma find_same_column (q : string) (ws ws' : worksheet) (n : nat) :
  col_values_1 ws = col_values_1 ws' ->
  find_in_column_1 q ws n = find_in_column_1 q ws' n.
Proof.
  revert ws' n. induction ws as [|x ws IH]; intros [|y ws'] n H; try discriminate;
    [reflexivity|].
  cbn in H. injection H as Hh Ht. cbn [find_in_column_1]. rewrite Hh.
  destruct (String.eqb _ q); [reflexivity|]. apply IH, Ht.
Qed.

Lemma col_values_1_set_status (ws : worksheet) (k : nat) (row : list string) (v : string) :
  ws !! k = Some row -> length row = 6 ->
  col_values_1 (<[k := <[2 := v]> row]> ws) = col_values_1 ws.
Proof.
  intros Hk Hl. unfold col_values_1.
  change (map ?f ?l) with (f <$> l). rewrite list_fmap_insert.
  apply list_insert_id. rewrite list_lookup_fmap, Hk.
  destruct row as [|c row]; [discriminate|]. reflexivity.
Qed.

Lemma handle_complete_by_id today ws msg (args : gmap string val) id_text tid :
  args !! "target_task_id" = Some (VStr id_text) ->
  py_int id_text = Some tid ->
  handle_complete_task today ws msg args
  = match mark_task_complete ws tid with
    | Ok (true, ws') => (ws', [TaskCompleted tid])
    | Ok (false, ws') => (ws', [CompleteNotDone tid])
    | Raise => (ws, [CompleteFailed])
    end.
Proof.
  intros Ha Hp. unfold handle_complete_task, get. rewrite Ha.
  change (default VNone (Some (VStr id_text))) with (VStr id_text).
  cbv beta iota zeta. rewrite Hp. reflexivity.
Qed.

(** Completing an id some row carries rewrites the status cell of the first
    such row, and doing it again changes nothing more. *)
Lemma complete_existing_row (ws : worksheet) (tid : Z) (k : nat) (row : list string) :
  wf_sheet ws = true ->
  ws !! k = Some row ->
  hd EmptyString row = str_int tid ->
  exists ws',
    mark_task_complete ws tid = Ok (true, ws') /\
    (exists k0 row0,
        ws !! k0 = Some row0 /\ hd EmptyString row0 = str_int tid /\
        ws' = <[k0 := <[2 := STATUS_COMPLETED]> row0]> ws /\
        ws' !! k0 = Some (<[2 := STATUS_COMPLETED]> row0) /\
        field COL_STATUS (<[2 := STATUS_COMPLETED]> row0) = Some STATUS_COMPLETED) /\
    mark_task_complete ws' tid = Ok (true, ws').
Proof.
  intros Hwf Hk Hq.
  destruct (find_in_column_1_complete _ ws 1 k row Hk Hq) as [r Hr].
  pose proof Hr as Hr'.
  apply find_in_column_1_spec in Hr' as (k0 & row0 & -> & Hk0 & Hq0 & _).
  pose proof (wf_sheet_row ws k0 row0 Hwf Hk0) as Hl0.
  set (ws' := <[k0 := <[2 := STATUS_COMPLETED]> row0]> ws).
  assert (k0 <> 0) as Hnz.
  { intros ->. apply wf_sheet_iff in Hwf as [H0 _]. rewrite H0 in Hk0.
    injection Hk0 as <-. cbn in Hq0. symmetry in Hq0.
    exact (str_int_not_header tid Hq0). }
  assert (mark_task_complete ws tid = Ok (true, ws')) as M1.
  { rewrite mark_task_complete_eq, Hr by assumption.
    change (1 + k0) with (S k0). unfold update_cell. rewrite Hk0. reflexivity. }
  assert (ws' !! k0 = Some (<[2 := STATUS_COMPLETED]> row0)) as Hk0'
    by (apply list_lookup_insert_eq; eapply lookup_lt_Some; exact Hk0).
  assert (wf_sheet ws' = true) as Hwf'.
  { apply wf_sheet_iff. apply wf_sheet_iff in Hwf as [H0 Hall]. split.
    - unfold ws'. rewrite list_lookup_insert_ne by assumption. exact H0.
    - intros i r' Hi. unfold ws' in Hi. destruct (decide (i = k0)) as [->|Hne].
      + rewrite list_lookup_insert_eq in Hi by (eapply lookup_lt_Some; exact Hk0).
        injection Hi as <-. rewrite length_insert. exact Hl0.
      + rewrite list_lookup_insert_ne in Hi by congruence. exact (Hall i r' Hi). }
  assert (mark_task_complete ws' tid = Ok (true, ws')) as M2.
  { rewrite mark_task_complete_eq by assumption.
    rewrite <- (find_same_column _ ws ws' 1)
      by (symmetry; apply col_values_1_set_status; assumption).
    rewrite Hr. change (1 + k0) with (S k0). unfold update_cell. rewrite Hk0'.
    rewrite list_insert_insert_eq. unfold ws'. rewrite list_insert_insert_eq. reflexivity. }
  exists ws'. split; [exact M1|]. split; [|exact M2].
  exists k0, row0. repeat split; auto.
  apply list_lookup_insert_eq. lia.
Qed.

(** C10.  On a well-formed sheet, completing an id that some row carries
    returns [True] whatever the status of the row: the status cell of the
    first such row is rewritten to completed; doing it again returns [True]
    again and leaves the sheet as the first time; and the handler, given
    that id, reports success both times. *)
Theorem mark_task_complete_existing (ws : worksheet) (tid : Z) (k : nat)
    (row : list string) :
  wf_sheet ws = true ->
  ws !! k = Some row ->
  hd EmptyString row = str_int tid ->
  exists ws',
    mark_task_complete ws tid = Ok (true, ws') /\
    (exists k0 row0,
        ws !! k0 = Some row0 /\ hd EmptyString row0 = str_int tid /\
        ws' = <[k0 := <[2 := STATUS_COMPLETED]> row0]> ws /\
        ws' !! k0 = Some (<[2 := STATUS_COMPLETED]> row0) /\
        field COL_STATUS (<[2 := STATUS_COMPLETED]> row0) = Some STATUS_COMPLETED) /\
    mark_task_complete ws' tid = Ok (true, ws') /\
    (forall today msg args id_text,
        args !! "target_task_id" = Some (VStr id_text) ->
        py_int id_text = Some tid ->
        handle_complete_task today ws msg args = (ws', [TaskCompleted tid]) /\
        handle_complete_task today ws' msg args = (ws', [TaskCompleted tid])).
Proof.
  intros Hwf Hk Hq.
  destruct (complete_existing_row ws tid k row Hwf Hk Hq) as (ws' & M1 & Hrow & M2).
  exists ws'. split; [exact M1|]. split; [exact Hrow|]. split; [exact M2|].
  intros today msg args id_text Ha Hp.
  rewrite !(handle_complete_by_id _ _ _ _ _ _ Ha Hp), M1, M2. split; reflexivity.
Qed.

Lemma mark_task_complete_existing_witness :
  exists ws', mark_task_complete sample_sheet 2 = Ok (true, ws')
              /\ mark_task_complete ws' 2 = Ok (true, ws').
Proof.
  destruct (mark_task_complete_existing sample_sheet 2 2
              ["2"; "Buy milk"; "completed"; ""; "2025-07-09 23:59"; "2025-07-01 08:05:00"]
              eq_refl eq_refl eq_refl) as (ws' & M1 & _ & M2 & _).
  exists ws'. split; assumption.
Defined.

(** ** Completing by title *)

Lemma records_wf (ws : worksheet) :
  wf_sheet ws = true ->
  map task_of_record (get_all_records ws) = map row_task (tail ws).
Proof.
  intros Hwf. apply wf_sheet_inv in Hwf as (rows & -> & Hall).
  cbn [get_all_records tail]. rewrite map_map. apply map_ext_in.
  intros row Hr. specialize (Hall row Hr).
  destruct row as [|a [|b [|c [|d [|e [|f [|g row]]]]]]]; try discriminate.
  vm_compute. reflexivity.
Qed.

Lemma read_tasks_pending (today : date) (ws : worksheet) :
  wf_sheet ws = true ->
  read_tasks today ws None None (Some STATUS_PENDING)
  = List.filter (fun t => bool_decide (status t = Some STATUS_PENDING))
                (map row_task (tail ws)).
Proof.
  intros Hwf. unfold read_tasks. rewrite <- (records_wf ws Hwf).
  case_bool_decide as E; [rewrite E; reflexivity | reflexivity].
Qed.

Lemma match_titles_filter (wanted : string) (l : list task) :
  (forall t, In t l -> title t <> None) ->
  match_titles wanted l = Some (List.filter (title_is wanted) l).
Proof.
  induction l as [|t l IH]; intros H; [reflexivity|].
  cbn [match_titles List.filter]. unfold title_is at 1.
  destruct (title t) as [x|] eqn:E; [|exfalso; apply (H t); [now left | exact E]].
  rewrite IH by (intros u Hu; apply H; now right).
  destruct (String.eqb (lower x) (lower wanted)); reflexivity.
Qed.

Lemma pending_titles_match (today : date) (ws : worksheet) (wanted : string) :
  wf_sheet ws = true ->
  match_titles wanted (read_tasks today ws None None (Some STATUS_PENDING))
  = Some (pending_title_matches wanted ws).
Proof.
  intros Hwf. rewrite (read_tasks_pending today ws Hwf), match_titles_filter.
  - unfold pending_title_matches. now rewrite filter_filter.
  - intros t Ht. apply filter_In in Ht as [Ht _]. apply in_map_iff in Ht as (row & <- & Hr).
    apply wf_sheet_inv in Hwf as (rows & -> & Hall). specialize (Hall row Hr).
    destruct row as [|a [|b row]]; try discriminate.
Qed.

Lemma handle_complete_by_title today ws msg (args : gmap string val) c r :
  get args "target_task_id" = VNone ->
  get args "target_task_title" = VStr (String c r) ->
  handle_complete_task today ws msg args
  = let wanted := String c r in
    match match_titles wanted (read_tasks today ws None None (Some STATUS_PENDING)) with
    | None => (ws, [TitleLookupFailed wanted])
    | Some [] => (ws, [TitleNotFound wanted])
    | Some [t] =>
        match task_id t with
        | Some cell =>
            match py_int cell with
            | Some tid =>
                match mark_task_complete ws tid with
                | Ok (true, ws') => (ws', [FoundByTitle wanted tid] ++ [TaskCompleted tid])
                | Ok (false, ws') => (ws', [FoundByTitle wanted tid] ++ [CompleteNotDone tid])
                | Raise => (ws, [FoundByTitle wanted tid] ++ [CompleteFailed])
                end
            | None => (ws, [TitleLookupFailed wanted])
            end
        | None => (ws, [TitleLookupFailed wanted])
        end
    | Some matched_tasks =>
        (ws, [AmbiguousTitle wanted (map (fun t => str_cell (task_id t)) matched_tasks)])
    end.
Proof.
  intros Hi Ht. unfold handle_complete_task. rewrite Hi, Ht. reflexivity.
Qed.

(** A pending match is a row of the sheet under the header row. *)
Lemma pending_match_row (ws : worksheet) (wanted : string) (t : task) :
  wf_sheet ws = true ->
  In t (pending_title_matches wanted ws) ->
  exists k row, ws !! k = Some row /\ task_id t = Some (hd EmptyString row)
                /\ t = row_task row /\ field COL_STATUS row = Some STATUS_PENDING.
Proof.
  intros Hwf Ht. unfold pending_title_matches in Ht.
  apply filter_In in Ht as [Ht Hp]. apply andb_prop in Hp as [Hp _].
  apply bool_decide_eq_true in Hp.
  apply in_map_iff in Ht as (row & <- & Hr).
  pose proof Hwf as Hwf'. apply wf_sheet_inv in Hwf' as (rows & -> & Hall).
  cbn [tail] in Hr. specialize (Hall row Hr).
  apply list_elem_of_In, list_elem_of_lookup_1 in Hr as [i Hi].
  exists (S i), row. split; [exact Hi|].
  destruct row as [|a row]; [discriminate|]. repeat split; auto.
Qed.



(** ** The fallback for an unread due date *)

Lemma add_task_spec_run (now : datetime) (ws : worksheet) (t : string)
    (a d : option string) :
  exists tid,
    add_task now ws t a d
    = Ok (tid, ws ++ [[str_int tid; t; STATUS_PENDING; default EmptyString a;
                       default EmptyString d; fmt_timestamp now]]).
Proof.
  destruct (get_next_task_id_spec ws) as (tid & E & _). exists tid.
  unfold add_task. rewrite E. reflexivity.
Qed.

Lemma raw_fallback_nonempty (s : string) : s <> EmptyString -> truthy (Some (raw_fallback s)) = true.
Proof.
  intros H. unfold raw_fallback. destruct s as [|c r]; [congruence|].
  destruct (negb _ && _); [rewrite append_cons|]; reflexivity.
Qed.

Lemma option_case_same {A B : Type} (o : option A) (x : B) :
  match o with Some _ => x | None => x end = x.
Proof. destruct o; reflexivity. Qed.

Lemma fallback_eq (s : string) :
  (if negb (has_char ":" s) && (String.length s =? 10)
   then Some (s +:+ " 23:59") else Some s) = Some (raw_fallback s).
Proof. unfold raw_fallback. destruct (negb _ && _); reflexivity. Qed.

(** C4.  For a due-date text that is not empty and that the normaliser does
    not read, both handlers fall back the same way: ten characters without
    a colon get " 23:59" appended, anything else is kept unchanged, and
    that text is what is stored.  Add (given a title) appends a row whose
    due-date cell is that text; Update (given an id [int] reads) hands that
    text to [update_task] as the new due date, and on a well-formed sheet a
    successful update leaves it in the due-date cell of the row. *)
Theorem due_date_fallback (now : datetime) (ws : worksheet) (msg : message)
    (args : gmap string val) (s : string) :
  s <> EmptyString ->
  parse_relative_due_date now (Some s) = None ->
  (forall title_text,
      title_text <> EmptyString ->
      get args "title" = VStr title_text ->
      get args "due_date" = VStr s ->
      exists tid row assignee,
        handle_add_task now ws msg args
        = (ws ++ [row], [TaskAdded title_text tid assignee (Some (raw_fallback s))]) /\
        field COL_DUE_DATE row = Some (raw_fallback s)) /\
  (forall id_text tid,
      get args "target_task_id" = VStr id_text ->
      py_int id_text = Some tid ->
      args !! "new_due_date" = Some (VStr s) ->
      exists nt na,
        handle_update_task now ws msg args
        = match update_task ws tid nt na (Some (raw_fallback s)) with
          | Ok (true, ws') => (ws', [TaskUpdated tid])
          | Ok (false, ws') => (ws', [UpdateNotDone tid])
          | Raise => (ws, [UpdateFailed])
          end /\
        (wf_sheet ws = true ->
         forall ws', update_task ws tid nt na (Some (raw_fallback s)) = Ok (true, ws') ->
           exists k row row',
             ws !! k = Some row /\ ws' = <[k := row']> ws /\
             field COL_DUE_DATE row' = Some (raw_fallback s))).
Proof.
  intros Hne Hparse. destruct s as [|c r]; [congruence|]. split.
  - intros title_text Ht Hgt Hgd. destruct title_text as [|tc tr]; [congruence|].
    unfold handle_add_task. rewrite Hgt, Hgd. cbv zeta. rewrite Hparse.
    change (truthy None) with false. cbv iota.
    rewrite !fallback_eq.
    rewrite (raw_fallback_nonempty (String c r)) by discriminate.
    match goal with
    | |- context [add_task now ws ?t ?a ?d] =>
        destruct (add_task_spec_run now ws t a d) as (tid & E); rewrite E
    end.
    eexists tid, _, _. split; [reflexivity|]. reflexivity.
  - intros id_text tid Hgi Hp Hgd.
    assert (get args "new_due_date" = VStr (String c r)) as Hgd'
      by (unfold get; rewrite Hgd; reflexivity).
    assert (has_key args "new_due_date" = true) as Hk
      by (unfold has_key; rewrite Hgd; reflexivity).
    eexists _, _. split.
    + unfold handle_update_task. rewrite Hgi, Hp, Hgd'. cbv zeta.
      rewrite Hk, Hparse.
      change (val_truthy (VStr (String c r))) with true.
      rewrite orb_true_r, orb_true_l. cbn [negb andb is_none]. cbv iota.
      change (truthy None) with false. cbv iota.
      rewrite !fallback_eq. cbv iota. rewrite option_case_same.
      reflexivity.
    + intros Hwf ws' Hu.
      apply (update_task_done ws ws' tid _ _ _ Hwf) in Hu
        as (k & row & row' & Hk0 & _ & _ & -> & _ & _ & _ & _ & H4).
      exists k, row, row'. repeat split; auto.
Qed.

Lemma due_date_fallback_witness :
  exists tid row assignee,
    handle_add_task sample_now sample_sheet sample_msg
      {[ "title" := VStr "Dentist"; "due_date" := VStr "2025/07/09" ]}
    = (sample_sheet ++ [row],
       [TaskAdded "Dentist" tid assignee (Some "2025/07/09 23:59")]) /\
    field COL_DUE_DATE row = Some "2025/07/09 23:59".
Proof.
  assert (parse_relative_due_date sample_now (Some "2025/07/09") = None) as Hp
    by (vm_compute; reflexivity).
  exact (proj1 (due_date_fallback sample_now sample_sheet sample_msg
                  {[ "title" := VStr "Dentist"; "due_date" := VStr "2025/07/09" ]}
                  "2025/07/09" ltac:(discriminate) Hp)
               "Dentist" ltac:(discriminate) eq_refl eq_refl).
Defined.

(** * Further properties of the code *)

(** ** The normaliser on its own results *)



(** ** Completing an id no row carries *)

Lemma find_in_column_1_none (q : string) (ws : worksheet) (n : nat) :
  (forall k row, ws !! k = Some row -> hd EmptyString row <> q) ->
  find_in_column_1 q ws n = None.
Proof.
  revert n. induction ws as [|x ws IH]; intros n H; [reflexivity|].
  cbn [find_in_column_1].
  destruct (String.eqb_spec (hd EmptyString x) q) as [E | E].
  - exfalso. exact (H 0 x eq_refl E).
  - apply IH. intros k row Hk. exact (H (S k) row Hk).
Qed.

(** X2.  Completing an id that is the first cell of no row fails without an
    exception and without a write: [mark_task_complete] returns [False],
    the sheet is as before, and the handler sends one reply, the one for a
    task not completed. *)
Theorem mark_task_complete_absent (ws : worksheet) (tid : Z) :
  (forall k row, ws !! k = Some row -> hd EmptyString row <> str_int tid) ->
  mark_task_complete ws tid = Ok (false, ws) /\
  forall today msg (args : gmap string val) id_text,
    args !! "target_task_id" = Some (VStr id_text) ->
    py_int id_text = Some tid ->
    handle_complete_task today ws msg args = (ws, [CompleteNotDone tid]).
Proof.
  intros H.
  assert (mark_task_complete ws tid = Ok (false, ws)) as M.
  { unfold mark_task_complete. rewrite (find_in_column_1_none _ ws 1 H). reflexivity. }
  split; [exact M|].
  intros today msg args id_text Ha Hp.
  rewrite (handle_complete_by_id _ _ _ _ _ _ Ha Hp), M. reflexivity.
Qed.

Lemma mark_task_complete_absent_witness :
  mark_task_complete sample_sheet 9 = Ok (false, sample_sheet).
Proof.
  refine (proj1 (mark_task_complete_absent sample_sheet 9 _)).
  intros k row Hk.
  do 6 (destruct k as [|k]; [injection Hk as <-; discriminate|]).
  discriminate.
Defined.

(** ** The filters of [read_tasks] *)

Lemma filter_none {A} (f : A -> bool) (l : list A) :
  (forall x, In x l -> f x = false) -> List.filter f l = [].
Proof.
  induction l as [|x l IH]; intros H; [reflexivity|].
  cbn [List.filter]. rewrite (H x) by now left. apply IH. intros y Hy. apply H. now right.
Qed.

Lemma filter_true {A} (l : list A) : List.filter (fun _ => true) l = l.
Proof. induction l as [|x l IH]; [reflexivity|]. cbn. now rewrite IH. Qed.

Lemma filter_if {A} (b : bool) (f : A -> bool) (l : list A) :
  (if b then List.filter f l else l) = List.filter (fun t => if b then f t else true) l.
Proof. destruct b; [reflexivity | now rewrite filter_true]. Qed.

Lemma read_tasks_filter (today : date) (ws : worksheet) (a r st : option string) :
  read_tasks today ws a r st
  = List.filter
      (fun t =>
         (if truthy st then bool_decide (status t = st) else true)
         && (if truthy a then bool_decide (Some (assignee_id t) = a) else true)
         && match r with
            | Some (String c x) => due_in_range today (String c x) t
            | _ => true
            end)
      (map task_of_record (get_all_records ws)).
Proof.
  unfold read_tasks. case_bool_decide as E; [rewrite E; reflexivity|].
  cbv zeta. rewrite !filter_if.
  set (records := map task_of_record (get_all_records ws)).
  destruct r as [[|c x]|].
  - rewrite filter_filter. apply List.filter_ext. intros t. now rewrite andb_true_r.
  - rewrite !filter_filter. apply List.filter_ext. intros t. now rewrite andb_assoc.
  - rewrite filter_filter. apply List.filter_ext. intros t. now rewrite andb_true_r.
Qed.

Lemma due_in_range_parses (today : date) (r : string) (t : task) :
  due_in_range today r t = true -> due_date t <> EmptyString /\ due_day t <> None.
Proof.
  unfold due_in_range, due_day. destruct (due_date t) as [|c x]; [discriminate|].
  destruct (strptime_date _); [|discriminate]. intros _. split; discriminate.
Qed.




Lemma fmt_date_not_keyword (d : date) : is_range_keyword (fmt_date d) = false.
Proof.
  unfold is_range_keyword, fmt_date, pad4. flatten_text.
  assert (forall k w, k < 10 -> String.eqb (String (digit_char k) w) "today" = false) as A1.
  { intros k w Hk. do 10 (destruct k as [|k]; [reflexivity|]). lia. }
  assert (forall k w, k < 10 -> String.eqb (String (digit_char k) w) "this_week" = false)
    as A2.
  { intros k w Hk. do 10 (destruct k as [|k]; [reflexivity|]). lia. }
  assert (forall k w, k < 10 -> String.eqb (String (digit_char k) w) "next_seven_days" = false)
    as A3.
  { intros k w Hk. do 10 (destruct k as [|k]; [reflexivity|]). lia. }
  rewrite A1, A2, A3 by auto with digits. reflexivity.
Qed.

Lemma due_in_range_exact (today d : date) (t : task) :
  valid_date d = true ->
  due_in_range today (fmt_date d) t
  = String.eqb (before_space (due_date t)) (fmt_date d).
Proof.
  intros Hv. pose proof (fmt_date_not_keyword d) as Hk.
  unfold is_range_keyword in Hk. apply orb_false_iff in Hk as [Hk H3].
  apply orb_false_iff in Hk as [H1 H2].
  assert (fmt_date d <> EmptyString) as Hne
    by (rewrite <- (append_empty_r (fmt_date d)); apply fmt_date_nonempty).
  unfold due_in_range. destruct (due_date t) as [|c x].
  - cbn [before_space]. symmetry. apply String.eqb_neq. congruence.
  - destruct (String.eqb_spec (before_space (String c x)) (fmt_date d)) as [E | E].
    + rewrite ?E, (strptime_date_fmt d Hv), H1, H2, H3. rewrite ?String.eqb_refl.
      reflexivity.
    + destruct (strptime_date _); [|reflexivity].
      rewrite H1, H2, H3. reflexivity.
Qed.



(** ** The sheets the system builds *)

Lemma str_int_of_nat (i : nat) : str_int (Z.of_nat i) = str_nat i.
Proof.
  unfold str_int. destruct (Z.of_nat i) eqn:E; try (rewrite <- E, Nat2Z.id; reflexivity).
  lia.
Qed.

Lemma existing_ids_column (ws : worksheet) (n : nat) :
  col_values_1 ws = id_column n -> existing_ids ws = map Z.of_nat (seq 1 n).
Proof.
  unfold existing_ids, id_column. intros ->. cbn [tail].
  generalize (seq 1 n). intros l. induction l as [|i l IH]; [reflexivity|].
  cbn [map List.filter]. rewrite str_int_of_nat, str_nat_isdigit.
  cbn [map]. rewrite str_nat_val, IH. reflexivity.
Qed.

Lemma wf_sheet_app (ws : worksheet) (row : list string) :
  wf_sheet ws = true -> length row = 6 -> wf_sheet (ws ++ [row]) = true.
Proof.
  intros Hwf Hl. apply wf_sheet_inv in Hwf as (rows & -> & Hall).
  cbn [List.app wf_sheet]. rewrite andb_true_iff, bool_decide_eq_true, forallb_forall.
  split; [reflexivity|]. intros r Hr. apply Nat.eqb_eq.
  apply in_app_or in Hr as [Hr | [<- | []]]; [exact (Hall r Hr) | exact Hl].
Qed.

Lemma wf_sheet_insert (ws : worksheet) (k : nat) (row' : list string) :
  wf_sheet ws = true -> k <> 0 -> length row' = 6 ->
  wf_sheet (<[k := row']> ws) = true.
Proof.
  intros Hwf Hk Hl. apply wf_sheet_iff. apply wf_sheet_iff in Hwf as [H0 Hall]. split.
  - rewrite list_lookup_insert_ne by assumption. exact H0.
  - intros i r Hi. destruct (decide (i = k)) as [->|Hne].
    + apply list_lookup_insert_Some in Hi as [(_ & <- & _) | (Hne & _)]; [exact Hl | congruence].
    + rewrite list_lookup_insert_ne in Hi by congruence. exact (Hall i r Hi).
Qed.

Lemma col_values_1_insert (ws : worksheet) (k : nat) (row row' : list string) :
  ws !! k = Some row -> hd EmptyString row' = hd EmptyString row ->
  col_values_1 (<[k := row']> ws) = col_values_1 ws.
Proof.
  intros Hk Hh. unfold col_values_1.
  change (map ?f ?l) with (f <$> l). rewrite list_fmap_insert.
  apply list_insert_id. rewrite list_lookup_fmap, Hk. cbn. now rewrite Hh.
Qed.

Lemma update_task_false (ws ws' : worksheet) (tid : Z) (nt na nd : option string) :
  update_task ws tid nt na nd = Ok (false, ws') -> ws' = ws.
Proof.
  unfold update_task.
  destruct (id_rows 0 (col_values_1 ws) ∅) as [m|]; [|discriminate].
  destruct (m !! tid) as [[|k]|].
  - intros H. now injection H as <-.
  - cbv zeta.
    destruct (assign_field _ COL_TITLE nt _); [|discriminate].
    destruct (assign_field _ COL_ASSIGNEE_ID na _); [|discriminate].
    destruct (assign_field _ COL_DUE_DATE nd _); discriminate.
  - intros H. now injection H as <-.
Qed.

Lemma mark_task_complete_false (ws ws' : worksheet) (tid : Z) :
  mark_task_complete ws tid = Ok (false, ws') -> ws' = ws.
Proof.
  unfold mark_task_complete. destruct (find_in_column_1 _ ws 1); [|intros H; now injection H as <-].
  cbv zeta. destruct (index_of COL_STATUS (row_values ws 1)); [discriminate|].
  intros H. now injection H as <-.
Qed.

Lemma isdigit_not_header (row : list string) :
  isdigit (hd EmptyString row) = true -> row <> HEADERS.
Proof. intros H ->. discriminate. Qed.

(** What the operations keep: the header row and six cells per row, and a
    first column that numbers the task rows from 1. *)
Lemma update_task_keeps (ws ws' : worksheet) (tid : Z) (nt na nd : option string)
    (done : bool) :
  wf_sheet ws = true ->
  update_task ws tid nt na nd = Ok (done, ws') ->
  wf_sheet ws' = true /\ col_values_1 ws' = col_values_1 ws /\ length ws' = length ws.
Proof.
  intros Hwf H. destruct done.
  - apply (update_task_done ws ws' tid nt na nd Hwf) in H
      as (k & row & row' & Hk & Hd & _ & -> & Hl & Hf & _).
    pose proof (wf_sheet_row ws k row Hwf Hk) as Hl6.
    assert (k <> 0) as Hnz.
    { intros ->. pose proof Hwf as Hwf'. apply wf_sheet_iff in Hwf' as [H0 _].
      rewrite H0 in Hk. injection Hk as <-. discriminate. }
    assert (hd EmptyString row' = hd EmptyString row) as Hh.
    { specialize (Hf 0 ltac:(lia) ltac:(lia) ltac:(lia)).
      destruct row as [|c row], row' as [|c' row']; try discriminate.
      cbn in Hf. now injection Hf. }
    split; [apply wf_sheet_insert; [assumption .. | congruence]|].
    split; [exact (col_values_1_insert ws k row row' Hk Hh) | apply length_insert].
  - apply update_task_false in H as ->. auto.
Qed.

Lemma mark_task_complete_keeps (ws ws' : worksheet) (tid : Z) (done : bool) :
  wf_sheet ws = true ->
  mark_task_complete ws tid = Ok (done, ws') ->
  wf_sheet ws' = true /\ col_values_1 ws' = col_values_1 ws /\ length ws' = length ws.
Proof.
  intros Hwf H. destruct done.
  - apply (mark_task_complete_done ws ws' tid Hwf) in H as (k & row & Hk & Hq & _ & ->).
    pose proof (wf_sheet_row ws k row Hwf Hk) as Hl6.
    assert (k <> 0) as Hnz.
    { intros ->. pose proof Hwf as Hwf'. apply wf_sheet_iff in Hwf' as [H0 _].
      rewrite H0 in Hk. injection Hk as <-. cbn in Hq. symmetry in Hq.
      exact (str_int_not_header tid Hq). }
    split; [apply wf_sheet_insert; [assumption .. | now rewrite length_insert]|].
    split; [exact (col_values_1_set_status ws k row _ Hk Hl6) | apply length_insert].
  - apply mark_task_complete_false in H as ->. auto.
Qed.

Lemma add_task_keeps (now : datetime) (ws ws' : worksheet) (t : string)
    (a d : option string) (tid : Z) :
  wf_sheet ws = true ->
  col_values_1 ws = id_column (length ws - 1) ->
  add_task now ws t a d = Ok (tid, ws') ->
  tid = Z.of_nat (length ws) /\
  ws' = ws ++ [[str_int tid; t; STATUS_PENDING; default EmptyString a;
                default EmptyString d; fmt_timestamp now]] /\
  wf_sheet ws' = true /\ col_values_1 ws' = id_column (length ws' - 1).
Proof.
  intros Hwf Hcol H.
  assert (1 <= length ws) as Hlen
    by (apply wf_sheet_inv in Hwf as (rows & -> & _); cbn; lia).
  destruct (get_next_task_id_spec ws) as (tid' & E & Hlt & Hnil & Hin & _).
  pose proof (existing_ids_column ws _ Hcol) as Hids.
  assert (tid' = Z.of_nat (length ws)) as Htid.
  { destruct (length ws - 1) as [|n] eqn:En.
    - rewrite Hids in Hnil. rewrite (Hnil eq_refl). lia.
    - rewrite Hids in Hlt, Hin.
      assert (In (Z.of_nat (S n)) (map Z.of_nat (seq 1 (S n)))) as Hmax
        by (apply in_map, in_seq; lia).
      specialize (Hlt _ Hmax).
      pose proof (Hin ltac:(discriminate)) as Hi.
      apply in_map_iff in Hi as (j & Hj & Hjs). apply in_seq in Hjs. lia. }
  unfold add_task in H. rewrite E in H. injection H as <- <-. subst tid'.
  split; [reflexivity|]. split; [reflexivity|]. split.
  - apply wf_sheet_app; [exact Hwf | reflexivity].
  - unfold append_row, col_values_1 in *. rewrite List.map_app, Hcol, length_app.
    cbn [map length hd].
    replace (length ws + 1 - 1) with (S (length ws - 1)) by lia.
    unfold id_column. rewrite seq_S, List.map_app. cbn [map List.app].
    replace (1 + (length ws - 1)) with (length ws) by lia. reflexivity.
Qed.

Lemma reachable_keeps (ws : worksheet) :
  reachable ws ->
  wf_sheet ws = true /\ col_values_1 ws = id_column (length ws - 1).
Proof.
  induction 1 as [| now ws t a d tid ws' _ [Hwf Hcol] H
                  | ws tid nt na nd done ws' _ [Hwf Hcol] H
                  | ws tid done ws' _ [Hwf Hcol] H].
  - split; reflexivity.
  - destruct (add_task_keeps now ws ws' t a d tid Hwf Hcol H) as (_ & _ & ? & ?). auto.
  - destruct (update_task_keeps ws ws' tid nt na nd done Hwf H) as (? & E & L).
    split; [assumption|]. now rewrite E, L.
  - destruct (mark_task_complete_keeps ws ws' tid done Hwf H) as (? & E & L).
    split; [assumption|]. now rewrite E, L.
Qed.





(** ** Listing after a completion *)

Lemma filter_all {A} (f : A -> bool) (l : list A) :
  (forall x, In x l -> f x = true) -> List.filter f l = l.
Proof.
  induction l as [|x l IH]; intros H; [reflexivity|].
  cbn [List.filter]. rewrite (H x) by now left. f_equal. apply IH.
  intros y Hy. apply H. now right.
Qed.

Lemma filter_insert_unique {A} (P Q : A -> bool) (l : list A) (j : nat) (x y : A) :
  l !! j = Some x -> P y = false -> Q x = false ->
  (forall i z, i <> j -> l !! i = Some z -> Q z = true) ->
  List.filter P (<[j := y]> l) = List.filter Q (List.filter P l).
Proof.
  revert j. induction l as [|a l IH]; intros j Hj Py Qx Hothers; [discriminate|].
  destruct j as [|j].
  - cbn in Hj. injection Hj as ->. change (<[0 := y]> (x :: l)) with (y :: l).
    cbn [List.filter]. rewrite Py.
    assert (List.filter Q (List.filter P l) = List.filter P l) as E.
    { apply filter_all. intros z Hz. apply filter_In in Hz as [Hz _].
      apply list_elem_of_In, list_elem_of_lookup_1 in Hz as [i Hi].
      exact (Hothers (S i) z ltac:(lia) Hi). }
    destruct (P x); cbn [List.filter]; rewrite ?Qx; now rewrite E.
  - cbn in Hj. change (<[S j := y]> (a :: l)) with (a :: <[j := y]> l).
    cbn [List.filter].
    assert (Q a = true) as Qa by exact (Hothers 0 a ltac:(lia) eq_refl).
    rewrite (IH j Hj Py Qx) by (intros i z Hi Hz; apply (Hothers (S i) z); [lia | exact Hz]).
    destruct (P a); cbn [List.filter]; rewrite ?Qa; reflexivity.
Qed.

Lemma row_task_id (row : list string) :
  length row = 6 -> task_id (row_task row) = Some (hd EmptyString row).
Proof. destruct row; [discriminate | reflexivity]. Qed.



(** ** Listing after an add *)

Lemma fmt_date_cons (d : date) : exists c x, fmt_date d = String c x.
Proof. unfold fmt_date, pad4. flatten_text. eauto. Qed.

Lemma handle_add_task_run (now : datetime) (ws : worksheet) (msg : message)
    (args : gmap string val) (tc : ascii) (tr : string) :
  get args "title" = VStr (String tc tr) ->
  exists tid assignee due reply,
    handle_add_task now ws msg args
    = (ws ++ [[str_int tid; String tc tr; STATUS_PENDING; assignee; due;
               fmt_timestamp now]], [reply]) /\
    get_next_task_id ws = Ok tid /\
    (forall d, valid_date d = true -> get args "due_date" = VStr (fmt_date d) ->
               due = fmt_date d +:+ " 23:59") /\
    (get args "due_date" = VNone -> due = EmptyString) /\
    (get args "assignee" = VNone -> assignee = EmptyString).
Proof.
  intros Ht. unfold handle_add_task. rewrite Ht. cbv zeta.
  match goal with
  | |- context [add_task now ws ?t ?a ?d] =>
      destruct (add_task_spec_run now ws t a d) as (tid & E); rewrite E;
      exists tid, (default EmptyString a), (default EmptyString d)
  end.
  eexists. split; [reflexivity|]. split.
  { unfold add_task in E. destruct (get_next_task_id ws); [|discriminate].
    injection E as -> _. reflexivity. }
  split; [|split].
  - intros d Hv Hd. rewrite Hd. destruct (fmt_date_cons d) as (c & x & Ec).
    rewrite Ec. rewrite <- Ec. rewrite (parse_canonical_date now d Hv). reflexivity.
  - intros ->. reflexivity.
  - intros ->. reflexivity.
Qed.



(** ** Updating: found or not, never an exception *)

Lemma id_rows_total (cells : list string) (idx : nat) (m : gmap Z nat) :
  exists m', id_rows idx cells m = Ok m'.
Proof.
  revert idx m. induction cells as [|c cells IH]; intros idx m; [eexists; reflexivity|].
  cbn [id_rows]. destruct (isdigit c) eqn:E; [|apply IH].
  rewrite (py_int_isdigit c E). apply IH.
Qed.

Lemma id_rows_found (cells : list string) (idx : nat) (m m' : gmap Z nat) (z : Z) :
  id_rows idx cells m = Ok m' ->
  is_Some (m !! z) \/
    (exists k c, cells !! k = Some c /\ isdigit c = true /\ py_int c = Some z) ->
  is_Some (m' !! z).
Proof.
  revert idx m. induction cells as [|c cells IH]; intros idx m H Hz.
  - cbn in H. injection H as <-. destruct Hz as [Hz | (k & c & Hk & _)]; [exact Hz | discriminate].
  - cbn [id_rows] in H. destruct (isdigit c) eqn:Ed.
    + destruct (py_int c) as [zc|] eqn:Ei; [|discriminate].
      apply (IH _ _ H). destruct Hz as [Hz | (k & c' & Hk & Hd & Hp)].
      * left. destruct (decide (zc = z)) as [->|Hne].
        -- rewrite lookup_insert_eq. eauto.
        -- now rewrite lookup_insert_ne.
      * destruct k as [|k].
        -- cbn in Hk. injection Hk as <-. left.
           assert (zc = z) as -> by congruence. rewrite lookup_insert_eq. eauto.
        -- right. exists k, c'. auto.
    + apply (IH _ _ H). destruct Hz as [Hz | (k & c' & Hk & Hd & Hp)]; [now left|].
      destruct k as [|k].
      * cbn in Hk. injection Hk as <-. congruence.
      * right. exists k, c'. auto.
Qed.

Lemma assign_field_some hm col i v row :
  hm !! col = Some i -> i < length row -> is_Some (assign_field hm col v row).
Proof.
  intros Hc Hi. unfold assign_field, set_item. destruct v; [|eauto].
  rewrite Hc. destruct (Nat.ltb_spec i (length row)); [eauto | lia].
Qed.

(** On a well-formed sheet [update_task] does not raise. *)
Lemma update_task_total (ws : worksheet) (tid : Z) (nt na nd : option string) :
  wf_sheet ws = true ->
  exists done ws', update_task ws tid nt na nd = Ok (done, ws').
Proof.
  intros Hwf. unfold update_task.
  destruct (id_rows_total (col_values_1 ws) 0 ∅) as [m Em]. rewrite Em.
  destruct (m !! tid) as [[|k]|] eqn:Ei; [eauto | | eauto].
  destruct (id_rows_spec _ _ _ _ _ _ Em Ei) as [Hm | (k' & c & Hk & Hc & _)];
    [rewrite lookup_empty in Hm; discriminate|].
  cbn in Hk. injection Hk as <-.
  apply col_values_1_lookup in Hc as (row & Hrow & _).
  pose proof (wf_sheet_row ws k row Hwf Hrow) as Hl.
  rewrite (wf_sheet_headers ws Hwf).
  destruct header_map_HEADERS as (H1 & H3 & H4).
  change (row_values ws (S k)) with (default [] (ws !! k)).
  rewrite Hrow. cbv zeta. change (default [] (Some row)) with row.
  destruct (assign_field_some _ _ _ nt row H1 ltac:(lia)) as [r1 E1]. rewrite E1.
  destruct (assign_field_spec _ _ _ _ _ _ H1 E1) as (L1 & _).
  destruct (assign_field_some _ _ _ na r1 H3 ltac:(lia)) as [r2 E2]. rewrite E2.
  destruct (assign_field_spec _ _ _ _ _ _ H3 E2) as (L2 & _).
  destruct (assign_field_some _ _ _ nd r2 H4 ltac:(lia)) as [r3 E3]. rewrite E3.
  eauto.
Qed.

Lemma update_task_finds (ws : worksheet) (tid : Z) (nt na nd : option string)
    (k : nat) (row : list string) :
  wf_sheet ws = true ->
  ws !! k = Some row -> isdigit (hd EmptyString row) = true ->
  py_int (hd EmptyString row) = Some tid ->
  exists ws', update_task ws tid nt na nd = Ok (true, ws').
Proof.
  intros Hwf Hk Hd Hp.
  destruct (update_task_total ws tid nt na nd Hwf) as ([|] & ws' & E); [eauto|].
  exfalso. unfold update_task in E.
  destruct (id_rows 0 (col_values_1 ws) ∅) as [m|] eqn:Em; [|discriminate].
  assert (is_Some (m !! tid)) as [r Hr].
  { apply (id_rows_found _ _ _ _ _ Em). right. exists k, (hd EmptyString row).
    split; [|auto]. unfold col_values_1. change (map ?f ?l) with (f <$> l).
    rewrite list_lookup_fmap, Hk. reflexivity. }
  rewrite Hr in E. destruct r as [|r].
  - destruct (id_rows_spec _ _ _ _ _ _ Em Hr) as [Hm | (k' & c & Hk' & _)];
      [rewrite lookup_empty in Hm; discriminate | discriminate].
  - cbv zeta in E.
    destruct (assign_field _ COL_TITLE nt _); [|discriminate].
    destruct (assign_field _ COL_ASSIGNEE_ID na _); [|discriminate].
    destruct (assign_field _ COL_DUE_DATE nd _); discriminate.
Qed.



(** ** Clearing the assignee together with another change *)

(** X11.  The empty [new_assignee] does clear the assignee when the same
    call also brings a title: on a well-formed sheet with a row whose id
    cell reads as the id, the handler reports the update, one row of that
    id gets the new title and an empty assignee cell, and its id, status,
    due date and creation time stay. *)
Theorem handle_update_task_clears_with_title (now : datetime) (ws : worksheet)
    (msg : message) (args : gmap string val) (id_text title_text : string) (tid : Z)
    (k : nat) (row : list string) :
  wf_sheet ws = true ->
  ws !! k = Some row -> isdigit (hd EmptyString row) = true ->
  py_int (hd EmptyString row) = Some tid ->
  args !! "target_task_id" = Some (VStr id_text) ->
  py_int id_text = Some tid ->
  args !! "new_title" = Some (VStr title_text) ->
  title_text <> EmptyString ->
  args !! "new_assignee" = Some (VStr EmptyString) ->
  args !! "new_due_date" = None ->
  exists ws' k0 row0 row',
    handle_update_task now ws msg args = (ws', [TaskUpdated tid]) /\
    ws !! k0 = Some row0 /\ py_int (hd EmptyString row0) = Some tid /\
    ws' = <[k0 := row']> ws /\
    field COL_TITLE row' = Some title_text /\
    field COL_ASSIGNEE_ID row' = Some EmptyString /\
    field COL_TASK_ID row' = field COL_TASK_ID row0 /\
    field COL_STATUS row' = field COL_STATUS row0 /\
    field COL_DUE_DATE row' = field COL_DUE_DATE row0 /\
    field COL_CREATED_AT row' = field COL_CREATED_AT row0.
Proof.
  intros Hwf Hk Hd Hp Hi Hpi Ht Hne Ha Hdue.
  destruct title_text as [|tc tr]; [congruence|].
  destruct (update_task_finds ws tid (Some (String tc tr)) (Some EmptyString) None
              k row Hwf Hk Hd Hp) as [ws' E].
  assert (handle_update_task now ws msg args = (ws', [TaskUpdated tid])) as Hh.
  { unfold handle_update_task, get, has_key. rewrite Hi, Ht, Ha, Hdue.
    change (default VNone (Some ?v)) with v. cbv beta iota zeta.
    rewrite Hpi. cbv beta iota zeta.
    change (default VNone None) with VNone.
    cbn [val_truthy orb negb val_text is_none andb].
    cbv beta iota zeta.
    change (mjoin (Some (Some EmptyString))) with (Some EmptyString).
    change (mjoin (@None (option string))) with (@None string).
    rewrite E. reflexivity. }
  apply (update_task_done ws ws' tid _ _ _ Hwf) in E
    as (k0 & row0 & row' & Hk0 & Hd0 & Hp0 & -> & _ & Hf & H1 & H3 & H4).
  exists (<[k0 := row']> ws), k0, row0, row'. split; [exact Hh|]. split; [exact Hk0|].
  split; [exact Hp0|]. split; [reflexivity|].
  split; [exact H1|]. split; [exact H3|].
  split; [exact (Hf 0 ltac:(lia) ltac:(lia) ltac:(lia))|].
  split; [exact (Hf 2 ltac:(lia) ltac:(lia) ltac:(lia))|].
  split; [exact H4|].
  exact (Hf 5 ltac:(lia) ltac:(lia) ltac:(lia)).
Qed.

Lemma handle_update_task_clears_with_title_witness :
  exists ws',
    handle_update_task sample_now sample_sheet sample_msg
      {[ "target_task_id" := VStr "1"; "new_title" := VStr "Final report";
         "new_assignee" := VStr "" ]}
    = (ws', [TaskUpdated 1]).
Proof.
  set (args := {[ "target_task_id" := VStr "1"; "new_title" := VStr "Final report";
                  "new_assignee" := VStr "" ]} : gmap string val).
  assert (args !! "target_task_id" = Some (VStr "1")) as Hi by (vm_compute; reflexivity).
  assert (args !! "new_title" = Some (VStr "Final report")) as Ht by (vm_compute; reflexivity).
  assert (args !! "new_assignee" = Some (VStr "")) as Ha by (vm_compute; reflexivity).
  assert (args !! "new_due_date" = None) as Hd by (vm_compute; reflexivity).
  destruct (handle_update_task_clears_with_title sample_now sample_sheet sample_msg args
              "1" "Final report" 1 1
              ["1"; "Report"; "pending"; "alice"; "2025-07-08 10:00"; "2025-07-01 08:00:00"]
              eq_refl eq_refl eq_refl eq_refl Hi eq_refl Ht ltac:(discriminate) Ha Hd)
    as (ws' & k0 & row0 & row' & E & _).
  exists ws'. exact E.
Defined.

(** ** What the writing handlers never do *)

Lemma handle_add_task_shape (now : datetime) (ws : worksheet) (msg : message)
    (args : gmap string val) :
  handle_add_task now ws msg args = (ws, [AskTitle]) \/
  exists tid ttl a d ra rd,
    handle_add_task now ws msg args
    = (ws ++ [[str_int tid; ttl; STATUS_PENDING; a; d; fmt_timestamp now]],
       [TaskAdded ttl tid ra rd]).
Proof.
  unfold handle_add_task. destruct (get args "title") as [|[|tc tr]]; [now left | now left |].
  right. cbv zeta.
  match goal with
  | |- context [add_task now ws ?t ?a ?d] =>
      destruct (add_task_spec_run now ws t a d) as (tid & E); rewrite E
  end.
  eauto 10.
Qed.

Lemma handle_update_task_shape (now : datetime) (ws : worksheet) (msg : message)
    (args : gmap string val) :
  wf_sheet ws = true ->
  exists ws' r, handle_update_task now ws msg args = (ws', [r]) /\ failure r = false /\
    (ws' = ws \/ exists tid nt na nd, update_task ws tid nt na nd = Ok (true, ws')).
Proof.
  intros Hwf. unfold handle_update_task.
  destruct (get args "target_task_id") as [|id_text]; [eauto 10|].
  destruct (py_int id_text) as [tid|]; [|eauto 10].
  cbv zeta. destruct (negb _); [eauto 10|].
  match goal with
  | |- context [update_task ws tid ?t (mjoin ?a) (mjoin ?d)] =>
      generalize t, a, d
  end.
  intros kt ka kd.
  destruct (update_task_total ws tid kt (mjoin ka) (mjoin kd) Hwf) as (done & ws' & E).
  rewrite E. destruct done.
  - destruct kt, kd, ka; eauto 12.
  - apply update_task_false in E as ->.
    destruct kt, kd, ka; eauto 12.
Qed.

Lemma handle_complete_task_shape (today : date) (ws : worksheet) (msg : message)
    (args : gmap string val) :
  exists ws' replies, handle_complete_task today ws msg args = (ws', replies) /\
    replies <> [] /\ existsb failure replies = false /\
    (ws' = ws \/ exists tid, mark_task_complete ws tid = Ok (true, ws')).
Proof.
  assert (forall (sent : list reply) (tid : Z), existsb failure sent = false ->
            exists ws' replies,
              match mark_task_complete ws tid with
              | Ok (true, ws') => (ws', sent ++ [TaskCompleted tid])
              | Ok (false, ws') => (ws', sent ++ [CompleteNotDone tid])
              | Raise => (ws, sent ++ [CompleteFailed])
              end = (ws', replies) /\ replies <> [] /\ existsb failure replies = false /\
              (ws' = ws \/ exists tid, mark_task_complete ws tid = Ok (true, ws'))) as Hfin.
  { intros sent tid Hs. destruct (mark_task_complete ws tid) as [[[|] ws']|] eqn:E.
    - exists ws', (sent ++ [TaskCompleted tid]). split; [reflexivity|].
      split; [now destruct sent|]. split; [now rewrite existsb_app, Hs|]. eauto.
    - apply mark_task_complete_false in E as ->.
      exists ws, (sent ++ [CompleteNotDone tid]). split; [reflexivity|].
      split; [now destruct sent|]. split; [now rewrite existsb_app, Hs|]. eauto.
    - unfold mark_task_complete in E. destruct (find_in_column_1 _ ws 1); [|discriminate].
      cbv zeta in E. destruct (index_of COL_STATUS (row_values ws 1)); discriminate. }
  assert (forall r, failure r = false ->
            exists ws' replies, (ws, [r]) = (ws', replies) /\ replies <> [] /\
              existsb failure replies = false /\
              (ws' = ws \/ exists tid, mark_task_complete ws tid = Ok (true, ws'))) as Hone.
  { intros r Hr. exists ws, [r]. split; [reflexivity|]. split; [discriminate|].
    split; [cbn; now rewrite Hr | now left]. }
  unfold handle_complete_task. cbv zeta.
  destruct (get args "target_task_id") as [|id_text].
  - destruct (get args "target_task_title") as [|[|c r]]; [now apply Hone | now apply Hone|].
    destruct (match_titles _ _) as [[|t [|u l]]|]; try (now apply Hone).
    destruct (task_id t) as [cell|]; [|now apply Hone].
    destruct (py_int cell) as [tid|]; [|now apply Hone].
    apply Hfin. reflexivity.
  - destruct (py_int id_text) as [tid|]; [|now apply Hone].
    apply (Hfin [] tid). reflexivity.
Qed.

Lemma prefix_refl_more (ws : worksheet) :
  exists more, col_values_1 ws = col_values_1 ws ++ more /\ length more <= 1.
Proof. exists []. rewrite app_nil_r. auto. Qed.



(** ** The lists of the digest as filters *)

Lemma group_fold_filter (today tomorrow : date) (k : bucket) (tasks : list task) (b : buckets) :
  bucket_list k (fold_left (group_step today tomorrow) tasks b)
  = bucket_list k b ++ List.filter (fun t => bucket_is k (bucket_of today tomorrow t)) tasks.
Proof.
  revert b. induction tasks as [|x tasks IH]; intros b.
  - cbn [fold_left List.filter]. now rewrite app_nil_r.
  - cbn [fold_left List.filter]. rewrite IH, group_step_bucket.
    destruct (bucket_of today tomorrow x) as [[| |]|], k;
      cbn [bucket_is bucket_list due_today_tasks due_tomorrow_tasks upcoming_tasks];
      rewrite <- ?app_assoc; reflexivity.
Qed.

Lemma goes_to_bucket_is (k : bucket) (today : date) (t : task) :
  day_ok today ->
  goes_to k today t = bucket_is k (bucket_of today (add_days today 1) t).
Proof.
  intros Hok. unfold goes_to. destruct (due_day t) as [d|] eqn:Ed.
  - destruct (bucket_of_cases today t d Hok Ed) as (H1 & H2 & H3). cbv zeta in *.
    rewrite <- date_eqb_eq in H1, H2. rewrite <- andb_true_iff in H3.
    destruct (bucket_of today (add_days today 1) t) as [[| |]|], k; cbn [bucket_is];
      repeat match goal with
      | H : ?a = ?a <-> _ |- _ => pose proof (proj1 H eq_refl); clear H
      | H : Some ?x = Some ?y <-> ?b = true |- _ =>
          destruct b; [pose proof (proj2 H eq_refl); discriminate | clear H]
      | H : None = Some ?y <-> ?b = true |- _ =>
          destruct b; [pose proof (proj2 H eq_refl); discriminate | clear H]
      end; congruence.
  - unfold bucket_of. rewrite Ed. now destruct k.
Qed.

(** X13.  The grouping loop of the reminder is three filters: each list is
    the tasks of its days among the tasks read, in the order read and as
    often as read. *)
Theorem group_tasks_filters (today : date) (tasks : list task) (k : bucket) :
  clock_ok today = true ->
  bucket_list k (group_tasks today tasks) = List.filter (goes_to k today) tasks.
Proof.
  intros Hc. unfold group_tasks. cbv zeta. rewrite group_fold_filter.
  replace (bucket_list k (mkBuckets [] [] [])) with (@nil task) by now destruct k.
  cbn [List.app]. apply List.filter_ext. intros t. symmetry.
  apply goes_to_bucket_is, clock_day_ok, Hc.
Qed.

Lemma group_tasks_filters_witness :
  map task_id
    (due_today_tasks (group_tasks (mkDate 2025 7 8) (map row_task (tail sample_sheet))))
  = [Some "1"].
Proof.
  rewrite (group_tasks_filters (mkDate 2025 7 8) (map row_task (tail sample_sheet)) DueToday
             eq_refl : due_today_tasks _ = _).
  vm_compute. reflexivity.
Defined.

(** ** What the reminder loop sends *)

Lemma bucket_of_in_range (today : date) (t : task) :
  due_in_range today "next_seven_days" t = true ->
  bucket_of today (add_days today 1) t <> None.
Proof.
  intros H. apply due_in_range_next_seven_days in H as (p & Ep & Hle & Hlt).
  unfold bucket_of, due_day. rewrite Ep. cbn [fmap option_fmap option_map].
  destruct (date_eqb (dt_date p) today) eqn:E1; [discriminate|].
  destruct (date_eqb (dt_date p) (add_days today 1)); [discriminate|].
  apply date_leb_le in Hle as [Hl | ->].
  - rewrite Hl, Hlt. discriminate.
  - rewrite (proj2 (date_eqb_eq _ _) eq_refl) in E1. discriminate.
Qed.

Lemma bucket_lengths (today tomorrow : date) (l : list task) :
  (forall t, In t l -> bucket_of today tomorrow t <> None) ->
  length (List.filter (fun t => bucket_is DueToday (bucket_of today tomorrow t)) l)
  + length (List.filter (fun t => bucket_is DueTomorrow (bucket_of today tomorrow t)) l)
  + length (List.filter (fun t => bucket_is Upcoming (bucket_of today tomorrow t)) l)
  = length l.
Proof.
  induction l as [|x l IH]; intros H; [reflexivity|].
  specialize (IH (fun t Ht => H t (or_intror Ht))).
  pose proof (H x (or_introl eq_refl)) as Hx.
  cbn [List.filter]. destruct (bucket_of today tomorrow x) as [[| |]|]; [| | |congruence];
    cbn [bucket_is length]; lia.
Qed.

Lemma section_of_length (fetch_user : Z -> option string) (heading : string)
    (l : list task) :
  l <> [] -> 1 <= length (section_of fetch_user heading l).
Proof. destruct l; [congruence|]. cbn. lia. Qed.



(** ** The size of the list reply *)

(** X15.  A list reply of more than 2000 characters is sent as its heading,
    the rule and the lines of the first 28 tasks, followed by the marker,
    whatever the length of those lines; with at most 28 tasks nothing is
    cut and the text sent is the whole reply and the marker, 30 characters
    more than the reply that was over the limit. *)
Theorem list_reply_over_limit (fetch_user_name : Z -> option string)
    (response_assignee_name : string) (due_date_range_filter : val) (tasks : list task) :
  tasks <> [] ->
  let lines (l : list task) :=
    list_heading response_assignee_name due_date_range_filter
    :: "---" :: map (list_line fetch_user_name) l in
  2000 < String.length (join_lines (lines tasks)) ->
  let sent := list_reply fetch_user_name response_assignee_name due_date_range_filter tasks in
  sent = join_lines (lines (firstn 28 tasks)) +:+ NL +:+ "...(list too long, truncated)" /\
  (length tasks <= 28 ->
   sent = join_lines (lines tasks) +:+ NL +:+ "...(list too long, truncated)" /\
   String.length sent = String.length (join_lines (lines tasks)) + 30).
Proof.
  intros Hne lines Hlong sent.
  assert (sent = join_lines (lines (firstn 28 tasks)) +:+ NL
                 +:+ "...(list too long, truncated)") as E.
  { subst sent. unfold list_reply. destruct tasks as [|t0 rest]; [congruence|].
    cbv zeta. fold (lines (t0 :: rest)).
    destruct (Nat.ltb_spec 2000 (String.length (join_lines (lines (t0 :: rest))))); [|lia].
    subst lines. cbv beta. 
    change (firstn 30 (?a :: ?b :: ?l)) with (a :: b :: firstn 28 l).
    now rewrite firstn_map. }
  split; [exact E|]. intros Hfew.
  rewrite firstn_all2 in E by exact Hfew. split; [exact E|].
  rewrite E, !length_append. reflexivity.
Qed.

Lemma list_reply_over_limit_witness :
  let tasks := map row_task (firstn 28 (tail busy_sheet)) in
  2000 < String.length (list_reply (fun _ => None) "everyone" VNone tasks).
Proof.
  intros tasks.
  assert (2000 < String.length
                   (join_lines (list_heading "everyone" VNone :: "---"
                                :: map (list_line (fun _ => None)) tasks))) as H
    by (apply Nat.ltb_lt; vm_compute; reflexivity).
  destruct (list_reply_over_limit (fun _ => None) "everyone" VNone tasks
              ltac:(discriminate) H) as [_ Hfew].
  destruct (Hfew ltac:(vm_compute; lia)) as [_ L]. rewrite L. lia.
Defined.

(** ** Adding for oneself, then listing one's own *)

Lemma lower_char_head (c : ascii) :
  c = "-"%char \/ is_digit c = true -> lower_char c <> "m"%char.
Proof.
  intros [-> | H]; [vm_compute; discriminate|].
  unfold is_digit in H. apply andb_prop in H as [H1 H2].
  apply Nat.leb_le in H1, H2. unfold lower_char, is_upper.
  destruct (Nat.leb_spec 65 (code c)); [lia|]. cbn [andb].
  intros ->. vm_compute in H2. lia.
Qed.

Lemma self_reference_head (a : string) :
  self_reference a = true -> exists c r, a = String c r /\ lower_char c = "m"%char.
Proof.
  unfold self_reference. destruct a as [|c r]; [discriminate|].
  intros H. exists c, r. split; [reflexivity|].
  cbn [existsb lower] in H.
  repeat (apply orb_prop in H as [H | H]); try discriminate;
    apply String.eqb_eq in H; now injection H.
Qed.

Lemma self_reference_not_id (a : string) (z : Z) :
  self_reference a = true -> a <> str_int z.
Proof.
  intros H E. apply self_reference_head in H as (c & r & -> & Hc).
  destruct (str_int_head z) as (c' & r' & E' & Hd).
  rewrite E' in E. injection E as -> _.
  exact (lower_char_head c' Hd Hc).
Qed.

Lemma read_tasks_app_other (today : date) (ws : worksheet) (row : list string)
    (who : string) (r st : option string) :
  wf_sheet ws = true -> length row = 6 ->
  who <> EmptyString -> row !! 3 <> Some who ->
  read_tasks today (ws ++ [row]) (Some who) r st = read_tasks today ws (Some who) r st.
Proof.
  intros Hwf Hl Hwho Hrow.
  assert (wf_sheet (ws ++ [row]) = true) as Hwf' by (apply wf_sheet_app; assumption).
  rewrite !read_tasks_filter, (records_wf _ Hwf'), (records_wf _ Hwf).
  destruct ws as [|h rows]; [discriminate|]. cbn [List.app tail].
  rewrite List.map_app, List.filter_app. cbn [map List.filter].
  assert (truthy (Some who) = true) as -> by (destruct who; [congruence | reflexivity]).
  assert (bool_decide (Some (assignee_id (row_task row)) = Some who) = false) as ->.
  { apply bool_decide_eq_false. intros E. injection E as E. apply Hrow.
    unfold row_task in E. cbn [assignee_id] in E.
    destruct row as [|a [|b [|c [|d row]]]]; try discriminate. cbn in *. congruence. }
  rewrite andb_false_r. cbn [andb]. apply app_nil_r.
Qed.

(** X16.  A task added with "me", "my" or "my tasks" as the assignee, when
    no mentioned user goes by that text, is stored under the text itself,
    while a list asked with such a text filters on the id of its author: on
    a well-formed sheet the reply to anyone listing their own tasks is the
    same after the add as before, so the new task is in nobody's own list. *)
Theorem add_for_me_not_listed (fetch_user_name : Z -> option string) (now : datetime)
    (today : date) (ws : worksheet) (msg reader : message) (args query : gmap string val)
    (title_text a a' : string) :
  wf_sheet ws = true ->
  title_text <> EmptyString ->
  args !! "title" = Some (VStr title_text) ->
  args !! "assignee" = Some (VStr a) ->
  self_reference a = true ->
  List.find (names_user_add a) (mentions msg) = None ->
  query !! "assignee" = Some (VStr a') ->
  self_reference a' = true ->
  exists tid due shown ws',
    handle_add_task now ws msg args = (ws', [TaskAdded title_text tid (Some a) shown]) /\
    ws' = ws ++ [[str_int tid; title_text; STATUS_PENDING; a; due; fmt_timestamp now]] /\
    handle_list_tasks fetch_user_name today ws' reader query
    = handle_list_tasks fetch_user_name today ws reader query.
Proof.
  intros Hwf Hne Ht Ha Hself Hfind Hq Hself'.
  destruct title_text as [|tc tr]; [congruence|].
  destruct (self_reference_head a Hself) as (c & r & -> & _).
  destruct (self_reference_head a' Hself') as (c' & r' & Ea' & _).
  unfold handle_add_task, get. rewrite Ht, Ha.
  change (default VNone (Some ?v)) with v. cbv beta iota zeta. rewrite Hfind.
  match goal with
  | |- context [add_task now ws ?t ?x ?d] =>
      destruct (add_task_spec_run now ws t x d) as (tid & E); rewrite E;
      exists tid, (default EmptyString d)
  end.
  eexists. eexists. split; [reflexivity|]. split; [reflexivity|].
  unfold handle_list_tasks, get. rewrite Hq. change (default VNone (Some ?v)) with v.
  cbv zeta. unfold list_assignee. rewrite Ea'. fold (self_reference (String c' r')).
  rewrite <- Ea', Hself'. cbn [fst snd]. f_equal.
  apply read_tasks_app_other; [exact Hwf | reflexivity | |].
  - destruct (str_int_head (user_id (author reader))) as (x & y & -> & _). discriminate.
  - cbn. intros E2. injection E2 as E2. exact (self_reference_not_id _ _ Hself E2).
Qed.

Lemma add_for_me_not_listed_witness :
  exists tid due shown ws',
    handle_add_task sample_now sample_sheet sample_msg
      {[ "title" := VStr "Write tests"; "assignee" := VStr "me" ]}
    = (ws', [TaskAdded "Write tests" tid (Some "me") shown]) /\
    ws' = sample_sheet ++ [[str_int tid; "Write tests"; STATUS_PENDING; "me"; due;
                            fmt_timestamp sample_now]] /\
    handle_list_tasks (fun _ => None) (mkDate 2025 7 8) ws' sample_msg
      {[ "assignee" := VStr "My tasks" ]}
    = handle_list_tasks (fun _ => None) (mkDate 2025 7 8) sample_sheet sample_msg
        {[ "assignee" := VStr "My tasks" ]}.
Proof.
  set (args := {[ "title" := VStr "Write tests"; "assignee" := VStr "me" ]}
               : gmap string val).
  set (query := {[ "assignee" := VStr "My tasks" ]} : gmap string val).
  assert (args !! "title" = Some (VStr "Write tests")) as Ht by (vm_compute; reflexivity).
  assert (args !! "assignee" = Some (VStr "me")) as Ha by (vm_compute; reflexivity).
  assert (query !! "assignee" = Some (VStr "My tasks")) as Hq by (vm_compute; reflexivity).
  exact (add_for_me_not_listed (fun _ => None) sample_now (mkDate 2025 7 8) sample_sheet
           sample_msg sample_msg args query "Write tests" "me" "My tasks"
           eq_refl ltac:(discriminate) Ht Ha eq_refl eq_refl Hq eq_refl).
Defined.

(** ** The row an update writes *)

Lemma id_rows_last (cells : list string) (idx : nat) (m m' : gmap Z nat) (z : Z) (r : nat) :
  id_rows idx cells m = Ok m' ->
  m' !! z = Some r ->
  (m !! z = Some r /\
   forall j c, cells !! j = Some c -> isdigit c = true -> py_int c <> Some z) \/
  exists k c, r = S (idx + k) /\ cells !! k = Some c /\ isdigit c = true /\ py_int c = Some z /\
    forall j c', k < j -> cells !! j = Some c' -> isdigit c' = true -> py_int c' <> Some z.
Proof.
  revert idx m. induction cells as [|c cells IH]; intros idx m H Hz.
  - cbn in H. injection H as <-. left. split; [exact Hz|]. intros j c Hj. discriminate.
  - cbn [id_rows] in H. destruct (isdigit c) eqn:Ed.
    + destruct (py_int c) as [zc|] eqn:Ei; [|discriminate].
      destruct (IH _ _ H Hz) as [[Hm Hno] | (k & c' & -> & Hk & Hd & Hp & Hlast)].
      * destruct (decide (zc = z)) as [->|Hne].
        -- rewrite lookup_insert_eq in Hm. injection Hm as <-.
           right. exists 0, c. split; [lia|]. split; [reflexivity|].
           split; [exact Ed|]. split; [exact Ei|].
           intros j c' Hj Hc'. destruct j as [|j]; [lia|]. exact (Hno j c' Hc').
        -- rewrite lookup_insert_ne in Hm by assumption. left. split; [exact Hm|].
           intros [|j] c' Hc' Hd'.
           ++ cbn in Hc'. injection Hc' as <-. congruence.
           ++ exact (Hno j c' Hc' Hd').
      * right. exists (S k), c'. split; [lia|]. split; [exact Hk|].
        split; [exact Hd|]. split; [exact Hp|].
        intros [|j] c2 Hj Hc2; [lia|]. apply (Hlast j c2); [lia | exact Hc2].
    + destruct (IH _ _ H Hz) as [[Hm Hno] | (k & c' & -> & Hk & Hd & Hp & Hlast)].
      * left. split; [exact Hm|]. intros [|j] c' Hc' Hd'.
        -- cbn in Hc'. injection Hc' as <-. congruence.
        -- exact (Hno j c' Hc' Hd').
      * right. exists (S k), c'. split; [lia|]. split; [exact Hk|].
        split; [exact Hd|]. split; [exact Hp|].
        intros [|j] c2 Hj Hc2; [lia|]. apply (Hlast j c2); [lia | exact Hc2].
Qed.



(** ** The week of [this_week] *)

Ltac div_facts x k q r :=
  pose proof (Nat.div_mod_eq x k);
  pose proof (Nat.mod_upper_bound x k ltac:(lia));
  set (q := x / k) in *; set (r := x mod k) in *; clearbody q r.

Lemma days_before_year_S (y : nat) :
  1 <= y ->
  days_before_year (S y) = days_before_year y + 365 + (if is_leap y then 1 else 0).
Proof.
  intros Hy. unfold days_before_year, is_leap. cbv zeta.
  replace (S y - 1) with y by lia.
  destruct y as [|p]; [lia|]. replace (S p - 1) with p by lia.
  set (y := S p) in *. assert (y = p + 1) as Ey by (subst y; lia). clearbody y.
  div_facts y 4 a4 r4. div_facts y 100 a100 r100. div_facts y 400 a400 r400.
  div_facts p 4 b4 s4. div_facts p 100 b100 s100. div_facts p 400 b400 s400.
  destruct (Nat.eqb_spec r4 0) as [E4|E4];
  destruct (Nat.eqb_spec r100 0) as [E100|E100];
  destruct (Nat.eqb_spec r400 0) as [E400|E400]; cbn [andb orb negb].
  all: lia.
Qed.

Lemma days_before_month_S (y m : nat) :
  1 <= m -> days_before_month y (S m) = days_before_month y m + days_in_month y m.
Proof. destruct m as [|m]; [lia | reflexivity]. Qed.

Lemma days_before_month_12 (y : nat) :
  days_before_month y 12 + 31 = 365 + (if is_leap y then 1 else 0).
Proof. unfold days_before_month, days_in_month. destruct (is_leap y); reflexivity. Qed.

Lemma toordinal_next_day (d : date) :
  day_ok d -> 1 <= year d -> toordinal (next_day d) = S (toordinal d).
Proof.
  unfold day_ok, next_day, toordinal. intros [Hm Hd] Hy.
  destruct (Nat.ltb_spec (day d) (days_in_month (year d) (month d))).
  - cbn [year month day]. lia.
  - destruct (Nat.ltb_spec (month d) 12); cbn [year month day].
    + rewrite days_before_month_S by lia. lia.
    + assert (month d = 12) as E by lia. rewrite E in *.
      rewrite days_before_year_S by exact Hy.
      pose proof (days_before_month_12 (year d)).
      change (days_in_month (year d) 12) with 31 in *.
      change (days_before_month (S (year d)) 1) with 0. lia.
Qed.

Lemma next_day_year (d : date) : year d <= year (next_day d).
Proof. unfold next_day. destruct (_ <? _); [cbn; lia|]. destruct (_ <? _); cbn; lia. Qed.

Lemma toordinal_add_days (d : date) (n : nat) :
  day_ok d -> 1 <= year d -> toordinal (add_days d n) = toordinal d + n.
Proof.
  revert d. induction n as [|n IH]; intros d Hok Hy; [cbn; lia|].
  cbn [add_days]. rewrite IH.
  - rewrite toordinal_next_day by assumption. lia.
  - apply next_day_ok, Hok.
  - pose proof (next_day_year d). lia.
Qed.

Lemma prev_day_next (d : date) :
  day_ok d -> 1 <= year d -> d <> mkDate 1 1 1 ->
  day_ok (prev_day d) /\ 1 <= year (prev_day d) /\ next_day (prev_day d) = d.
Proof.
  unfold day_ok, prev_day. destruct d as [y m dd]. cbn [year month day].
  intros [Hm Hd] Hy Hne.
  destruct (Nat.ltb_spec 1 dd).
  - cbn [year month day]. split; [lia|]. split; [lia|].
    unfold next_day. cbn [year month day].
    destruct (Nat.ltb_spec (dd - 1) (days_in_month y m)); [|lia].
    f_equal. lia.
  - assert (dd = 1) as -> by lia.
    destruct (Nat.ltb_spec 1 m).
    + cbn [year month day].
      pose proof (days_in_month_ge_28 y (m - 1) ltac:(lia)).
      split; [lia|]. split; [lia|].
      unfold next_day. cbn [year month day].
      rewrite Nat.ltb_irrefl.
      destruct (Nat.ltb_spec (m - 1) 12); [|lia]. f_equal. lia.
    + assert (m = 1) as -> by lia. cbn [year month day].
      assert (2 <= y) by (destruct (decide (y = 1)) as [->|]; [congruence | lia]).
      split; [cbn; lia|]. split; [lia|].
      unfold next_day. cbn [year month day days_in_month].
      change (31 <? 31) with false. change (12 <? 12) with false. cbv iota.
      f_equal. lia.
Qed.

Lemma toordinal_first (d : date) : day_ok d -> 1 <= year d -> 1 <= toordinal d.
Proof. unfold day_ok, toordinal. lia. Qed.

Lemma sub_days_spec (n : nat) (d : date) :
  day_ok d -> 1 <= year d -> n < toordinal d ->
  day_ok (sub_days d n) /\ 1 <= year (sub_days d n) /\
  toordinal (sub_days d n) = toordinal d - n /\
  add_days (sub_days d n) n = d.
Proof.
  revert d. induction n as [|n IH]; intros d Hok Hy Hn.
  - cbn [sub_days add_days]. split; [exact Hok|]. split; [exact Hy|].
    split; [lia | reflexivity].
  - cbn [sub_days].
    assert (d <> mkDate 1 1 1) as Hne by (intros ->; vm_compute in Hn; lia).
    destruct (prev_day_next d Hok Hy Hne) as (Hok' & Hy' & Enext).
    assert (toordinal d = S (toordinal (prev_day d))) as Eo
      by (rewrite <- (toordinal_next_day _ Hok' Hy'), Enext; reflexivity).
    destruct (IH (prev_day d) Hok' Hy' ltac:(lia)) as (H1 & H2 & H3 & H4).
    split; [exact H1|]. split; [exact H2|]. split; [lia|].
    replace (S n) with (n + 1) by lia. rewrite add_days_add, H4. exact Enext.
Qed.

Lemma days_before_year_mono (y z : nat) :
  1 <= y -> y <= z -> days_before_year y + 365 * (z - y) <= days_before_year z.
Proof.
  intros Hy Hz. induction Hz as [|z Hz IH]; [lia|].
  rewrite (days_before_year_S z) by lia.
  replace (S z - y) with (S (z - y)) by lia. destruct (is_leap z); lia.
Qed.

Lemma toordinal_in_year (d : date) :
  day_ok d -> 1 <= year d ->
  days_before_year (year d) < toordinal d <= days_before_year (S (year d)).
Proof.
  unfold day_ok, toordinal. intros [Hm Hd] Hy.
  rewrite (days_before_year_S (year d)) by exact Hy.
  split; [lia|].
  assert (days_before_month (year d) (month d) + days_in_month (year d) (month d)
          <= 365 + (if is_leap (year d) then 1 else 0)) as Hb.
  { generalize (year d). intros y. destruct (month d) as [|m]; [lia|].
    do 12 (destruct m as [|m];
           [unfold days_before_month, days_in_month; destruct (is_leap y); lia|]).
    lia. }
  lia.
Qed.

Lemma add_days_year (d : date) (n : nat) :
  day_ok d -> 1 <= year d -> n <= 365 -> year (add_days d n) <= S (year d).
Proof.
  intros Hok Hy Hn.
  assert (year d <= year (add_days d n)) as Hge.
  { clear Hok Hy Hn. revert d. induction n as [|n IH]; intros d; [cbn; lia|].
    cbn [add_days]. pose proof (next_day_year d). specialize (IH (next_day d)). lia. }
  pose proof (toordinal_add_days d n Hok Hy) as Eo.
  pose proof (toordinal_in_year d Hok Hy) as [_ Hup].
  pose proof (toordinal_in_year (add_days d n) (add_days_ok d n Hok) ltac:(lia)) as [Hlo _].
  destruct (Nat.le_gt_cases (year (add_days d n)) (S (year d))) as [|Hbig]; [assumption|].
  pose proof (days_before_year_mono (S (year d)) (year (add_days d n)) ltac:(lia) ltac:(lia)).
  lia.
Qed.

Lemma valid_date_intro (d : date) :
  day_ok d -> 1 <= year d -> year d <= MAXYEAR -> valid_date d = true.
Proof.
  unfold day_ok, valid_date. intros [Hm Hd] Hy Hmax.
  rewrite !andb_true_iff, !Nat.leb_le. lia.
Qed.

Lemma due_in_range_this_week (today : date) (t : task) :
  due_in_range today "this_week" t
  = match due_day t with
    | Some d =>
        date_leb (sub_days today (weekday today)) d
        && date_leb d (add_days (sub_days today (weekday today)) 6)
    | None => false
    end.
Proof.
  unfold due_in_range, due_day. destruct (due_date t) as [|c r].
  - cbn [before_space]. rewrite strptime_date_empty. reflexivity.
  - destruct (strptime_date (before_space (String c r))) as [p|]; reflexivity.
Qed.


